(** * Skylark BI agent: data cleaner and agent loop, verified against the code

    A shallow embedding of [backend/data_cleaner.py] and [backend/agent.py],
    with the constructor of [backend/monday_client.py].

    - Python [str] values are sequences of Unicode code points ([pystr]).
      Literals are written as UTF-8 text and decoded by [u].
    - Case mapping ([lower], [title]) is modelled on the ASCII letters; code
      points outside ASCII are left as they are.  What else depends on the
      Unicode database of the interpreter (the decimal digits [float]
      accepts, the characters [repr] escapes) is a parameter ([ucd]).
    - A Python float is a binary64 number: the rational it denotes, an
      infinity or NaN.  Decimal text and arithmetic are rounded to the
      nearest binary64 number, ties to even.  The sign of a zero is not
      kept (0.0 and -0.0 are equal in Python and differ only in print), and
      the text Python prints for a finite float is a parameter
      ([float_repr]).
    - A pandas DataFrame is a row count together with an ordered list of
      named columns, each with its dtype; the pandas operations the cleaner
      uses (dtype inference, the [.str] accessor, [apply], [isin],
      [fillna], [where], boolean row selection) are modelled next to the
      place where they are first needed, as pandas 2 with its default
      options behaves (text is stored in object columns, where [None]
      stays [None]).
    - Python exceptions are modelled by the [result] type; the exceptions
      are those derived from [Exception].
    - The language model, the Monday.com data source, [json.loads] and the
      clock are parameters of the agent loop. *)

From Stdlib Require Import List String Ascii NArith ZArith QArith Qabs Lia Bool Permutation.
From Stdlib Require Import DecimalString.
From Stdlib Require Floats.SpecFloat.
Import ListNotations.
Close Scope Q_scope.


(* ------------------------------------------------------------------ *)
(** ** Python strings *)

Module PyStr.

Definition pystr := list N.

Record utf8_state := { out_rev : list N; pending : N; need : nat }.

Definition utf8_step (st : utf8_state) (a : ascii) : utf8_state :=
  let b := N_of_ascii a in
  match need st with
  | O =>
      if (b <? 128)%N then {| out_rev := b :: out_rev st; pending := 0; need := 0 |}
      else if (b <? 224)%N then {| out_rev := out_rev st; pending := b - 192; need := 1 |}
      else if (b <? 240)%N then {| out_rev := out_rev st; pending := b - 224; need := 2 |}
      else {| out_rev := out_rev st; pending := b - 240; need := 3 |}
  | S k =>
      let p := (pending st * 64 + (b - 128))%N in
      match k with
      | O => {| out_rev := p :: out_rev st; pending := 0; need := 0 |}
      | _ => {| out_rev := out_rev st; pending := p; need := k |}
      end
  end.

(** [u s] is the Python string whose UTF-8 encoding is the literal [s]. *)
Definition u (s : string) : pystr :=
  rev (out_rev (fold_left utf8_step (list_ascii_of_string s)
                          {| out_rev := []; pending := 0; need := 0 |})).

Definition eqb (a b : pystr) : bool :=
  if list_eq_dec N.eq_dec a b then true else false.

(** [x in xs] for a list of strings. *)
Definition mem (x : pystr) (xs : list pystr) : bool := existsb (eqb x) xs.

(** [str.isspace] on one code point; the same class is [\s] of [re]. *)
Definition isspace (c : N) : bool :=
  ((9 <=? c) && (c <=? 13) || (28 <=? c) && (c <=? 32)
   || (c =? 133) || (c =? 160) || (c =? 5760)
   || (8192 <=? c) && (c <=? 8202)
   || (c =? 8232) || (c =? 8233) || (c =? 8239) || (c =? 8287) || (c =? 12288))%N.

Definition is_upper (c : N) : bool := ((65 <=? c) && (c <=? 90))%N.
Definition is_lower (c : N) : bool := ((97 <=? c) && (c <=? 122))%N.
Definition is_alpha (c : N) : bool := is_upper c || is_lower c.
Definition is_digit (c : N) : bool := ((48 <=? c) && (c <=? 57))%N.

Definition lower_char (c : N) : N := if is_upper c then (c + 32)%N else c.
Definition upper_char (c : N) : N := if is_lower c then (c - 32)%N else c.

(** [s.lower()] *)
Definition lower (s : pystr) : pystr := map lower_char s.

Fixpoint lstrip (s : pystr) : pystr :=
  match s with
  | c :: r => if isspace c then lstrip r else s
  | [] => []
  end.

(** [s.strip()] *)
Definition strip (s : pystr) : pystr := rev (lstrip (rev (lstrip s))).

Fixpoint title_from (prev_cased : bool) (s : pystr) : pystr :=
  match s with
  | [] => []
  | c :: r =>
      if is_alpha c
      then (if prev_cased then lower_char c else upper_char c) :: title_from true r
      else c :: title_from false r
  end.

(** [s.title()] *)
Definition title (s : pystr) : pystr := title_from false s.

Fixpoint starts_with (p s : pystr) : bool :=
  match p, s with
  | [], _ => true
  | a :: p', b :: s' => (a =? b)%N && starts_with p' s'
  | _ :: _, [] => false
  end.

(** [p in s] for strings: [p] occurs in [s] as a contiguous run. *)
Fixpoint contains (p s : pystr) : bool :=
  starts_with p s ||
  match s with
  | [] => false
  | _ :: r => contains p r
  end.

(** [s.replace(" ", "_")] *)
Definition replace_space_underscore (s : pystr) : pystr :=
  map (fun c => if (c =? 32)%N then 95%N else c) s.

(** [str(n)] for a natural number. *)
Definition of_nat (n : nat) : pystr :=
  map N_of_ascii (list_ascii_of_string (NilZero.string_of_uint (Nat.to_uint n))).

End PyStr.
Import PyStr.

(* ------------------------------------------------------------------ *)
(** ** Floats and cell values *)

(** A Python float is an IEEE 754 binary64 number.  A finite float is
    represented by the rational it denotes, kept in lowest terms. *)
Inductive pyfloat :=
| FFin (q : Q)
| FInf (negative : bool)
| FNaN.

Definition b64_prec : Z := 53.
Definition b64_emax : Z := 1024.

(** The binary64 number nearest to [n / d], ties to the even mantissa:
    the correctly rounded quotient of two integers, computed by the
    division of the Standard Library's specification of binary64. *)
Definition b64_of_ratio (n : Z) (d : positive) : SpecFloat.spec_float :=
  match n with
  | Z0 => SpecFloat.S754_zero false
  | Zpos p => SpecFloat.SFdiv b64_prec b64_emax (SpecFloat.S754_finite false p 0)
                              (SpecFloat.S754_finite false d 0)
  | Zneg p => SpecFloat.SFdiv b64_prec b64_emax (SpecFloat.S754_finite true p 0)
                              (SpecFloat.S754_finite false d 0)
  end.

Definition float_of_spec (x : SpecFloat.spec_float) : pyfloat :=
  match x with
  | SpecFloat.S754_zero _ => FFin 0
  | SpecFloat.S754_infinity s => FInf s
  | SpecFloat.S754_nan => FNaN
  | SpecFloat.S754_finite s m e =>
      FFin (Qred (inject_Z (if s then Zneg m else Zpos m) * Qpower 2 e))
  end.

(** The float a real number rounds to: the nearest binary64 number, an
    infinity beyond the range, zero below the smallest subnormal. *)
Definition float_of_Q (q : Q) : pyfloat :=
  float_of_spec (b64_of_ratio (Qnum q) (Qden q)).

(** [x * y] on floats. *)
Definition float_mul (x y : pyfloat) : pyfloat :=
  match x, y with
  | FNaN, _ | _, FNaN => FNaN
  | FFin a, FFin b => float_of_Q (a * b)
  | FInf s, FInf t => FInf (xorb s t)
  | FInf s, FFin b | FFin b, FInf s =>
      if Qeq_bool b 0 then FNaN else FInf (xorb s (negb (Qle_bool 0 b)))
  end.

(** The float written [m * 10^e], for stating results. *)
Definition dec (m e : Z) : pyfloat := float_of_Q (inject_Z m * Qpower 10 e).

Definition is_nan (x : pyfloat) : bool :=
  match x with FNaN => true | _ => false end.

(** [x == 0] on floats. *)
Definition float_is_zero (x : pyfloat) : bool :=
  match x with FFin q => Qeq_bool q 0 | _ => false end.

(** A cell of a raw record or of a frame. *)
Inductive value :=
| VNone
| VStr (s : pystr)
| VFloat (x : pyfloat)
| VBool (b : bool).

(** [pd.isna] on a scalar. *)
Definition isna (v : value) : bool :=
  match v with
  | VNone => true
  | VFloat FNaN => true
  | _ => false
  end.

Definition notna (v : value) : bool := negb (isna v).

(** Python truthiness, as used by [if not x]. *)
Definition truthy (v : value) : bool :=
  match v with
  | VNone => false
  | VStr s => match s with [] => false | _ => true end
  | VFloat x => negb (float_is_zero x)
  | VBool b => b
  end.

(* ------------------------------------------------------------------ *)
(** ** [float(s)] on a string *)

(** What the model takes from the Unicode database of the interpreter:
    the value of a decimal digit outside ASCII ([None] for a character that
    is not one), and whether a character outside ASCII is printable. *)
Record unicode_db := {
  decimal_digit : N -> option N;
  printable : N -> bool
}.

(** [repr(s)] for a string, which is also the text of a [KeyError] for the
    key [s]: the text in single quotes, or in double quotes when it holds a
    single quote and no double quote; the quote, the backslash and the
    characters that are not printable are escaped. *)
Definition hex_digit (n : N) : N := if (n <? 10)%N then (48 + n)%N else (87 + n)%N.

Fixpoint hex_fixed (width : nat) (n : N) : pystr :=
  match width with
  | O => []
  | S w => hex_fixed w (n / 16)%N ++ [hex_digit (n mod 16)%N]
  end.

Definition repr_char (db : unicode_db) (quote c : N) : pystr :=
  if ((c =? quote) || (c =? 92))%N then [92%N; c]
  else if (c =? 9)%N then u "\t"
  else if (c =? 10)%N then u "\n"
  else if (c =? 13)%N then u "\r"
  else if ((c <? 32) || (c =? 127))%N then u "\x" ++ hex_fixed 2 c
  else if (c <? 127)%N then [c]
  else if printable db c then [c]
  else if (c <? 256)%N then u "\x" ++ hex_fixed 2 c
  else if (c <? 65536)%N then u "\u" ++ hex_fixed 4 c
  else u "\U" ++ hex_fixed 8 c.

Definition repr_str (db : unicode_db) (s : pystr) : pystr :=
  let quote := if existsb (N.eqb 39) s && negb (existsb (N.eqb 34) s) then 34%N else 39%N in
  quote :: flat_map (repr_char db quote) s ++ [quote].

Module FloatParse.

(** [float] first rewrites the text in ASCII: a character below 127 stays,
    any other white-space character becomes a space, any other decimal
    digit becomes the ASCII digit of its value, and the text is cut at the
    first character that is none of these, which becomes "?". *)
Fixpoint ascii_form (db : unicode_db) (s : pystr) : pystr :=
  match s with
  | [] => []
  | c :: r =>
      if (c <? 127)%N then c :: ascii_form db r
      else if isspace c then 32%N :: ascii_form db r
      else match decimal_digit db c with
           | Some d => (48 + d)%N :: ascii_form db r
           | None => [63%N]
           end
  end.

(** The white space of C, which [float] skips at both ends. *)
Definition is_c_space (c : N) : bool := ((9 <=? c) && (c <=? 13) || (c =? 32))%N.

Fixpoint lstrip_c (s : pystr) : pystr :=
  match s with
  | c :: r => if is_c_space c then lstrip_c r else s
  | [] => []
  end.

Definition strip_c (s : pystr) : pystr := rev (lstrip_c (rev (lstrip_c s))).

(** Underscores may only stand between two digits; they are then dropped. *)
Fixpoint drop_underscores (prev : N) (s : pystr) : option pystr :=
  match s with
  | [] => if (prev =? 95)%N then None else Some []
  | c :: r =>
      if (c =? 95)%N then
        if is_digit prev then drop_underscores c r else None
      else
        if (prev =? 95)%N && negb (is_digit c) then None
        else option_map (cons c) (drop_underscores c r)
  end.

Definition split_sign (s : pystr) : bool * pystr :=
  match s with
  | 45%N :: r => (true, r)
  | 43%N :: r => (false, r)
  | _ => (false, s)
  end.

(** Leading digits of [s], as the number read so far and their count. *)
Fixpoint digits (acc : Z) (n : Z) (s : pystr) : Z * Z * pystr :=
  match s with
  | c :: r =>
      if is_digit c then digits (acc * 10 + (Z.of_N c - 48)) (n + 1) r
      else (acc, n, s)
  | [] => (acc, n, [])
  end.

Definition exponent (s : pystr) : option Z :=
  match s with
  | [] => Some 0%Z
  | c :: r =>
      if (c =? 101)%N || (c =? 69)%N then
        let '(neg, r') := split_sign r in
        match digits 0 0 r' with
        | (e, n, []) => if (0 <? n)%Z then Some (if neg then (- e)%Z else e) else None
        | _ => None
        end
      else None
  end.

Definition decimal (s : pystr) : option Q :=
  let '(i, ni, r1) := digits 0 0 s in
  let '(m, nf, r2) :=
    match r1 with
    | 46%N :: r => let '(m, n, r') := digits i 0 r in (m, n, r')
    | _ => (i, 0%Z, r1)
    end in
  if (0 <? ni + nf)%Z then
    match exponent r2 with
    | Some e => Some (inject_Z m * Qpower 10 (e - nf))%Q
    | None => None
    end
  else None.

(** [float(s)]: [None] stands for [ValueError]. *)
Definition float_of_str (db : unicode_db) (s : pystr) : option pyfloat :=
  match drop_underscores 0 (strip_c (ascii_form db s)) with
  | None => None
  | Some t =>
      let '(neg, body) := split_sign t in
      let lb := lower body in
      if eqb lb (u "inf") || eqb lb (u "infinity") then Some (FInf neg)
      else if eqb lb (u "nan") then Some FNaN
      else match decimal body with
           | Some q => Some (float_of_Q (if neg then (- q)%Q else q))
           | None => None
           end
  end.

End FloatParse.
Import FloatParse.

(* ------------------------------------------------------------------ *)
(** ** Number helpers (data_cleaner.py) *)

(** The characters removed by [re.sub(r"[₹$€£,\s]", "", ...)]. *)
Definition is_currency_noise (c : N) : bool :=
  ((c =? 8377) || (c =? 36) || (c =? 8364) || (c =? 163) || (c =? 44))%N || isspace c.

Definition strip_number_text (s : pystr) : pystr :=
  strip (filter (fun c => negb (is_currency_noise c)) s).

(** [str(value)] for the cells that reach a text operation. *)
Definition str_of_bool (b : bool) : pystr := if b then u "True" else u "False".

(* ------------------------------------------------------------------ *)
(** ** Exceptions *)

Inductive exn :=
| AttributeError (msg : pystr)
| TypeError (msg : pystr)
| KeyError (msg : pystr)
| ValueError (msg : pystr)
| RuntimeError (msg : pystr)
| RecursionError (msg : pystr).

(** [str(exc)] *)
Definition exn_str (e : exn) : pystr :=
  match e with
  | AttributeError m | TypeError m | KeyError m | ValueError m | RuntimeError m
  | RecursionError m => m
  end.

Inductive result (A : Type) :=
| Ok (a : A)
| Raise (e : exn).
Arguments Ok {A} a.
Arguments Raise {A} e.

Definition bind {A B} (r : result A) (k : A -> result B) : result B :=
  match r with
  | Ok a => k a
  | Raise e => Raise e
  end.

Notation "x <- r ;; k" := (bind r (fun x => k))
  (at level 61, r at next level, right associativity).

Section Skylark.

Set Default Proof Using "Type".

(** [str(x)] for a finite float [x]; the model does not compute the digits
    that Python prints. *)
Variable float_repr : Q -> pystr.

(** The Unicode database of the interpreter. *)
Variable ucd : unicode_db.

(** [parse_number]: [None] is Python's [None].  For a float that is not NaN
    the code computes [float(str(value))], which is the float itself. *)
Definition parse_number (v : value) : option pyfloat :=
  match v with
  | VNone => None
  | VFloat x => if is_nan x then None else Some x
  | VStr t =>
      let s := strip_number_text t in
      match s with
      | [] => None
      | _ => float_of_str ucd s
      end
  | VBool b =>
      match strip_number_text (str_of_bool b) with
      | [] => None
      | s => float_of_str ucd s
      end
  end.

Definition str_of_float (x : pyfloat) : pystr :=
  match x with
  | FFin q => float_repr q
  | FInf false => u "inf"
  | FInf true => u "-inf"
  | FNaN => u "nan"
  end.

(** [str(value)] *)
Definition str_of_value (v : value) : pystr :=
  match v with
  | VNone => u "None"
  | VStr s => s
  | VFloat x => str_of_float x
  | VBool b => str_of_bool b
  end.

(* ------------------------------------------------------------------ *)
(** ** Constants (data_cleaner.py) *)


Definition DEAL_STAGE_MAP : list (N * pystr) :=
  [ (97%N,  u "A – Lead Generated");
    (98%N,  u "B – Sales Qualified Lead");
    (99%N,  u "C – Demo Done");
    (100%N, u "D – Feasibility");
    (101%N, u "E – Proposal/Commercials Sent");
    (102%N, u "F – Negotiations");
    (103%N, u "G – Project Won");
    (104%N, u "H – Work Order Received");
    (105%N, u "I – POC");
    (106%N, u "J – Invoice Sent");
    (107%N, u "K – Amount Accrued");
    (108%N, u "L – Project Lost");
    (109%N, u "M – Projects On Hold");
    (110%N, u "N – Not Relevant At The Moment");
    (111%N, u "O – Not Relevant At All") ].

Definition _SENTINEL_DEAL_STATUS : list pystr := [u "deal status"; u "deal_status"].
Definition _SENTINEL_DEAL_STAGE  : list pystr := [u "deal stage"; u "deal_stage"].
Definition _SENTINEL_SECTOR      : list pystr := [u "sector/service"; u "sector"].

Definition ACTIVE_DEAL_STATUSES : list pystr := [u "open"].
Definition WON_DEAL_STATUSES    : list pystr := [u "won"].
Definition DEAD_DEAL_STATUSES   : list pystr := [u "dead"; u "lost"; u "project lost"].
Definition ON_HOLD_STATUSES     : list pystr := [u "on hold"; u "hold"].

Definition COMPLETED_WO_STATUSES : list pystr := [u "completed"].
Definition ONGOING_WO_STATUSES : list pystr :=
  [u "ongoing"; u "in progress"; u "executed until current month";
   u "partial completed"; u "pause / struck"; u "details pending from client"].

(* ------------------------------------------------------------------ *)
(** ** Deal stage normalisation *)

(** [dict.get(code)] on the stage table. *)
Fixpoint stage_lookup (code : N) (m : list (N * pystr)) : option pystr :=
  match m with
  | [] => None
  | (k, v) :: r => if (k =? code)%N then Some v else stage_lookup code r
  end.

(** [re.match(r"^([a-zA-Z])\.", s)]: the captured letter, if any. *)
Definition stage_prefix (s : pystr) : option N :=
  match s with
  | c :: 46%N :: _ => if is_alpha c then Some c else None
  | _ => None
  end.

Definition normalise_stage (stage : value) : value :=
  if negb (truthy stage) then VNone
  else
    match stage_prefix (strip (str_of_value stage)) with
    | Some c =>
        let code := lower_char c in
        match stage_lookup code DEAL_STAGE_MAP with
        | Some label => VStr label
        | None => stage
        end
    | None => stage
    end.

(** The keyword buckets of [stage_group], in the order they are tested. *)
Definition STAGE_BUCKETS : list (list pystr * pystr) :=
  [ ([u "lead generated"; u "sales qualified"], u "Early Stage");
    ([u "demo"; u "feasibility"], u "Qualification");
    ([u "proposal"; u "negotiat"; u "poc"], u "Active Pursuit");
    ([u "work order"; u "project won"; u "invoice"; u "amount accrued"], u "Won/Execution");
    ([u "lost"; u "not relevant"; u "on hold"], u "Closed/Inactive") ].

(** [any(x in s for x in keywords)] *)
Definition any_in (keywords : list pystr) (s : pystr) : bool :=
  existsb (fun x => contains x s) keywords.

Fixpoint first_bucket (buckets : list (list pystr * pystr)) (s : pystr) : pystr :=
  match buckets with
  | [] => u "Other"
  | (keywords, name) :: r => if any_in keywords s then name else first_bucket r s
  end.

Definition stage_group (stage : value) : pystr :=
  if negb (truthy stage) then u "Unknown"
  else first_bucket STAGE_BUCKETS (lower (str_of_value stage)).

(* ------------------------------------------------------------------ *)
(** ** Sector normalisation *)

Definition normalise_sector (sector : value) : value :=
  if negb (truthy sector) then VNone
  else
    let s := strip (str_of_value sector) in
    if mem (lower s) _SENTINEL_SECTOR then VNone
    else VStr (title s).

(* ------------------------------------------------------------------ *)
(** ** Frames: the part of pandas the cleaner uses *)

Inductive dtype := Object | Float64 | BoolT.

Record column := { cname : pystr; cdtype : dtype; cvals : list value }.

(** A DataFrame: [nrows] rows and the columns in their order.  Every column
    built by the functions below has [nrows] cells. *)
Record frame := { nrows : nat; columns : list column }.

Definition is_str (v : value) : bool := match v with VStr _ => true | _ => false end.
Definition is_bool (v : value) : bool := match v with VBool _ => true | _ => false end.
Definition is_float (v : value) : bool := match v with VFloat _ => true | _ => false end.

Definition none_to_nan (v : value) : value :=
  match v with VNone => VFloat FNaN | _ => v end.

(** The dtype pandas infers for a column of Python objects, with the cells
    as it stores them: a column holding only floats and [None] (and at least
    one float, NaN included) becomes float64 and its [None]s become NaN; a
    column of booleans becomes bool; everything else stays object. *)
Definition infer (name : pystr) (vals : list value) : column :=
  if existsb is_str vals then {| cname := name; cdtype := Object; cvals := vals |}
  else if existsb is_bool vals then
    if forallb is_bool vals then {| cname := name; cdtype := BoolT; cvals := vals |}
    else {| cname := name; cdtype := Object; cvals := vals |}
  else if existsb is_float vals then
    {| cname := name; cdtype := Float64; cvals := map none_to_nan vals |}
  else {| cname := name; cdtype := Object; cvals := vals |}.

(** A raw record: a Python dict, with its keys in insertion order. *)
Definition rawrow := list (pystr * value).

Fixpoint dict_get (k : pystr) (row : rawrow) : option value :=
  match row with
  | [] => None
  | (k', v) :: r => if eqb k' k then Some v else dict_get k r
  end.

(** The keys of all rows, each once, in the order of first appearance. *)
Definition add_key (acc : list pystr) (k : pystr) : list pystr :=
  if mem k acc then acc else acc ++ [k].

Definition all_keys (rows : list rawrow) : list pystr :=
  fold_left (fun acc row => fold_left add_key (map fst row) acc) rows [].

(** [pd.DataFrame(rows)]: a key missing from a row reads as NaN. *)
Definition DataFrame (rows : list rawrow) : frame :=
  {| nrows := List.length rows;
     columns :=
       map (fun k =>
              infer k (map (fun row =>
                              match dict_get k row with
                              | Some v => v
                              | None => VFloat FNaN
                              end) rows))
           (all_keys rows) |}.

(** [pd.DataFrame()] *)
Definition empty_frame : frame := {| nrows := 0; columns := [] |}.

Definition colnames (df : frame) : list pystr := map cname (columns df).

(** [col in df.columns] *)
Definition has_column (col : pystr) (df : frame) : bool := mem col (colnames df).

(** [df.rename(columns=rename)] with [rename] given as a function. *)
Definition rename_columns (f : pystr -> pystr) (df : frame) : frame :=
  {| nrows := nrows df;
     columns := map (fun c => {| cname := f (cname c); cdtype := cdtype c;
                                 cvals := cvals c |}) (columns df) |}.

(** [df.loc[:, ~df.columns.duplicated(keep='last')]]: a column is kept when
    no later column has its name. *)
Fixpoint drop_duplicated_keep_last (cols : list column) : list column :=
  match cols with
  | [] => []
  | c :: r =>
      if mem (cname c) (map cname r) then drop_duplicated_keep_last r
      else c :: drop_duplicated_keep_last r
  end.

Definition dedup_columns (df : frame) : frame :=
  {| nrows := nrows df; columns := drop_duplicated_keep_last (columns df) |}.

Fixpoint set_column (c : column) (cols : list column) : list column :=
  match cols with
  | [] => [c]
  | c' :: r => if eqb (cname c') (cname c) then c :: r else c' :: set_column c r
  end.

(** [df[name] = series]: an existing column keeps its place. *)
Definition assign (c : column) (df : frame) : frame :=
  {| nrows := nrows df; columns := set_column c (columns df) |}.

(** [if col not in df.columns: df[col] = None] *)
Definition ensure_column (df : frame) (col : pystr) : frame :=
  if has_column col df then df
  else assign {| cname := col; cdtype := Object; cvals := repeat VNone (nrows df) |} df.

Definition ensure_columns (cols : list pystr) (df : frame) : frame :=
  fold_left ensure_column cols df.

(** [df[col]] for a name that labels one column; with a duplicated label
    pandas hands back a frame instead of a series, and the caller's next
    step raises. *)
Definition get_column (col : pystr) (df : frame) : result column :=
  match filter (fun c => eqb (cname c) col) (columns df) with
  | [c] => Ok c
  | [] => Raise (KeyError (repr_str ucd col))
  | _ => Raise (ValueError (u "The truth value of a Series is ambiguous."))
  end.

(** The check behind [series.str]: the accessor exists for an object column
    whose non-null cells include a string, or that has no non-null cell. *)
Definition str_accessor (c : column) : result (list value) :=
  match cdtype c with
  | Object =>
      if existsb is_str (cvals c) || forallb isna (cvals c) then Ok (cvals c)
      else Raise (AttributeError (u "Can only use .str accessor with string values!"))
  | _ => Raise (AttributeError (u "Can only use .str accessor with string values!"))
  end.

(** One [.str] method: strings are mapped, null cells stay, any other cell
    becomes NaN. *)
Definition str_cell (f : pystr -> pystr) (v : value) : value :=
  match v with
  | VStr s => VStr (f s)
  | _ => if isna v then v else VFloat FNaN
  end.

Definition str_map (f : pystr -> pystr) (c : column) : result column :=
  vals <- str_accessor c ;;
  Ok {| cname := cname c; cdtype := Object; cvals := map (str_cell f) vals |}.

(** [series.isin(values)] on the cells. *)
Definition isin_cell (xs : list pystr) (v : value) : bool :=
  match v with VStr s => mem s xs | _ => false end.

(** [series.str.lower().isin(values)] *)
Definition lower_isin (xs : list pystr) (c : column) : result (list bool) :=
  l <- str_map lower c ;;
  Ok (map (isin_cell xs) (cvals l)).

(** [series.apply(f)] *)
Definition apply_column (f : value -> value) (name : pystr) (c : column) : column :=
  infer name (map f (cvals c)).

Definition of_option (o : option pyfloat) : value :=
  match o with Some x => VFloat x | None => VNone end.

Definition bool_column (name : pystr) (bs : list bool) : column :=
  {| cname := name; cdtype := BoolT; cvals := map VBool bs |}.

(** Rows of [l] whose flag in [keep] is set. *)
Fixpoint select {A} (keep : list bool) (l : list A) : list A :=
  match keep, l with
  | b :: keep', x :: l' => if b then x :: select keep' l' else select keep' l'
  | _, _ => []
  end.

(** [df[~mask].reset_index(drop=True)] *)
Definition drop_rows (mask : list bool) (df : frame) : frame :=
  let keep := map negb mask in
  {| nrows := List.length (select keep (repeat tt (nrows df)));
     columns := map (fun c => {| cname := cname c; cdtype := cdtype c;
                                 cvals := select keep (cvals c) |}) (columns df) |}.

(** [series.fillna(0.0)] *)
Definition fillna_zero (c : column) : column :=
  infer (cname c) (map (fun v => if isna v then VFloat (FFin 0) else v) (cvals c)).

(* ------------------------------------------------------------------ *)
(** ** Deals cleaner *)

(** [col.lower().replace(" ", "_")] *)
Definition lc_of (col : pystr) : pystr := replace_space_underscore (lower col).

(** ["x" in lc] *)
Definition within (x : string) (lc : pystr) : bool := contains (u x) lc.

(** The name [clean_deals] gives to the raw column [col]. *)
Definition rename_deal_column (col : pystr) : pystr :=
  let lc := lc_of col in
  if eqb lc (u "deal_name") || eqb lc (u "_name") then u "deal_name"
  else if within "owner" lc then u "owner_code"
  else if within "client" lc || within "company" lc then u "client_code"
  else if eqb lc (u "deal_status") then u "status"
  else if within "close_date" lc && negb (within "tentative" lc) && negb (within "actual" lc)
       then u "close_date_actual"
  else if within "closure_probability" lc || within "probability" lc then u "closure_probability"
  else if within "masked_deal_value" lc || within "deal_value" lc || within "value" lc then u "deal_value_raw"
  else if within "tentative" lc && within "close" lc then u "tentative_close_date"
  else if eqb lc (u "deal_stage") then u "stage_raw"
  else if within "product" lc then u "product"
  else if within "sector" lc || within "service" lc then u "sector_raw"
  else if within "created" lc then u "created_date"
  else col.

Definition DEAL_REQUIRED : list pystr :=
  [u "deal_name"; u "status"; u "stage_raw"; u "sector_raw"; u "deal_value_raw";
   u "closure_probability"; u "owner_code"].

(** Lines 130-169: build the frame, rename, drop duplicated names, add the
    required columns. *)
Definition prepare_deals (rows : list rawrow) : frame :=
  let df := DataFrame rows in
  let df := rename_columns rename_deal_column df in
  let df := dedup_columns df in
  ensure_columns DEAL_REQUIRED df.

Fixpoint or3 (a b c : list bool) : list bool :=
  match a, b, c with
  | x :: a', y :: b', z :: c' => (x || y || z) :: or3 a' b' c'
  | _, _, _ => []
  end.

(** Lines 172-176: the sentinel mask. *)
Definition deal_sentinel_mask (df : frame) : result (list bool) :=
  status <- get_column (u "status") df ;;
  m1 <- lower_isin _SENTINEL_DEAL_STATUS status ;;
  stage_raw <- get_column (u "stage_raw") df ;;
  m2 <- lower_isin _SENTINEL_DEAL_STAGE stage_raw ;;
  sector_raw <- get_column (u "sector_raw") df ;;
  m3 <- lower_isin _SENTINEL_SECTOR sector_raw ;;
  Ok (or3 m1 m2 m3).

(** [df[name] = df[src].str.strip().str.title()] *)
Definition strip_title (src : pystr) (df : frame) : result frame :=
  c <- get_column src df ;;
  s <- str_map strip c ;;
  t <- str_map title s ;;
  Ok (assign t df).

(** [df[name] = df[src].apply(f)] *)
Definition derive (name src : pystr) (f : value -> value) (df : frame) : result frame :=
  c <- get_column src df ;;
  Ok (assign (apply_column f name c) df).

(** [df[name] = df[src].str.lower().isin(xs)] *)
Definition classify (name src : pystr) (xs : list pystr) (df : frame) : result frame :=
  c <- get_column src df ;;
  bs <- lower_isin xs c ;;
  Ok (assign (bool_column name bs) df).

Definition parse_cell (v : value) : value := of_option (parse_number v).

(** Lines 180-191: clean, normalise and classify. *)
Definition enrich_deals (df : frame) : result frame :=
  df <- strip_title (u "status") df ;;
  df <- derive (u "deal_value") (u "deal_value_raw") parse_cell df ;;
  df <- derive (u "stage") (u "stage_raw") normalise_stage df ;;
  df <- derive (u "stage_group") (u "stage") (fun v => VStr (stage_group v)) df ;;
  df <- derive (u "sector") (u "sector_raw") normalise_sector df ;;
  df <- strip_title (u "closure_probability") df ;;
  df <- classify (u "is_open") (u "status") ACTIVE_DEAL_STATUSES df ;;
  df <- classify (u "is_won") (u "status") WON_DEAL_STATUSES df ;;
  df <- classify (u "is_dead") (u "status") DEAD_DEAL_STATUSES df ;;
  classify (u "is_on_hold") (u "status") ON_HOLD_STATUSES df.

Definition clean_deals (rows : list rawrow) : result frame :=
  let df := prepare_deals rows in
  mask <- deal_sentinel_mask df ;;
  enrich_deals (drop_rows mask df).

(* ------------------------------------------------------------------ *)
(** ** Work orders cleaner *)

Definition rename_wo_column (col : pystr) : pystr :=
  let lc := lc_of col in
  if within "deal_name" lc || eqb lc (u "_name") then u "deal_name"
  else if within "customer" lc || (within "company" lc && within "name" lc) then u "customer_code"
  else if within "serial" lc then u "serial_no"
  else if within "nature" lc then u "nature_of_work"
  else if within "execution_status" lc then u "execution_status"
  else if within "sector" lc then u "sector_raw"
  else if within "type_of_work" lc then u "type_of_work"
  else if within "amount" lc && within "excl" lc && negb (within "billed" lc) && negb (within "be_billed" lc)
       then u "amount_excl_gst_raw"
  else if within "amount" lc && within "incl" lc && negb (within "billed" lc) && negb (within "be_billed" lc)
          && negb (within "collected" lc)
       then u "amount_incl_gst_raw"
  else if within "billed_value" lc && within "excl" lc then u "billed_excl_gst_raw"
  else if within "billed_value" lc && within "incl" lc then u "billed_incl_gst_raw"
  else if within "collected_amount" lc || (within "collected" lc && within "amount" lc) then u "collected_raw"
  else if within "amount_receivable" lc || within "receivable" lc then u "receivable_raw"
  else if within "wo_status" lc || (within "status" lc && within "billed" lc) then u "wo_status"
  else if within "collection_status" lc || (within "collection" lc && within "status" lc)
       then u "collection_status"
  else if within "billing_status" lc then u "billing_status"
  else if within "personnel" lc || within "kam" lc || within "bd" lc then u "personnel_code"
  else if within "po" lc || within "loi" lc then u "po_date"
  else if within "invoice_date" lc || (within "invoice" lc && within "date" lc) then u "last_invoice_date"
  else col.

Definition WO_REQUIRED : list pystr :=
  [u "deal_name"; u "execution_status"; u "sector_raw";
   u "amount_excl_gst_raw"; u "amount_incl_gst_raw";
   u "billed_incl_gst_raw"; u "collected_raw"; u "receivable_raw";
   u "billing_status"; u "wo_status"].

Definition WO_FINANCIALS : list pystr :=
  [u "amount_excl_gst"; u "amount_incl_gst"; u "billed_incl_gst";
   u "collected"; u "receivable"].

Definition prepare_workorders (rows : list rawrow) : frame :=
  let df := DataFrame rows in
  let df := rename_columns rename_wo_column df in
  let df := dedup_columns df in
  ensure_columns WO_REQUIRED df.

(** [df[col] = df[col].fillna(0.0)] *)
Definition fill_financial (df : result frame) (col : pystr) : result frame :=
  df <- df ;;
  c <- get_column col df ;;
  Ok (assign (fillna_zero c) df).

Definition clean_workorders (rows : list rawrow) : result frame :=
  let df := prepare_workorders rows in
  df <- derive (u "amount_excl_gst") (u "amount_excl_gst_raw") parse_cell df ;;
  df <- derive (u "amount_incl_gst") (u "amount_incl_gst_raw") parse_cell df ;;
  df <- derive (u "billed_incl_gst") (u "billed_incl_gst_raw") parse_cell df ;;
  df <- derive (u "collected") (u "collected_raw") parse_cell df ;;
  df <- derive (u "receivable") (u "receivable_raw") parse_cell df ;;
  df <- derive (u "sector") (u "sector_raw") normalise_sector df ;;
  c <- get_column (u "execution_status") df ;;
  s <- str_map strip c ;;
  let df := assign s df in
  df <- classify (u "is_completed") (u "execution_status") COMPLETED_WO_STATUSES df ;;
  df <- classify (u "is_ongoing") (u "execution_status") ONGOING_WO_STATUSES df ;;
  fold_left fill_financial WO_FINANCIALS (Ok df).

(* ------------------------------------------------------------------ *)
(** ** Data-quality report *)

Record report := {
  deals_rows : nat;
  wo_rows : nat;
  deals_completeness : pystr;
  wo_completeness : pystr;
  issues : list pystr
}.

(** [df.empty] *)
Definition frame_empty (df : frame) : bool :=
  (nrows df =? 0)%nat || (List.length (columns df) =? 0)%nat.

(** [df.notna().sum().sum()] *)
Definition filled_cells (df : frame) : nat :=
  list_sum (map (fun c => List.length (filter notna (cvals c))) (columns df)).

(** [df.shape[0] * df.shape[1]] *)
Definition total_cells (df : frame) : nat := nrows df * List.length (columns df).

(** The nearest integer to [a / b], ties to the even one ([0 < b]). *)
Definition round_div (a b : Z) : Z :=
  let q := (a / b)%Z in
  let r := (a mod b)%Z in
  if (2 * r <? b)%Z then q
  else if (b <? 2 * r)%Z then (q + 1)%Z
  else if Z.even q then q else (q + 1)%Z.

(** [rint]: the integer nearest to a rational, ties to the even one. *)
Definition rint (q : Q) : Z := round_div (Qnum q) (Zpos (Qden q)).

(** [_completeness], in tenths of a percent.  [filled] is a numpy integer,
    so the quotient, the product and the rounding of
    [round(filled / total * 100, 1)] are those of numpy's float64: the
    quotient and the product are rounded to binary64, and [round(x, 1)] is
    [rint(x * 10) / 10], again with each step rounded.  The value given
    here is the integer [rint(x * 10)]; the float the code returns is the
    one nearest to a tenth of it. *)
Definition _completeness (df : frame) : Z :=
  let total := total_cells df in
  if (total =? 0)%nat then 1000%Z
  else
    let ratio := float_of_Q (Z.of_nat (filled_cells df) # Pos.of_nat total) in
    match float_mul (float_mul ratio (FFin 100)) (FFin 10) with
    | FFin q => rint q
    | _ => 0%Z
    end.

(** [f"{x}%"] for the float [x] nearest to [tenths / 10]: Python prints the
    shortest decimal that reads back as [x], which is [tenths / 10] written
    with one decimal. *)
Definition percent_text (tenths : Z) : pystr :=
  of_nat (Z.to_nat (tenths / 10)) ++ u "." ++ of_nat (Z.to_nat (tenths mod 10)) ++ u "%".

(** [series.isna().sum()] *)
Definition count_na (c : column) : nat := List.length (filter isna (cvals c)).

(** [x == 0] on a cell. *)
Definition cell_is_zero (v : value) : bool :=
  match v with
  | VFloat x => float_is_zero x
  | VBool b => negb b
  | _ => false
  end.

(** [(series == 0).sum()] *)
Definition count_zero (c : column) : nat := List.length (filter cell_is_zero (cvals c)).

(** One check of the report: when the frame has the column, count, and add
    the line if the count is not zero. *)
Definition issue_line (df : frame) (col : pystr) (count : column -> nat)
           (text : string) (acc : list pystr) : result (list pystr) :=
  if has_column col df then
    c <- get_column col df ;;
    let n := count c in
    if (n =? 0)%nat then Ok acc else Ok (acc ++ [of_nat n ++ u text])
  else Ok acc.

Definition deal_issues (df : frame) (acc : list pystr) : result (list pystr) :=
  if frame_empty df then Ok acc
  else
    acc <- issue_line df (u "deal_value") count_na " deals have no deal value" acc ;;
    acc <- issue_line df (u "sector") count_na " deals have no sector" acc ;;
    issue_line df (u "stage") count_na " deals have no stage" acc.

Definition wo_issues (df : frame) (acc : list pystr) : result (list pystr) :=
  if frame_empty df then Ok acc
  else
    acc <- issue_line df (u "amount_excl_gst") count_zero
                      " work orders have ₹0 / missing amount" acc ;;
    issue_line df (u "collected") count_zero " work orders show ₹0 collected" acc.

Definition quality_report (deals_df wo_df : frame) : result report :=
  acc <- deal_issues deals_df [] ;;
  acc <- wo_issues wo_df acc ;;
  Ok {| deals_rows := nrows deals_df;
        wo_rows := nrows wo_df;
        deals_completeness := percent_text (_completeness deals_df);
        wo_completeness := percent_text (_completeness wo_df);
        issues := acc |}.

(* ------------------------------------------------------------------ *)
(** ** Python objects that travel between the agent, the tools and the model *)

Set Warnings "-register-all".

Inductive py :=
| PNone
| PBool (b : bool)
| PInt (z : Z)
| PFloat (x : pyfloat)
| PStr (s : pystr)
| PList (l : list py)
| PDict (d : list (pystr * py)).

Definition py_of_value (v : value) : py :=
  match v with
  | VNone => PNone
  | VStr s => PStr s
  | VFloat x => PFloat x
  | VBool b => PBool b
  end.

Definition value_of_py (p : py) : option value :=
  match p with
  | PNone => Some VNone
  | PStr s => Some (VStr s)
  | PFloat x => Some (VFloat x)
  | PBool b => Some (VBool b)
  | _ => None
  end.

Definition py_of_row (row : rawrow) : py :=
  PDict (map (fun kv => (fst kv, py_of_value (snd kv))) row).

Fixpoint sequence {A} (l : list (option A)) : option (list A) :=
  match l with
  | [] => Some []
  | Some a :: r => option_map (cons a) (sequence r)
  | None :: _ => None
  end.

Definition row_of_py (p : py) : option rawrow :=
  match p with
  | PDict d => sequence (map (fun kv => option_map (pair (fst kv)) (value_of_py (snd kv))) d)
  | _ => None
  end.

Definition rows_of_py (p : py) : option (list rawrow) :=
  match p with
  | PList l => sequence (map row_of_py l)
  | _ => None
  end.

Fixpoint pydict_get (k : pystr) (d : list (pystr * py)) : option py :=
  match d with
  | [] => None
  | (k', v) :: r => if eqb k' k then Some v else pydict_get k r
  end.

(** [k in d] *)
Definition pydict_has (k : string) (d : list (pystr * py)) : bool :=
  match pydict_get (u k) d with Some _ => true | None => false end.

(** [type(p).__name__] *)
Definition py_type_name (p : py) : pystr :=
  match p with
  | PNone => u "NoneType"
  | PBool _ => u "bool"
  | PInt _ => u "int"
  | PFloat _ => u "float"
  | PStr _ => u "str"
  | PList _ => u "list"
  | PDict _ => u "dict"
  end.

(** [d.get(k, default)] *)
Definition dict_get_default (d : list (pystr * py)) (k : string) (default : py) : py :=
  match pydict_get (u k) d with
  | Some v => v
  | None => default
  end.

(** [str(z)] for an integer. *)
Definition str_of_Z (z : Z) : pystr :=
  map N_of_ascii (list_ascii_of_string (NilZero.string_of_int (Z.to_int z))).

(** [d[k]] on a dict whose keys are strings, with the error Python raises
    for a key that is absent or cannot be hashed. *)
Definition py_getitem (d : list (pystr * py)) (k : py) : result py :=
  match k with
  | PStr s => match pydict_get s d with
              | Some v => Ok v
              | None => Raise (KeyError (repr_str ucd s))
              end
  | PList _ => Raise (TypeError (u "unhashable type: 'list'"))
  | PDict _ => Raise (TypeError (u "unhashable type: 'dict'"))
  | PNone => Raise (KeyError (u "None"))
  | PBool b => Raise (KeyError (str_of_bool b))
  | PInt z => Raise (KeyError (str_of_Z z))
  | PFloat x => Raise (KeyError (str_of_float x))
  end.

(* ------------------------------------------------------------------ *)
(** ** The tool executor (agent.py) *)

(** [df.where(df.notna(), None).to_dict(orient="records")]: a null cell of
    an object column becomes [None]; a float64 column cannot hold [None],
    so its NaN cells stay NaN. *)
Definition null_to_none (v : value) : value := if isna v then VNone else v.

Definition record_cell (c : column) (i : nat) : value :=
  let v := nth i (cvals c) VNone in
  match cdtype c with
  | Object => null_to_none v
  | _ => v
  end.

Definition record_at (df : frame) (i : nat) : rawrow :=
  map (fun c => (cname c, record_cell c i)) (columns df).

Definition to_records (df : frame) : list rawrow :=
  map (record_at df) (seq 0 (nrows df)).

(** What the agent is built with. *)
Record agent := { monday_key : pystr; deals_id : pystr; wo_id : pystr }.

(** The environment variable [MONDAY_API_KEY]. *)
Variable env_monday_key : pystr.

(** The data source behind [MondayClient]: the boards a columns query
    returns (name and column list of each), and [get_all_items]. *)
Variable query_boards : pystr -> pystr -> result (list (pystr * list py)).
Variable get_all_items : pystr -> pystr -> result (list rawrow).

(** [MondayClient.__init__]: the key the client works with. *)
Definition MondayClient (api_key : pystr) : result pystr :=
  let k := match api_key with [] => env_monday_key | _ => api_key end in
  match k with
  | [] => Raise (ValueError (u "Monday API key is required"))
  | _ => Ok k
  end.

(** [MondayClient.get_columns] *)
Definition get_columns (client board_id : pystr) : result (list (pystr * py)) :=
  boards <- query_boards client board_id ;;
  match boards with
  | [] => Ok [(u "error", PStr (u "Board " ++ board_id ++ u " not found or not accessible"))]
  | (name, cols) :: _ =>
      Ok [(u "board_name", PStr name); (u "columns", PList cols)]
  end.

(** The cap of [rows[:30]]. *)
Definition ROW_CAP : nat := 30.

Definition board_map (a : agent) : list (pystr * py) :=
  [(u "deals", PStr (deals_id a)); (u "workorders", PStr (wo_id a))].

(** A board id is a string in every agent; the map holds nothing else. *)
Definition board_id_of (p : py) : pystr :=
  match p with PStr s => s | _ => [] end.

Definition py_eq_str (p : py) (s : string) : bool :=
  match p with PStr t => eqb t (u s) | _ => false end.

(** [_run_tool]; [args] is a dict, and so is the result, both given by
    their items. *)
Definition _run_tool (a : agent) (name : pystr) (args : list (pystr * py))
  : result (list (pystr * py)) :=
  client <- MondayClient (monday_key a) ;;
  if eqb name (u "get_board_columns") then
    b <- py_getitem args (PStr (u "board")) ;;
    id <- py_getitem (board_map a) b ;;
    get_columns client (board_id_of id)
  else if eqb name (u "get_board_items") then
    b <- py_getitem args (PStr (u "board")) ;;
    id <- py_getitem (board_map a) b ;;
    raw <- get_all_items client (board_id_of id) ;;
    df <- (if py_eq_str b "deals" then clean_deals raw else clean_workorders raw) ;;
    let rows := to_records df in
    let truncated_rows := firstn ROW_CAP rows in
    Ok [ (u "board", b);
         (u "total_rows", PInt (Z.of_nat (List.length rows)));
         (u "returned_rows", PInt (Z.of_nat (List.length truncated_rows)));
         (u "note", PStr (u "Output truncated to 30 rows due to API token limits"));
         (u "rows", PList (map py_of_row truncated_rows)) ]
  else Ok [(u "error", PStr (u "Unknown tool: " ++ name))].

(* ------------------------------------------------------------------ *)
(** ** The agent loop *)

Record tool_call := { tc_id : pystr; tc_name : pystr; tc_arguments : pystr }.

(** One reply of the model: [choices[0].message] and [finish_reason]. *)
Record reply := {
  content : option pystr;
  finish_reason : pystr;
  tool_calls : list tool_call
}.

(** The text of a message: plain text, or [json.dumps(p, default=str)] of a
    Python object, kept as the object that was serialised. *)
Inductive text :=
| Plain (s : pystr)
| Json (p : py).

Inductive message :=
| Msg (role : pystr) (body : text)
| AssistantCalls (body : pystr) (calls : list tool_call)
| ToolMsg (tool_call_id : pystr) (body : text).

Record event := {
  ev_type : pystr;
  ev_source : pystr;
  ev_content : list (pystr * py);
  ev_timestamp : pystr
}.

(** The model, [json.loads], and the clock read by [_event].  The model is
    an outside service: [model n msgs] is its reply to the [n]-th call of a
    query, made with the messages [msgs].  [json_loads s] is [Ok (Some p)]
    when [s] decodes to [p], [Ok None] when [s] is not JSON (a
    [JSONDecodeError]), and [Raise e] when the decoder fails in another way
    (a [RecursionError] on deeply nested text, a [ValueError] on an integer
    of more than 4300 digits).  The clock is indexed by the number of
    events recorded before. *)
Variable model : nat -> list message -> result reply.
Variable json_loads : pystr -> result (option py).
Variable clock : nat -> pystr.

Variable SYSTEM : pystr.

Definition MAX_LOOPS : nat := 8.

Definition LOOP_LIMIT_ANSWER : pystr :=
  u "⚠️ Agent loop limit reached. Please try a more specific question.".

Definition NO_RESPONSE : pystr := u "⚠️ No response generated.".

Record state := {
  messages : list message;
  trace : list event;
  fetched_deals_df : option frame;
  fetched_wo_df : option frame;
  loop_count : nat
}.

Record outcome := {
  answer : pystr;
  out_trace : list event;
  quality : option report
}.

(** [trace.append(_event(kind, content, source))] *)
Definition record_event (kind : string) (content : list (pystr * py)) (source : string)
           (tr : list event) : list event :=
  tr ++ [{| ev_type := u kind; ev_source := u source; ev_content := content;
            ev_timestamp := clock (List.length tr) |}].

(** [clean(rows) if rows else pd.DataFrame()] *)
Definition reclean (clean : list rawrow -> result frame) (rows : list rawrow) : result frame :=
  match rows with
  | [] => Ok empty_frame
  | _ => clean rows
  end.

Definition py_len (p : py) : nat :=
  match p with
  | PList l => List.length l
  | PDict d => List.length d
  | PStr s => List.length s
  | _ => 0
  end.

Definition or_none (o : option py) : py := match o with Some p => p | None => PNone end.

(** Lines 263-294: after [_run_tool] returned [res]: the frames kept for
    the quality report and the [tool_result] event. *)
Definition capture (st : state) (fn_name : pystr) (args res : list (pystr * py))
  : result state :=
  if eqb fn_name (u "get_board_items") && pydict_has "rows" res then
    let board := dict_get_default args "board" PNone in
    let rows := or_none (pydict_get (u "rows") res) in
    raw <- match rows_of_py rows with
           | Some r => Ok r
           | None => Raise (TypeError (u "rows are not records"))
           end ;;
    deals <- (if py_eq_str board "deals"
              then df <- reclean clean_deals raw ;; Ok (Some df)
              else Ok (fetched_deals_df st)) ;;
    wo <- (if py_eq_str board "deals" then Ok (fetched_wo_df st)
           else if py_eq_str board "workorders"
           then df <- reclean clean_workorders raw ;; Ok (Some df)
           else Ok (fetched_wo_df st)) ;;
    total <- py_getitem res (PStr (u "total_rows")) ;;
    Ok {| messages := messages st;
          trace := record_event "tool_result"
                     [ (u "tool", PStr fn_name);
                       (u "board", board);
                       (u "rows_fetched", total);
                       (u "columns", PList (map PStr (match raw with
                                                      | r :: _ => map fst r
                                                      | [] => []
                                                      end)));
                       (u "sample", PList (map py_of_row (firstn 2 raw))) ]
                     "Monday.com→Agent" (trace st);
          fetched_deals_df := deals;
          fetched_wo_df := wo;
          loop_count := loop_count st |}
  else if eqb fn_name (u "get_board_columns") && pydict_has "columns" res then
    let board := dict_get_default args "board" PNone in
    Ok {| messages := messages st;
          trace := record_event "tool_result"
                     [ (u "tool", PStr fn_name);
                       (u "board", board);
                       (u "board_name", or_none (pydict_get (u "board_name") res));
                       (u "columns_found",
                        PInt (Z.of_nat (py_len (or_none (pydict_get (u "columns") res)))));
                       (u "columns", or_none (pydict_get (u "columns") res)) ]
                     "Monday.com→Agent" (trace st);
          fetched_deals_df := fetched_deals_df st;
          fetched_wo_df := fetched_wo_df st;
          loop_count := loop_count st |}
  else
    Ok {| messages := messages st;
          trace := record_event "tool_result"
                     [ (u "tool", PStr fn_name); (u "result", PDict res) ]
                     "Monday.com→Agent" (trace st);
          fetched_deals_df := fetched_deals_df st;
          fetched_wo_df := fetched_wo_df st;
          loop_count := loop_count st |}.

(** The body of the [try]: run the tool, capture, serialise. *)
Definition dispatch (a : agent) (st : state) (fn_name : pystr) (args : list (pystr * py))
  : result (state * text) :=
  res <- _run_tool a fn_name args ;;
  st' <- capture st fn_name args res ;;
  Ok (st', Json (PDict res)).

Definition add_message (m : message) (st : state) : state :=
  {| messages := messages st ++ [m]; trace := trace st;
     fetched_deals_df := fetched_deals_df st; fetched_wo_df := fetched_wo_df st;
     loop_count := loop_count st |}.

Definition set_trace (tr : list event) (st : state) : state :=
  {| messages := messages st; trace := tr;
     fetched_deals_df := fetched_deals_df st; fetched_wo_df := fetched_wo_df st;
     loop_count := loop_count st |}.

(** Lines 254-311: the [try] around the tool, its [except], and the tool
    message; nothing is raised from here. *)
Definition guarded_dispatch (a : agent) (st : state) (tc : tool_call)
           (args : list (pystr * py)) : state :=
  let fn_name := tc_name tc in
  match dispatch a st fn_name args with
  | Ok (st', result_str) =>
      add_message (ToolMsg (tc_id tc) result_str) st'
  | Raise exc =>
      let err_msg := exn_str exc in
      let st' := set_trace (record_event "tool_error"
                              [ (u "tool", PStr fn_name); (u "error", PStr err_msg) ]
                              "Error" (trace st)) st in
      add_message (ToolMsg (tc_id tc) (Json (PDict [(u "error", PStr err_msg)]))) st'
  end.

(** Lines 242-245: [json.loads(tc.function.arguments)], with [{}] for
    text that is not JSON; any other failure of the decoder is not caught. *)
Definition decode_arguments (tc : tool_call) : result py :=
  decoded <- json_loads (tc_arguments tc) ;;
  match decoded with
  | Some p => Ok p
  | None => Ok (PDict [])
  end.

(** Lines 240-311: one requested tool call.  [args.get] of lines 249-250
    stands before the [try]: a decoded value that is not a dict has no
    [get], and the [AttributeError] leaves the loop. *)
Definition handle_tool_call (a : agent) (st : state) (tc : tool_call) : result state :=
  let fn_name := tc_name tc in
  args <- decode_arguments tc ;;
  match args with
  | PDict d =>
      let st := set_trace (record_event "tool_call"
                             [ (u "tool", PStr fn_name);
                               (u "board", dict_get_default d "board" (PStr (u "—")));
                               (u "reason", dict_get_default d "reason" (PStr []));
                               (u "input", args) ]
                             "Agent→Monday.com" (trace st)) st in
      Ok (guarded_dispatch a st tc d)
  | _ => Raise (AttributeError (u "'" ++ py_type_name args
                                  ++ u "' object has no attribute 'get'"))
  end.

Fixpoint handle_tool_calls (a : agent) (st : state) (tcs : list tool_call) : result state :=
  match tcs with
  | [] => Ok st
  | tc :: r => st' <- handle_tool_call a st tc ;; handle_tool_calls a st' r
  end.

Definition or_frame (o : option frame) : frame :=
  match o with Some df => df | None => empty_frame end.

(** Lines 209-220: the final answer. *)
Definition finalize (st : state) (msg : reply) : result outcome :=
  let answer := match content msg with
                | Some (c :: r) => c :: r
                | _ => NO_RESPONSE
                end in
  let tr := record_event "answer" [(u "text", PStr answer)] "Groq→Agent" (trace st) in
  match fetched_deals_df st, fetched_wo_df st with
  | None, None => Ok {| answer := answer; out_trace := tr; quality := None |}
  | d, w =>
      q <- quality_report (or_frame d) (or_frame w) ;;
      Ok {| answer := answer; out_trace := tr; quality := Some q |}
  end.

(** The [while] loop; [fuel] bounds the unfolding, and [None] is returned
    only if it runs out. *)
Fixpoint agent_loop (fuel : nat) (a : agent) (st : state) : option (result outcome) :=
  match fuel with
  | O => None
  | S fuel' =>
      if (loop_count st <? MAX_LOOPS)%nat then
        let st := {| messages := messages st; trace := trace st;
                     fetched_deals_df := fetched_deals_df st;
                     fetched_wo_df := fetched_wo_df st;
                     loop_count := loop_count st + 1 |} in
        match model (loop_count st) (messages st) with
        | Raise e => Some (Raise e)
        | Ok msg =>
            if eqb (finish_reason msg) (u "stop")
               || match tool_calls msg with [] => true | _ => false end
            then Some (finalize st msg)
            else
              let st := add_message
                          (AssistantCalls (match content msg with Some c => c | None => [] end)
                                          (tool_calls msg)) st in
              match handle_tool_calls a st (tool_calls msg) with
              | Raise e => Some (Raise e)
              | Ok st' => agent_loop fuel' a st'
              end
        end
      else
        Some (Ok {| answer := LOOP_LIMIT_ANSWER; out_trace := trace st; quality := None |})
  end.

Definition initial_state (user_message : pystr) (history : list (pystr * pystr)) : state :=
  {| messages := Msg (u "system") (Plain SYSTEM)
                 :: map (fun h => Msg (fst h) (Plain (snd h))) history
                 ++ [Msg (u "user") (Plain user_message)];
     trace := [];
     fetched_deals_df := None;
     fetched_wo_df := None;
     loop_count := 0 |}.

(** [BIAgent.query] *)
Definition query (a : agent) (user_message : pystr) (history : list (pystr * pystr))
  : option (result outcome) :=
  agent_loop (S MAX_LOOPS) a (initial_state user_message history).

(* ------------------------------------------------------------------ *)
(** ** Vocabulary of the properties *)

Definition DEAL_CANON : list pystr :=
  [u "deal_name"; u "owner_code"; u "client_code"; u "status"; u "close_date_actual";
   u "closure_probability"; u "deal_value_raw"; u "tentative_close_date"; u "stage_raw";
   u "product"; u "sector_raw"; u "created_date"].

Definition WO_CANON : list pystr :=
  [u "deal_name"; u "customer_code"; u "serial_no"; u "nature_of_work";
   u "execution_status"; u "sector_raw"; u "type_of_work"; u "amount_excl_gst_raw";
   u "amount_incl_gst_raw"; u "billed_excl_gst_raw"; u "billed_incl_gst_raw";
   u "collected_raw"; u "receivable_raw"; u "wo_status"; u "collection_status";
   u "billing_status"; u "personnel_code"; u "po_date"; u "last_invoice_date"].

Definition full_columns (df : frame) : Prop :=
  Forall (fun c => List.length (cvals c) = nrows df) (columns df).

Definition wf (df : frame) : Prop := NoDup (colnames df) /\ full_columns df.

(** The cells of the column labelled [col] (none when there is no such
    column). *)
Definition column_cells (col : pystr) (df : frame) : list value :=
  match get_column col df with
  | Ok c => cvals c
  | Raise _ => []
  end.

(** The cell of row [i] in column [col]. *)
Definition cell (df : frame) (col : pystr) (i : nat) : value :=
  nth i (column_cells col df) VNone.

Definition select_cells (keep : list bool) (c : column) : column :=
  {| cname := cname c; cdtype := cdtype c; cvals := select keep (cvals c) |}.

(** A step either fails or assigns one column labelled [name], with as
    many cells as the frame has rows. *)
Definition assigns (name : pystr) (op : frame -> result frame) : Prop :=
  forall df df', op df = Ok df' ->
    exists c, df' = assign c df /\ cname c = name /\
              (wf df -> List.length (cvals c) = nrows df).

(** Steps run one after the other, stopping at the first that fails. *)
Definition run_steps (ops : list (frame -> result frame)) (df : frame) : result frame :=
  fold_left (fun r op => bind r op) ops (Ok df).

Definition DEAL_STEPS : list (pystr * (frame -> result frame)) :=
  [ (u "status", strip_title (u "status"));
    (u "deal_value", derive (u "deal_value") (u "deal_value_raw") parse_cell);
    (u "stage", derive (u "stage") (u "stage_raw") normalise_stage);
    (u "stage_group", derive (u "stage_group") (u "stage") (fun v => VStr (stage_group v)));
    (u "sector", derive (u "sector") (u "sector_raw") normalise_sector);
    (u "closure_probability", strip_title (u "closure_probability"));
    (u "is_open", classify (u "is_open") (u "status") ACTIVE_DEAL_STATUSES);
    (u "is_won", classify (u "is_won") (u "status") WON_DEAL_STATUSES);
    (u "is_dead", classify (u "is_dead") (u "status") DEAD_DEAL_STATUSES);
    (u "is_on_hold", classify (u "is_on_hold") (u "status") ON_HOLD_STATUSES) ].

(** The labels [enrich_deals] assigns. *)
Definition DEAL_ASSIGNED : list pystr := map fst DEAL_STEPS.

(** The cell is a string that, lower-cased, is one of [labels]. *)
Definition header_label (labels : list pystr) (v : value) : bool :=
  match v with
  | VStr s => mem (lower s) labels
  | _ => false
  end.

(** Row [i] of the prepared deals frame repeats a header. *)
Definition sentinel_row (df : frame) (i : nat) : bool :=
  header_label _SENTINEL_DEAL_STATUS (cell df (u "status") i)
  || header_label _SENTINEL_DEAL_STAGE (cell df (u "stage_raw") i)
  || header_label _SENTINEL_SECTOR (cell df (u "sector_raw") i).

(** The raw field that ends up under the label [name]: the last key, in the
    order of the raw columns, that [f] renames to [name]. *)
Definition field_key (f : pystr -> pystr) (rows : list rawrow) (name : pystr)
  : option pystr :=
  find (fun k => eqb (f k) name) (rev (all_keys rows)).

(** The value of row [i] under the key [k]; NaN when the row lacks it. *)
Definition raw_cell (rows : list rawrow) (k : pystr) (i : nat) : value :=
  match dict_get k (nth i rows []) with
  | Some v => v
  | None => VFloat FNaN
  end.

(** The value of row [i] in the field that is renamed to [name]; [None]
    when no raw field is. *)
Definition raw_field (f : pystr -> pystr) (rows : list rawrow) (name : pystr) (i : nat)
  : value :=
  match field_key f rows name with
  | Some k => raw_cell rows k i
  | None => VNone
  end.

(** Row [i] of the raw deal rows repeats a header: its status, stage or
    sector field, lower-cased, is one of the header labels. *)
Definition sentinel_raw (rows : list rawrow) (i : nat) : bool :=
  header_label _SENTINEL_DEAL_STATUS (raw_field rename_deal_column rows (u "status") i)
  || header_label _SENTINEL_DEAL_STAGE (raw_field rename_deal_column rows (u "stage_raw") i)
  || header_label _SENTINEL_SECTOR (raw_field rename_deal_column rows (u "sector_raw") i).

Definition find_column (col : pystr) (df : frame) : option column :=
  find (fun c => eqb (cname c) col) (columns df).

(** The count an issue line reports: nothing for an empty frame or a frame
    without the column. *)
Definition issue_count (count : column -> nat) (col : pystr) (df : frame) : nat :=
  if frame_empty df then 0
  else match find_column col df with
       | Some c => count c
       | None => 0
       end.

(** The line for a count: present only when the count is positive. *)
Definition opt_line (n : nat) (text : string) : list pystr :=
  match n with
  | O => []
  | _ => [of_nat n ++ u text]
  end.

Definition textual_value (v : value) : Prop := v = VNone \/ exists s, v = VStr s.

(** An object column whose cells are strings or [None]. *)
Definition textual_col (c : column) : Prop :=
  cdtype c = Object /\ Forall textual_value (cvals c).

(** The column [series.str.strip().str.title()] builds. *)
Definition titled (c : column) : column :=
  {| cname := cname c; cdtype := Object;
     cvals := map (str_cell title) (map (str_cell strip) (cvals c)) |}.

(** The column [series.str.strip()] builds. *)
Definition stripped (c : column) : column :=
  {| cname := cname c; cdtype := Object; cvals := map (str_cell strip) (cvals c) |}.

(** Every column of the frame is a text column. *)
Definition all_textual (df : frame) : Prop := Forall textual_col (columns df).

(** Raw rows whose values are strings or null. *)
Definition textual_rows (rows : list rawrow) : Prop :=
  forall row k v, In row rows -> In (k, v) row -> textual_value v.

(** Raw rows that all carry the same keys. *)
Definition rectangular (rows : list rawrow) : Prop :=
  forall row k, In row rows -> In k (all_keys rows) -> dict_get k row <> None.

Definition strip_execution_status (df : frame) : result frame :=
  c <- get_column (u "execution_status") df ;;
  s <- str_map strip c ;;
  Ok (assign s df).

Definition fill_step (col : pystr) (df : frame) : result frame :=
  fill_financial (Ok df) col.

Definition WO_STEPS : list (pystr * (frame -> result frame)) :=
  [ (u "amount_excl_gst", derive (u "amount_excl_gst") (u "amount_excl_gst_raw") parse_cell);
    (u "amount_incl_gst", derive (u "amount_incl_gst") (u "amount_incl_gst_raw") parse_cell);
    (u "billed_incl_gst", derive (u "billed_incl_gst") (u "billed_incl_gst_raw") parse_cell);
    (u "collected", derive (u "collected") (u "collected_raw") parse_cell);
    (u "receivable", derive (u "receivable") (u "receivable_raw") parse_cell);
    (u "sector", derive (u "sector") (u "sector_raw") normalise_sector);
    (u "execution_status", strip_execution_status);
    (u "is_completed", classify (u "is_completed") (u "execution_status") COMPLETED_WO_STATUSES);
    (u "is_ongoing", classify (u "is_ongoing") (u "execution_status") ONGOING_WO_STATUSES);
    (u "amount_excl_gst", fill_step (u "amount_excl_gst"));
    (u "amount_incl_gst", fill_step (u "amount_incl_gst"));
    (u "billed_incl_gst", fill_step (u "billed_incl_gst"));
    (u "collected", fill_step (u "collected"));
    (u "receivable", fill_step (u "receivable")) ].

(** The labels [clean_workorders] assigns. *)
Definition WO_ASSIGNED : list pystr := map fst WO_STEPS.

(** The value a financial field of a cleaned work order holds, from the raw
    cell: the parsed number, or 0.0 when there is none. *)
Definition financial_value (v : value) : pyfloat :=
  match parse_number v with
  | Some x => if is_nan x then FFin 0 else x
  | None => FFin 0
  end.

(** The raw column a financial field is parsed from. *)
Definition raw_of (col : pystr) : pystr := col ++ u "_raw".

(** The dict [_run_tool] returns for [get_board_items], for the board
    argument [b] and the cleaned frame [df]. *)
Definition items_payload (b : py) (df : frame) : list (pystr * py) :=
  [ (u "board", b);
    (u "total_rows", PInt (Z.of_nat (nrows df)));
    (u "returned_rows", PInt (Z.of_nat (Nat.min ROW_CAP (nrows df))));
    (u "note", PStr (u "Output truncated to 30 rows due to API token limits"));
    (u "rows", PList (map py_of_row (firstn ROW_CAP (to_records df)))) ].

(** The decoded arguments are a JSON object (or the text was not JSON). *)
Definition object_arguments (tc : tool_call) : Prop :=
  exists d, decode_arguments tc = Ok (PDict d).

Definition textual_valueb (v : value) : bool :=
  match v with VNone | VStr _ => true | _ => false end.

Definition textual_rowsb (rows : list rawrow) : bool :=
  forallb (fun row => forallb (fun kv => textual_valueb (snd kv)) row) rows.

Definition rectangularb (rows : list rawrow) : bool :=
  forallb (fun row =>
             forallb (fun k => match dict_get k row with Some _ => true | None => false end)
                     (all_keys rows)) rows.

(** The number of cells of a frame that are not null. *)
Definition non_null_cells (df : frame) : nat :=
  List.length (filter notna (flat_map cvals (columns df))).

(** The completeness printed for [filled] cells out of [total], in tenths
    of a percent: the quotient, its product with 100 and the product with
    10 are each rounded to binary64, and the last one to an integer. *)
Definition tenths_of_ratio (filled total : nat) : Z :=
  match float_mul (float_mul (float_of_Q (Z.of_nat filled # Pos.of_nat total)) (FFin 100))
                  (FFin 10) with
  | FFin q => rint q
  | _ => 0%Z
  end.

(** The tenths printed for [filled] out of [total] are nearest to the exact
    value [1000 * filled / total]. *)
Definition tenths_nearest (total filled : nat) : bool :=
  (2 * Z.abs (1000 * Z.of_nat filled - Z.of_nat total * tenths_of_ratio filled total)
   <=? Z.of_nat total)%Z.

Definition tenths_nearest_upto (bound : nat) : bool :=
  forallb (fun total => forallb (tenths_nearest total) (seq 0 (S total))) (seq 1 bound).

(* ------------------------------------------------------------------ *)
(** * Properties *)

(** Drops the parts of the environment a statement does not mention. *)
Ltac tidy :=
  try clear SYSTEM; try clear clock; try clear json_loads; try clear model;
  try clear get_all_items; try clear query_boards; try clear env_monday_key;
  try clear ucd; try clear float_repr.

(* ------------------------------------------------------------------ *)
(** ** Strings *)

Lemma eqb_eq a b : PyStr.eqb a b = true <-> a = b.
Proof. unfold PyStr.eqb; destruct (list_eq_dec N.eq_dec a b); split; congruence. Qed.

Lemma eqb_refl a : PyStr.eqb a a = true.
Proof. now apply eqb_eq. Qed.

Lemma eqb_neq a b : PyStr.eqb a b = false <-> a <> b.
Proof. unfold PyStr.eqb; destruct (list_eq_dec N.eq_dec a b); split; congruence. Qed.

Lemma mem_In x xs : mem x xs = true <-> In x xs.
Proof.
  unfold mem; rewrite existsb_exists; split.
  - intros [y [Hy He]]; apply eqb_eq in He; now subst.
  - intros H; exists x; split; [assumption | apply eqb_refl].
Qed.

Example u_rupee : u "₹1" = [8377; 49]%N.
Proof. reflexivity. Qed.

Example title_deal_status : title (u "deal STATUS") = u "Deal Status".
Proof. reflexivity. Qed.

Example strip_example : strip (u "  c. Demo Done ") = u "c. Demo Done".
Proof. reflexivity. Qed.

Example of_nat_45 : of_nat 45 = u "45".
Proof. reflexivity. Qed.

Example float_plain : float_of_str ucd (u "123456.78") = Some (dec 12345678 (-2)).
Proof. vm_compute. reflexivity. Qed.

Example float_exp : float_of_str ucd (u "-1_0.5e+2") = Some (dec (-1050) 0).
Proof. vm_compute. reflexivity. Qed.

Example float_bad : float_of_str ucd (u "12abc") = None /\ float_of_str ucd (u ".") = None
                    /\ float_of_str ucd (u "1e") = None /\ float_of_str ucd (u "1__0") = None.
Proof. vm_compute. repeat split. Qed.

Example float_underflow : float_of_str ucd (u "1e-400") = Some (FFin 0).
Proof. vm_compute. reflexivity. Qed.

Example float_overflow : float_of_str ucd (u "1e400") = Some (FInf false).
Proof. vm_compute. reflexivity. Qed.

Example parse_number_rupee :
  parse_number (VStr (u "₹1,23,456.78")) = Some (dec 12345678 (-2)).
Proof. vm_compute. reflexivity. Qed.

Lemma lstrip_no_space s :
  (forall c r, s = c :: r -> isspace c = false) -> lstrip s = s.
Proof.
  destruct s as [|c r]; intros H; [reflexivity|].
  simpl. now rewrite (H c r eq_refl).
Qed.

Lemma strip_no_space s :
  Forall (fun c => isspace c = false) s -> strip s = s.
Proof.
  intros H. unfold strip.
  rewrite (lstrip_no_space s).
  - rewrite lstrip_no_space; [apply rev_involutive|].
    intros c r E. apply Forall_rev in H. rewrite E in H. now inversion H.
  - intros c r E. rewrite E in H. now inversion H.
Qed.

Lemma lstrip_keeps_tail x d c :
  isspace d = false -> exists y, lstrip (x ++ [d; c]) = y ++ [d; c].
Proof.
  intros Hd. induction x as [|a x IH]; simpl.
  - rewrite Hd. now exists [].
  - destruct (isspace a); [exact IH|]. now exists (a :: x).
Qed.

(** Stripping leaves a leading pair of non-blank characters in place. *)
Lemma strip_keeps_head c d rest :
  isspace c = false -> isspace d = false ->
  exists rest', strip (c :: d :: rest) = c :: d :: rest'.
Proof.
  intros Hc Hd. unfold strip.
  assert (E1 : lstrip (c :: d :: rest) = c :: d :: rest) by (simpl; now rewrite Hc).
  assert (E2 : rev (c :: d :: rest) = rev rest ++ [d; c])
    by (simpl; now rewrite <- app_assoc).
  rewrite E1, E2.
  destruct (lstrip_keeps_tail (rev rest) d c Hd) as [y Hy].
  rewrite Hy, rev_app_distr. simpl. now exists (rev y).
Qed.

Lemma is_alpha_not_space c : is_alpha c = true -> isspace c = false.
Proof.
  unfold is_alpha, is_upper, is_lower, isspace. intros H.
  apply orb_true_iff in H.
  repeat rewrite andb_true_iff in H. repeat rewrite N.leb_le in H.
  repeat (apply orb_false_iff; split);
    try (apply andb_false_iff; rewrite !N.leb_gt; lia);
    try (apply N.eqb_neq; lia).
Qed.

(* ------------------------------------------------------------------ *)
(** ** Number parsing *)

Lemma is_currency_noise_spec c :
  is_currency_noise c = true <->
  (In [c] [u "₹"; u "$"; u "€"; u "£"; u ","] \/ isspace c = true).
Proof.
  unfold is_currency_noise. rewrite !orb_true_iff, !N.eqb_eq.
  change (u "₹") with [8377%N]. change (u "$") with [36%N].
  change (u "€") with [8364%N]. change (u "£") with [163%N].
  change (u ",") with [44%N]. simpl In.
  split.
  - intros [[[[[H|H]|H]|H]|H]|H]; subst; auto 10.
  - intros [[H|[H|[H|[H|[H|[]]]]]]|H]; try (injection H as <-); auto 10.
Qed.

Lemma strip_number_text_filter s :
  strip_number_text s = filter (fun c => negb (is_currency_noise c)) s.
Proof.
  unfold strip_number_text. apply strip_no_space.
  apply Forall_forall. intros c Hc. apply filter_In in Hc as [_ Hc].
  apply negb_true_iff in Hc. unfold is_currency_noise in Hc.
  now apply orb_false_iff in Hc.
Qed.

(** C4. [parse_number] removes the currency symbols ₹ $ € £, commas and
    whitespace from its text, keeps every other character in order, and
    parses what is left as a float; it returns null when nothing is left,
    when the parse fails, for a null input and for a NaN float, and it is a
    total function (no exception).  In particular "₹1,23,456.78" gives
    the float 123456.78, which is 4241942660555735 / 2^35, and the empty
    string and [None] give null. *)
Theorem parse_number_spec :
  parse_number VNone = None /\
  parse_number (VFloat FNaN) = None /\
  (forall s,
      let t := filter (fun c => negb (is_currency_noise c)) s in
      (forall c, In c t <->
                 In c s /\ ~ (In [c] [u "₹"; u "$"; u "€"; u "£"; u ","] \/ isspace c = true)) /\
      parse_number (VStr s) = match t with [] => None | _ => float_of_str ucd t end) /\
  (forall s, float_of_str ucd (strip_number_text s) = None -> parse_number (VStr s) = None) /\
  parse_number (VStr (u "₹1,23,456.78")) = Some (dec 12345678 (-2)) /\
  dec 12345678 (-2) = FFin (4241942660555735 # 34359738368) /\
  parse_number (VStr (u "")) = None.
Proof. tidy.
  split; [reflexivity|]. split; [reflexivity|]. split.
  - intros s t. split.
    + intros c. unfold t. rewrite filter_In, negb_true_iff, <- is_currency_noise_spec.
      destruct (is_currency_noise c); intuition congruence.
    + unfold parse_number. rewrite strip_number_text_filter. fold t. now destruct t.
  - split.
    + intros s H. unfold parse_number. rewrite H. now destruct (strip_number_text s).
    + split; [vm_compute; reflexivity|]. split; [vm_compute; reflexivity|]. reflexivity.
Qed.

(* ------------------------------------------------------------------ *)
(** ** Stage normalisation and stage groups *)

Lemma stage_lookup_known code :
  (97 <= code <= 111)%N -> exists label, stage_lookup code DEAL_STAGE_MAP = Some label.
Proof.
  intros H. unfold DEAL_STAGE_MAP. cbn [stage_lookup].
  repeat match goal with
         | |- context [(?k =? code)%N] =>
             destruct (N.eqb_spec k code); [eexists; reflexivity|]
         end.
  lia.
Qed.

Lemma stage_lookup_unknown code :
  (code < 97 \/ 111 < code)%N -> stage_lookup code DEAL_STAGE_MAP = None.
Proof.
  intros H. unfold DEAL_STAGE_MAP. cbn [stage_lookup].
  repeat match goal with
         | |- context [(?k =? code)%N] => destruct (N.eqb_spec k code); [lia|]
         end.
  reflexivity.
Qed.

Lemma truthy_nonempty s : s <> [] -> truthy (VStr s) = true.
Proof. destruct s; [congruence | reflexivity]. Qed.

Lemma normalise_stage_prefixed c rest :
  is_alpha c = true ->
  normalise_stage (VStr (c :: 46%N :: rest)) =
  match stage_lookup (lower_char c) DEAL_STAGE_MAP with
  | Some label => VStr label
  | None => VStr (c :: 46%N :: rest)
  end.
Proof.
  intros Hc. unfold normalise_stage. cbn [truthy negb str_of_value].
  destruct (strip_keeps_head c 46%N rest (is_alpha_not_space c Hc) eq_refl) as [r' ->].
  cbn [stage_prefix]. now rewrite Hc.
Qed.

Lemma first_bucket_first pre kw name post s :
  (forall b, In b pre -> any_in (fst b) s = false) ->
  any_in kw s = true ->
  first_bucket (pre ++ (kw, name) :: post) s = name.
Proof.
  intros Hpre Hkw. induction pre as [|[k n] pre IH]; simpl.
  - now rewrite Hkw.
  - pose proof (Hpre (k, n) (or_introl eq_refl)) as E. simpl in E. rewrite E. apply IH.
    intros b Hb. apply Hpre. now right.
Qed.

Lemma first_bucket_none bs s :
  (forall b, In b bs -> any_in (fst b) s = false) -> first_bucket bs s = u "Other".
Proof.
  intros H. induction bs as [|[k n] bs IH]; [reflexivity|]. simpl.
  pose proof (H (k, n) (or_introl eq_refl)) as E. simpl in E. rewrite E.
  apply IH. intros b Hb. apply H. now right.
Qed.

(** C3, as amended.  A stage string that begins with a letter and a dot is
    normalised by looking the lower-cased letter up in the 15-entry stage
    table: the letters a to o (either case) give the table's label, any
    other letter leaves the string unchanged.  A non-empty string without
    such a prefix passes through unchanged; the empty string is normalised
    to null, like an absent stage.  [stage_group] tests the five keyword
    buckets in the order Early Stage, Qualification, Active Pursuit,
    Won/Execution, Closed/Inactive and returns the first that matches,
    "Other" when none does, and "Unknown" for an absent (or empty) stage.
    The stage "a. Lead Generated" with value ₹50,00,000 gives the group
    "Early Stage" and the value 5000000.0. *)
Theorem stage_normalisation_spec :
  List.length DEAL_STAGE_MAP = 15 /\
  (forall c rest, is_alpha c = true ->
     normalise_stage (VStr (c :: 46%N :: rest)) =
     match stage_lookup (lower_char c) DEAL_STAGE_MAP with
     | Some label => VStr label
     | None => VStr (c :: 46%N :: rest)
     end) /\
  (forall c, is_alpha c = true -> (lower_char c <= 111)%N ->
     exists label, stage_lookup (lower_char c) DEAL_STAGE_MAP = Some label) /\
  (forall c, is_alpha c = true -> (111 < lower_char c)%N ->
     stage_lookup (lower_char c) DEAL_STAGE_MAP = None) /\
  (forall s, s <> [] -> stage_prefix (strip s) = None ->
     normalise_stage (VStr s) = VStr s) /\
  normalise_stage (VStr []) = VNone /\
  normalise_stage VNone = VNone /\
  stage_group VNone = u "Unknown" /\
  stage_group (VStr []) = u "Unknown" /\
  map snd STAGE_BUCKETS =
    [u "Early Stage"; u "Qualification"; u "Active Pursuit"; u "Won/Execution";
     u "Closed/Inactive"] /\
  (forall s, s <> [] -> stage_group (VStr s) = first_bucket STAGE_BUCKETS (lower s)) /\
  (forall pre kw name post s,
     (forall b, In b pre -> any_in (fst b) s = false) ->
     any_in kw s = true ->
     first_bucket (pre ++ (kw, name) :: post) s = name) /\
  (forall bs s, (forall b, In b bs -> any_in (fst b) s = false) ->
     first_bucket bs s = u "Other") /\
  normalise_stage (VStr (u "c. Demo Done")) = VStr (u "C – Demo Done") /\
  stage_group (normalise_stage (VStr (u "a. Lead Generated"))) = u "Early Stage" /\
  parse_number (VStr (u "₹50,00,000")) = Some (FFin 5000000).
Proof.
  split; [reflexivity|].
  split; [exact normalise_stage_prefixed|].
  split.
  { intros c Hc Hle. apply stage_lookup_known. split; [|exact Hle].
    unfold is_alpha, lower_char in *.
    destruct (is_upper c) eqn:E.
    - unfold is_upper in E. apply andb_true_iff in E as [E1 E2].
      apply N.leb_le in E1. lia.
    - simpl in Hc. unfold is_lower in Hc. apply andb_true_iff in Hc as [E1 E2].
      now apply N.leb_le in E1. }
  split.
  { intros c _ Hgt. apply stage_lookup_unknown. now right. }
  split.
  { intros s Hs Hp. unfold normalise_stage. rewrite (truthy_nonempty s Hs).
    cbn [negb str_of_value]. now rewrite Hp. }
  split; [reflexivity|]. split; [reflexivity|]. split; [reflexivity|].
  split; [reflexivity|]. split; [reflexivity|].
  split.
  { intros s Hs. unfold stage_group. now rewrite (truthy_nonempty s Hs). }
  split; [exact first_bucket_first|].
  split; [exact first_bucket_none|].
  split; [vm_compute; reflexivity|].
  split; vm_compute; reflexivity.
Qed.

(* ------------------------------------------------------------------ *)
(** ** Column renaming *)

Ltac rename_chain :=
  repeat match goal with
         | |- context [if ?b then _ else _] =>
             destruct b; [right; apply mem_In; vm_compute; reflexivity|]
         end;
  left; reflexivity.

Lemma rename_deal_cases c :
  rename_deal_column c = c \/ In (rename_deal_column c) DEAL_CANON.
Proof. unfold rename_deal_column. rename_chain. Qed.

Lemma rename_wo_cases c :
  rename_wo_column c = c \/ In (rename_wo_column c) WO_CANON.
Proof. unfold rename_wo_column. rename_chain. Qed.

Lemma canon_fixed (f : pystr -> pystr) (canon : list pystr) :
  forallb (fun n => eqb (f n) n) canon = true ->
  forall n, In n canon -> f n = n.
Proof.
  intros H n Hn. rewrite forallb_forall in H. apply eqb_eq. now apply H.
Qed.

Lemma rename_deal_idempotent c :
  rename_deal_column (rename_deal_column c) = rename_deal_column c.
Proof.
  destruct (rename_deal_cases c) as [E|H].
  - now rewrite E.
  - apply (canon_fixed rename_deal_column DEAL_CANON); [vm_compute; reflexivity | exact H].
Qed.

Lemma rename_wo_idempotent c :
  rename_wo_column (rename_wo_column c) = rename_wo_column c.
Proof.
  destruct (rename_wo_cases c) as [E|H].
  - now rewrite E.
  - apply (canon_fixed rename_wo_column WO_CANON); [vm_compute; reflexivity | exact H].
Qed.

(* ------------------------------------------------------------------ *)
(** ** Duplicate labels: the last column wins *)

Lemma dedup_names_subset cols n :
  In n (map cname (drop_duplicated_keep_last cols)) <-> In n (map cname cols).
Proof. tidy.
  induction cols as [|c r IH]; simpl; [tauto|].
  destruct (mem (cname c) (map cname r)) eqn:E.
  - rewrite IH. split; [now right|]. intros [<-|H]; [|exact H]. now apply mem_In.
  - simpl. now rewrite IH.
Qed.

Lemma dedup_names_NoDup cols :
  NoDup (map cname (drop_duplicated_keep_last cols)).
Proof.
  induction cols as [|c r IH]; simpl; [constructor|].
  destruct (mem (cname c) (map cname r)) eqn:E; [exact IH|].
  simpl. constructor; [|exact IH].
  rewrite dedup_names_subset. intros H. apply mem_In in H. congruence.
Qed.

Lemma dedup_NoDup_id cols :
  NoDup (map cname cols) -> drop_duplicated_keep_last cols = cols.
Proof.
  induction cols as [|c r IH]; simpl; [reflexivity|].
  intros H. inversion H as [|x l Hx Hl]; subst.
  destruct (mem (cname c) (map cname r)) eqn:E.
  - apply mem_In in E. contradiction.
  - now rewrite IH.
Qed.

(** A column survives exactly when no later column carries its label. *)
Lemma dedup_In cols c :
  In c (drop_duplicated_keep_last cols) <->
  exists l1 l2, cols = l1 ++ c :: l2 /\ ~ In (cname c) (map cname l2).
Proof. tidy.
  induction cols as [|c0 r IH]; simpl.
  - split; [tauto|]. intros (l1 & l2 & E & _). now destruct l1.
  - destruct (mem (cname c0) (map cname r)) eqn:E.
    + rewrite IH. split.
      * intros (l1 & l2 & -> & H). now exists (c0 :: l1), l2.
      * intros (l1 & l2 & E' & H). destruct l1 as [|x l1]; simpl in E'.
        -- injection E' as -> ->. apply mem_In in E. contradiction.
        -- injection E' as -> ->. now exists l1, l2.
    + simpl. rewrite IH. split.
      * intros [<-|(l1 & l2 & -> & H)].
        -- exists [], r. split; [reflexivity|]. intros H. apply mem_In in H. congruence.
        -- now exists (c0 :: l1), l2.
      * intros (l1 & l2 & E' & H). destruct l1 as [|x l1]; simpl in E'.
        -- injection E' as -> ->. now left.
        -- injection E' as -> ->. right. now exists l1, l2.
Qed.

Lemma colnames_rename f df : colnames (rename_columns f df) = map f (colnames df).
Proof. unfold colnames, rename_columns. simpl. now rewrite !map_map. Qed.

Lemma rename_columns_fixed f df :
  (forall c, In c (columns df) -> f (cname c) = cname c) ->
  rename_columns f df = df.
Proof.
  intros H. destruct df as [n cols]. unfold rename_columns. simpl in *. f_equal.
  induction cols as [|c r IH]; [reflexivity|]. simpl.
  rewrite IH by (intros; apply H; now right).
  rewrite (H c (or_introl eq_refl)). now destruct c.
Qed.

Lemma colnames_dedup df n :
  In n (colnames (dedup_columns df)) <-> In n (colnames df).
Proof. unfold colnames, dedup_columns. simpl. apply dedup_names_subset. Qed.

Lemma colnames_dedup_NoDup df : NoDup (colnames (dedup_columns df)).
Proof. unfold colnames, dedup_columns. simpl. apply dedup_names_NoDup. Qed.

(** C9. Renaming is a per-column map of labels (so the label a column gets
    does not depend on its position or on the other columns, and the set of
    labels after renaming and de-duplication is the same for every column
    order); both renaming functions are idempotent; after de-duplication
    every label occurs once, and the column kept for a label is the last
    column, in column order, that was renamed to it; and renaming and
    de-duplicating an already renamed frame changes nothing.  [prepare_deals]
    and [prepare_workorders] are this step followed by the required
    columns. *)
Theorem rename_keep_last_idempotent :
  (forall c, rename_deal_column (rename_deal_column c) = rename_deal_column c) /\
  (forall c, rename_wo_column (rename_wo_column c) = rename_wo_column c) /\
  (forall rows,
      prepare_deals rows =
      ensure_columns DEAL_REQUIRED
        (dedup_columns (rename_columns rename_deal_column (DataFrame rows))) /\
      prepare_workorders rows =
      ensure_columns WO_REQUIRED
        (dedup_columns (rename_columns rename_wo_column (DataFrame rows)))) /\
  (forall (f : pystr -> pystr) (df : frame),
      let renamed := rename_columns f df in
      let out := dedup_columns renamed in
      colnames renamed = map f (colnames df) /\
      NoDup (colnames out) /\
      (forall n, In n (colnames out) <-> In n (map f (colnames df))) /\
      (forall c, In c (columns out) <->
                 exists l1 l2, columns renamed = l1 ++ c :: l2 /\
                               ~ In (cname c) (map cname l2)) /\
      ((forall n, f (f n) = f n) -> dedup_columns (rename_columns f out) = out) /\
      (forall df', Permutation (columns df) (columns df') ->
                   forall n, In n (colnames out) <->
                             In n (colnames (dedup_columns (rename_columns f df'))))).
Proof.
  split; [exact rename_deal_idempotent|].
  split; [exact rename_wo_idempotent|].
  split; [intros rows; split; reflexivity|].
  intros f df renamed out.
  assert (Hnames : forall n, In n (colnames out) <-> In n (map f (colnames df))).
  { intros n. unfold out. rewrite colnames_dedup. unfold renamed.
    now rewrite colnames_rename. }
  split; [apply colnames_rename|].
  split; [apply colnames_dedup_NoDup|].
  split; [exact Hnames|].
  split; [intros c; apply dedup_In|].
  split.
  - intros Hf.
    assert (E : rename_columns f out = out).
    { apply rename_columns_fixed. intros c Hc.
      assert (Hn : In (cname c) (colnames out)) by (apply in_map; exact Hc).
      apply Hnames in Hn. apply in_map_iff in Hn as (n & <- & _). apply Hf. }
    rewrite E. pose proof (colnames_dedup_NoDup renamed) as Hnd. fold out in Hnd.
    clearbody out. destruct out as [k cols]. unfold dedup_columns. simpl. f_equal.
    now apply dedup_NoDup_id.
  - intros df' Hperm n. rewrite Hnames.
    rewrite colnames_dedup, colnames_rename.
    unfold colnames. split; intros H; apply in_map_iff in H as (x & <- & Hx);
      apply in_map; apply in_map_iff in Hx as (c & <- & Hc); apply in_map.
    + now apply (Permutation_in _ Hperm).
    + now apply (Permutation_in _ (Permutation_sym Hperm)).
Qed.

(* ------------------------------------------------------------------ *)
(** ** Frames: labels are unique and every column has [nrows] cells *)

Lemma infer_name k vals : cname (infer k vals) = k.
Proof.
  unfold infer.
  destruct (existsb is_str vals); [reflexivity|].
  destruct (existsb is_bool vals); [destruct (forallb is_bool vals); reflexivity|].
  destruct (existsb is_float vals); reflexivity.
Qed.

Lemma infer_length k vals : List.length (cvals (infer k vals)) = List.length vals.
Proof.
  unfold infer.
  destruct (existsb is_str vals); [reflexivity|].
  destruct (existsb is_bool vals); [destruct (forallb is_bool vals); reflexivity|].
  destruct (existsb is_float vals); simpl; [apply length_map | reflexivity].
Qed.

(** [infer] stores a cell as it is, or a [None] as NaN. *)
Lemma infer_cells k vals :
  cvals (infer k vals) = vals \/ cvals (infer k vals) = map none_to_nan vals.
Proof.
  unfold infer.
  destruct (existsb is_str vals); [now left|].
  destruct (existsb is_bool vals); [destruct (forallb is_bool vals); now left|].
  destruct (existsb is_float vals); [now right | now left].
Qed.

Lemma add_key_NoDup acc k : NoDup acc -> NoDup (add_key acc k).
Proof. tidy.
  intros H. unfold add_key. destruct (mem k acc) eqn:E; [exact H|].
  apply NoDup_app; [exact H | repeat constructor; simpl; tauto |].
  intros x Hx [<-|[]]. apply mem_In in Hx. congruence.
Qed.

Lemma fold_add_key_NoDup ks acc : NoDup acc -> NoDup (fold_left add_key ks acc).
Proof.
  revert acc. induction ks as [|k ks IH]; simpl; intros acc H; [exact H|].
  apply IH. now apply add_key_NoDup.
Qed.

Lemma all_keys_NoDup rows : NoDup (all_keys rows).
Proof.
  unfold all_keys. generalize (@nil pystr) (NoDup_nil pystr).
  induction rows as [|r rows IH]; simpl; intros acc H; [exact H|].
  apply IH. now apply fold_add_key_NoDup.
Qed.

Lemma colnames_DataFrame rows : colnames (DataFrame rows) = all_keys rows.
Proof.
  unfold colnames, DataFrame. simpl. rewrite map_map.
  rewrite <- (map_id (all_keys rows)) at 2. apply map_ext. intros k. apply infer_name.
Qed.

Lemma wf_DataFrame rows : wf (DataFrame rows).
Proof.
  split.
  - rewrite colnames_DataFrame. apply all_keys_NoDup.
  - unfold full_columns, DataFrame. simpl. apply Forall_forall. intros c Hc.
    apply in_map_iff in Hc as (k & <- & _). now rewrite infer_length, length_map.
Qed.

Lemma full_rename f df : full_columns df -> full_columns (rename_columns f df).
Proof.
  unfold full_columns, rename_columns. simpl. intros H.
  apply Forall_forall. intros c Hc. apply in_map_iff in Hc as (c0 & <- & Hc0). simpl.
  rewrite Forall_forall in H. now apply H.
Qed.

Lemma dedup_sub cols c : In c (drop_duplicated_keep_last cols) -> In c cols.
Proof.
  intros H. apply dedup_In in H as (l1 & l2 & -> & _). apply in_elt.
Qed.

Lemma wf_dedup df : full_columns df -> wf (dedup_columns df).
Proof.
  intros H. split; [apply colnames_dedup_NoDup|].
  unfold full_columns, dedup_columns in *. simpl. rewrite Forall_forall in *.
  intros c Hc. apply H. now apply dedup_sub.
Qed.

Lemma colnames_set_column c cols :
  map cname (set_column c cols) =
  if mem (cname c) (map cname cols) then map cname cols else map cname cols ++ [cname c].
Proof.
  induction cols as [|c0 r IH]; [reflexivity|].
  simpl. destruct (eqb (cname c0) (cname c)) eqn:E.
  - apply eqb_eq in E. rewrite <- E, eqb_refl. simpl. now rewrite E.
  - simpl. rewrite IH.
    assert (E' : eqb (cname c) (cname c0) = false).
    { apply eqb_neq. apply eqb_neq in E. congruence. }
    rewrite E'. simpl. now destruct (mem (cname c) (map cname r)).
Qed.

Lemma In_set_column c cols x :
  In x (set_column c cols) -> x = c \/ In x cols.
Proof.
  induction cols as [|c0 r IH]; simpl.
  - intros [<-|[]]. now left.
  - destruct (eqb (cname c0) (cname c)); simpl.
    + intros [<-|H]; [now left | right; now right].
    + intros [<-|H]; [right; now left|]. destruct (IH H); [now left | right; now right].
Qed.

Lemma wf_assign c df :
  wf df -> List.length (cvals c) = nrows df -> wf (assign c df).
Proof. tidy.
  intros [Hnd Hfull] Hlen. split.
  - unfold colnames, assign. simpl. rewrite colnames_set_column.
    destruct (mem (cname c) (map cname (columns df))) eqn:E; [exact Hnd|].
    apply NoDup_app; [exact Hnd | repeat constructor; simpl; tauto |].
    intros x Hx [<-|[]]. apply mem_In in Hx. unfold colnames in *. congruence.
  - unfold full_columns, assign in *. simpl. rewrite Forall_forall in *.
    intros x Hx. destruct (In_set_column c _ x Hx) as [->|H]; [exact Hlen | now apply Hfull].
Qed.

Lemma nrows_assign c df : nrows (assign c df) = nrows df.
Proof. reflexivity. Qed.

Lemma wf_ensure_column df col : wf df -> wf (ensure_column df col).
Proof.
  intros H. unfold ensure_column. destruct (has_column col df); [exact H|].
  apply wf_assign; [exact H|]. simpl. apply repeat_length.
Qed.

Lemma nrows_ensure_column df col : nrows (ensure_column df col) = nrows df.
Proof. unfold ensure_column. now destruct (has_column col df). Qed.

Lemma wf_ensure_columns cols df : wf df -> wf (ensure_columns cols df).
Proof.
  unfold ensure_columns. revert df. induction cols as [|c r IH]; simpl; intros df H.
  - exact H.
  - apply IH. now apply wf_ensure_column.
Qed.

Lemma nrows_ensure_columns cols df : nrows (ensure_columns cols df) = nrows df.
Proof.
  unfold ensure_columns. revert df. induction cols as [|c r IH]; simpl; intros df.
  - reflexivity.
  - now rewrite IH, nrows_ensure_column.
Qed.

Lemma wf_prepare_deals rows : wf (prepare_deals rows).
Proof.
  unfold prepare_deals. apply wf_ensure_columns, wf_dedup, full_rename.
  apply wf_DataFrame.
Qed.

Lemma wf_prepare_workorders rows : wf (prepare_workorders rows).
Proof.
  unfold prepare_workorders. apply wf_ensure_columns, wf_dedup, full_rename.
  apply wf_DataFrame.
Qed.

Lemma nrows_prepare_deals rows : nrows (prepare_deals rows) = List.length rows.
Proof. unfold prepare_deals. now rewrite nrows_ensure_columns. Qed.

Lemma nrows_prepare_workorders rows : nrows (prepare_workorders rows) = List.length rows.
Proof. unfold prepare_workorders. now rewrite nrows_ensure_columns. Qed.

(* ------------------------------------------------------------------ *)
(** ** Looking a column up *)

Lemma filter_none_by_name cols n :
  ~ In n (map cname cols) -> filter (fun x => eqb (cname x) n) cols = [].
Proof. tidy.
  induction cols as [|c0 r IH]; simpl; [reflexivity|]. intros H.
  destruct (eqb (cname c0) n) eqn:E.
  - apply eqb_eq in E. tauto.
  - apply IH. tauto.
Qed.

Lemma filter_unique cols c :
  NoDup (map cname cols) -> In c cols ->
  filter (fun x => eqb (cname x) (cname c)) cols = [c].
Proof. tidy.
  induction cols as [|c0 r IH]; simpl; [tauto|].
  intros Hnd [->|Hin]; inversion Hnd as [|x l Hx Hl]; subst.
  - rewrite eqb_refl. f_equal. now apply filter_none_by_name.
  - destruct (eqb (cname c0) (cname c)) eqn:E.
    + apply eqb_eq in E. exfalso. apply Hx. rewrite E. now apply in_map.
    + now apply IH.
Qed.

Lemma get_column_In df c :
  NoDup (colnames df) -> In c (columns df) -> get_column (cname c) df = Ok c.
Proof.
  intros Hnd Hin. unfold get_column. now rewrite (filter_unique (columns df) c Hnd Hin).
Qed.

Lemma get_column_Ok df col c :
  get_column col df = Ok c -> In c (columns df) /\ cname c = col.
Proof.
  unfold get_column. intros H.
  destruct (filter (fun x => eqb (cname x) col) (columns df)) as [|c0 [|c1 l]] eqn:E;
    try discriminate.
  injection H as ->.
  assert (Hc : In c (filter (fun x => eqb (cname x) col) (columns df)))
    by (rewrite E; now left).
  apply filter_In in Hc as [Hin He]. split; [exact Hin | now apply eqb_eq].
Qed.

Lemma has_column_In col df : has_column col df = true <-> In col (colnames df).
Proof. apply mem_In. Qed.

Lemma get_column_has df col :
  NoDup (colnames df) -> has_column col df = true ->
  exists c, get_column col df = Ok c /\ In c (columns df) /\ cname c = col.
Proof.
  intros Hnd H. apply has_column_In in H. apply in_map_iff in H as (c & <- & Hc).
  exists c. split; [now apply get_column_In | now split].
Qed.

Lemma filter_set_column_other c cols n :
  cname c <> n ->
  filter (fun x => eqb (cname x) n) (set_column c cols) =
  filter (fun x => eqb (cname x) n) cols.
Proof.
  intros Hne. assert (Ec : eqb (cname c) n = false) by now apply eqb_neq.
  induction cols as [|c0 r IH]; simpl.
  - now rewrite Ec.
  - destruct (eqb (cname c0) (cname c)) eqn:E; simpl.
    + apply eqb_eq in E. rewrite E, Ec. reflexivity.
    + rewrite IH. reflexivity.
Qed.

Lemma get_column_assign_other c df col :
  cname c <> col -> get_column col (assign c df) = get_column col df.
Proof.
  intros H. unfold get_column, assign. simpl. now rewrite filter_set_column_other.
Qed.

Lemma In_set_column_self c cols : In c (set_column c cols).
Proof.
  induction cols as [|c0 r IH]; simpl; [now left|].
  destruct (eqb (cname c0) (cname c)); simpl; [now left | now right].
Qed.

Lemma get_column_assign_same c df :
  wf df -> List.length (cvals c) = nrows df ->
  get_column (cname c) (assign c df) = Ok c.
Proof.
  intros Hwf Hlen. apply get_column_In.
  - now apply wf_assign.
  - apply In_set_column_self.
Qed.

Lemma get_column_assign_at c df n :
  wf df -> List.length (cvals c) = nrows df -> cname c = n ->
  get_column n (assign c df) = Ok c.
Proof. intros Hwf Hlen <-. now apply get_column_assign_same. Qed.

Lemma has_column_assign c df col :
  has_column col (assign c df) = has_column col df || eqb col (cname c).
Proof.
  unfold has_column, colnames, assign. simpl. rewrite colnames_set_column.
  destruct (mem (cname c) (map cname (columns df))) eqn:E.
  - destruct (eqb col (cname c)) eqn:E2; [|now rewrite orb_false_r].
    apply eqb_eq in E2. subst. now rewrite E.
  - unfold mem. rewrite existsb_app. simpl. now rewrite orb_false_r.
Qed.

Lemma has_column_ensure_column df col x :
  has_column x df = true -> has_column x (ensure_column df col) = true.
Proof.
  intros H. unfold ensure_column. destruct (has_column col df) eqn:E; [exact H|].
  now rewrite has_column_assign, H.
Qed.

Lemma has_column_ensure_self df col : has_column col (ensure_column df col) = true.
Proof.
  unfold ensure_column. destruct (has_column col df) eqn:E; [exact E|].
  rewrite has_column_assign. simpl. now rewrite eqb_refl, orb_true_r.
Qed.

Lemma has_column_ensure_columns cols df x :
  has_column x df = true \/ In x cols -> has_column x (ensure_columns cols df) = true.
Proof.
  unfold ensure_columns. revert df. induction cols as [|c r IH]; simpl; intros df H.
  - destruct H as [H|[]]. exact H.
  - apply IH. destruct H as [H|[<-|H]].
    + left. now apply has_column_ensure_column.
    + left. apply has_column_ensure_self.
    + now right.
Qed.

(* ------------------------------------------------------------------ *)
(** ** Dropping rows *)

Lemma select_length {A B} (keep : list bool) (l : list A) (l' : list B) :
  List.length l = List.length l' ->
  List.length (select keep l) = List.length (select keep l').
Proof.
  revert l l'. induction keep as [|b keep IH]; intros [|x l] [|y l'] H;
    simpl in *; try reflexivity; try discriminate.
  injection H as H. destruct b; simpl; auto.
Qed.

Lemma colnames_drop_rows mask df : colnames (drop_rows mask df) = colnames df.
Proof. unfold colnames, drop_rows. simpl. now rewrite map_map. Qed.

Lemma wf_drop_rows mask df : wf df -> wf (drop_rows mask df).
Proof.
  intros [Hnd Hfull]. split; [now rewrite colnames_drop_rows|].
  unfold full_columns, drop_rows in *. simpl. rewrite Forall_forall in *.
  intros c Hc. apply in_map_iff in Hc as (c0 & <- & Hc0). simpl.
  apply select_length. rewrite repeat_length. now apply Hfull.
Qed.

Lemma get_column_drop_rows mask df col :
  get_column col (drop_rows mask df) =
  match get_column col df with
  | Ok c => Ok (select_cells (map negb mask) c)
  | Raise e => Raise e
  end.
Proof.
  unfold get_column, drop_rows. simpl.
  fold (select_cells (map negb mask)).
  assert (E : forall cols,
             filter (fun c => eqb (cname c) col) (map (select_cells (map negb mask)) cols) =
             map (select_cells (map negb mask)) (filter (fun c => eqb (cname c) col) cols)).
  { induction cols as [|c r IH]; simpl; [reflexivity|].
    destruct (eqb (cname c) col); simpl; now rewrite IH. }
  rewrite E.
  now destruct (filter (fun c => eqb (cname c) col) (columns df)) as [|c0 [|c1 l]].
Qed.

(* ------------------------------------------------------------------ *)
(** ** Steps that assign one column *)

Lemma get_column_length df col c :
  wf df -> get_column col df = Ok c -> List.length (cvals c) = nrows df.
Proof.
  intros [_ Hfull] H. apply get_column_Ok in H as [Hin _].
  unfold full_columns in Hfull. rewrite Forall_forall in Hfull. now apply Hfull.
Qed.

Lemma str_map_Ok f c c' :
  str_map f c = Ok c' ->
  str_accessor c = Ok (cvals c) /\
  c' = {| cname := cname c; cdtype := Object; cvals := map (str_cell f) (cvals c) |}.
Proof.
  unfold str_map, bind. destruct (str_accessor c) as [vals|e] eqn:E; [|discriminate].
  intros H. injection H as <-.
  assert (vals = cvals c).
  { unfold str_accessor in E. destruct (cdtype c); try discriminate.
    destruct (existsb is_str (cvals c) || forallb isna (cvals c)); congruence. }
  subst. now split.
Qed.

Lemma lower_isin_Ok xs c bs :
  lower_isin xs c = Ok bs ->
  str_accessor c = Ok (cvals c) /\
  bs = map (fun v => isin_cell xs (str_cell lower v)) (cvals c).
Proof.
  unfold lower_isin, bind. destruct (str_map lower c) as [l|e] eqn:E; [|discriminate].
  intros H. injection H as <-. apply str_map_Ok in E as [E ->]. simpl.
  split; [exact E | now rewrite map_map].
Qed.

Lemma assigns_strip_title src : assigns src (strip_title src).
Proof.
  intros df df'. unfold strip_title, bind.
  destruct (get_column src df) as [c|] eqn:Ec; [|discriminate].
  destruct (str_map strip c) as [s|] eqn:Es; [|discriminate].
  destruct (str_map title s) as [t|] eqn:Et; [|discriminate].
  intros H. injection H as <-. exists t. split; [reflexivity|].
  apply str_map_Ok in Es as [_ ->]. apply str_map_Ok in Et as [_ ->]. simpl.
  split; [now apply get_column_Ok in Ec|].
  intros Hwf. rewrite !length_map. now apply (get_column_length df src).
Qed.

Lemma assigns_derive name src f : assigns name (derive name src f).
Proof.
  intros df df'. unfold derive, bind.
  destruct (get_column src df) as [c|] eqn:Ec; [|discriminate].
  intros H. injection H as <-. exists (apply_column f name c).
  split; [reflexivity|]. unfold apply_column. split; [apply infer_name|].
  intros Hwf. rewrite infer_length, length_map. now apply (get_column_length df src).
Qed.

Lemma assigns_classify name src xs : assigns name (classify name src xs).
Proof.
  intros df df'. unfold classify, bind.
  destruct (get_column src df) as [c|] eqn:Ec; [|discriminate].
  destruct (lower_isin xs c) as [bs|] eqn:Eb; [|discriminate].
  intros H. injection H as <-. exists (bool_column name bs).
  split; [reflexivity|]. split; [reflexivity|].
  intros Hwf. apply lower_isin_Ok in Eb as [_ ->]. simpl. rewrite !length_map.
  now apply (get_column_length df src).
Qed.

Lemma run_steps_Raise (ops : list (frame -> result frame)) e :
  fold_left (fun r op => bind r op) ops (Raise e) = @Raise frame e.
Proof. induction ops as [|op ops IH]; simpl; [reflexivity | exact IH]. Qed.

Lemma run_steps_cons op ops df :
  run_steps (op :: ops) df = bind (op df) (run_steps ops).
Proof.
  unfold run_steps. simpl. destruct (op df) as [df'|e]; simpl; [reflexivity|].
  apply run_steps_Raise.
Qed.

Lemma run_steps_facts (steps : list (pystr * (frame -> result frame))) :
  Forall (fun s => assigns (fst s) (snd s)) steps ->
  forall df out, run_steps (map snd steps) df = Ok out -> wf df ->
    wf out /\ nrows out = nrows df /\
    (forall col, ~ In col (map fst steps) -> get_column col out = get_column col df) /\
    (forall col, has_column col df = true \/ In col (map fst steps) ->
                 has_column col out = true).
Proof. tidy.
  induction steps as [|[n op] steps IH]; intros Hall df out Hrun Hwf.
  - unfold run_steps in Hrun. simpl in Hrun. injection Hrun as <-.
    split; [exact Hwf|]. split; [reflexivity|]. split; [reflexivity|].
    intros col [H|[]]. exact H.
  - inversion Hall as [|x l Hop Hrest]; subst. simpl in Hop.
    simpl map in Hrun. rewrite run_steps_cons in Hrun. unfold bind in Hrun.
    destruct (op df) as [df1|] eqn:E1; [|discriminate].
    destruct (Hop df df1 E1) as (c & -> & Hname & Hlen).
    specialize (Hlen Hwf).
    destruct (IH Hrest _ _ Hrun (wf_assign c df Hwf Hlen)) as (W & N & G & Hh).
    split; [exact W|]. split; [now rewrite N|]. split.
    + intros col Hcol. simpl in Hcol. rewrite G by tauto.
      apply get_column_assign_other. rewrite Hname. tauto.
    + intros col Hcol. apply Hh. simpl in Hcol.
      destruct Hcol as [H|[<-|H]].
      * left. now rewrite has_column_assign, H.
      * left. rewrite has_column_assign, <- Hname, eqb_refl. apply orb_true_r.
      * now right.
Qed.

Lemma enrich_deals_steps df : enrich_deals df = run_steps (map snd DEAL_STEPS) df.
Proof.
  unfold enrich_deals, DEAL_STEPS. simpl map.
  repeat (rewrite run_steps_cons;
          match goal with
          | |- bind ?x _ = bind ?x _ => destruct x; simpl; [|reflexivity]
          end).
  rewrite run_steps_cons.
  match goal with |- ?x = _ => destruct x; reflexivity end.
Qed.

Lemma DEAL_STEPS_assign : Forall (fun s => assigns (fst s) (snd s)) DEAL_STEPS.
Proof.
  unfold DEAL_STEPS.
  repeat constructor; simpl;
    first [apply assigns_strip_title | apply assigns_derive | apply assigns_classify].
Qed.

(* ------------------------------------------------------------------ *)
(** ** Sentinel rows *)

Lemma isin_lower_header xs v : isin_cell xs (str_cell lower v) = header_label xs v.
Proof. destruct v as [|s|[q|n|]|b]; reflexivity. Qed.

Lemma map_nth_seq {A} (l : list A) d :
  l = map (fun i => nth i l d) (seq 0 (List.length l)).
Proof.
  induction l as [|x l IH]; [reflexivity|].
  simpl. f_equal. rewrite <- seq_shift, map_map. exact IH.
Qed.

Lemma or3_nth l1 l2 l3 :
  List.length l2 = List.length l1 -> List.length l3 = List.length l1 ->
  or3 l1 l2 l3 =
  map (fun i => nth i l1 false || nth i l2 false || nth i l3 false)
      (seq 0 (List.length l1)).
Proof.
  revert l2 l3. induction l1 as [|x l1 IH]; intros [|y l2] [|z l3] H2 H3;
    simpl in *; try reflexivity; try discriminate.
  injection H2 as H2. injection H3 as H3. f_equal.
  rewrite <- seq_shift, map_map. now apply IH.
Qed.

Lemma select_filter_nth {A} (p : nat -> bool) (l : list A) d :
  select (map p (seq 0 (List.length l))) l =
  map (fun i => nth i l d) (filter p (seq 0 (List.length l))).
Proof.
  revert p. induction l as [|x l IH]; intros p; [reflexivity|].
  simpl. rewrite <- seq_shift, map_map.
  assert (E : filter p (map S (seq 0 (List.length l))) =
              map S (filter (fun i => p (S i)) (seq 0 (List.length l)))).
  { generalize (seq 0 (List.length l)). intros s.
    induction s as [|a s IHs]; simpl; [reflexivity|].
    destruct (p (S a)); simpl; now rewrite IHs. }
  rewrite E. destruct (p 0); simpl; rewrite (IH (fun i => p (S i))), map_map; reflexivity.
Qed.

Lemma nth_map_header xs i l :
  nth i (map (fun v => isin_cell xs (str_cell lower v)) l) false =
  header_label xs (nth i l VNone).
Proof.
  revert i. induction l as [|v l IH]; intros [|i]; simpl; try reflexivity.
  - apply isin_lower_header.
  - apply IH.
Qed.

Lemma deal_mask_spec df mask :
  wf df -> deal_sentinel_mask df = Ok mask ->
  mask = map (sentinel_row df) (seq 0 (nrows df)).
Proof.
  intros Hwf. unfold deal_sentinel_mask, bind.
  destruct (get_column (u "status") df) as [c1|] eqn:E1; [|discriminate].
  destruct (lower_isin _SENTINEL_DEAL_STATUS c1) as [m1|] eqn:M1; [|discriminate].
  destruct (get_column (u "stage_raw") df) as [c2|] eqn:E2; [|discriminate].
  destruct (lower_isin _SENTINEL_DEAL_STAGE c2) as [m2|] eqn:M2; [|discriminate].
  destruct (get_column (u "sector_raw") df) as [c3|] eqn:E3; [|discriminate].
  destruct (lower_isin _SENTINEL_SECTOR c3) as [m3|] eqn:M3; [|discriminate].
  intros H. injection H as <-.
  apply lower_isin_Ok in M1 as [_ ->]. apply lower_isin_Ok in M2 as [_ ->].
  apply lower_isin_Ok in M3 as [_ ->].
  pose proof (get_column_length df _ c1 Hwf E1) as L1.
  pose proof (get_column_length df _ c2 Hwf E2) as L2.
  pose proof (get_column_length df _ c3 Hwf E3) as L3.
  rewrite or3_nth by (rewrite !length_map; congruence).
  rewrite length_map, L1. apply map_ext. intros i.
  unfold sentinel_row, cell, column_cells. rewrite E1, E2, E3.
  now rewrite !nth_map_header.
Qed.

Lemma nrows_drop_rows p df :
  nrows (drop_rows (map p (seq 0 (nrows df))) df) =
  List.length (filter (fun i => negb (p i)) (seq 0 (nrows df))).
Proof.
  unfold drop_rows. simpl. rewrite map_map.
  pose proof (select_filter_nth (fun i => negb (p i)) (repeat tt (nrows df)) tt) as E.
  rewrite repeat_length in E. now rewrite E, length_map.
Qed.

Lemma cells_drop_rows p df col :
  wf df -> has_column col df = true ->
  column_cells col (drop_rows (map p (seq 0 (nrows df))) df) =
  map (cell df col) (filter (fun i => negb (p i)) (seq 0 (nrows df))).
Proof.
  intros Hwf Hhas. destruct Hwf as [Hnd Hfull].
  destruct (get_column_has df col Hnd Hhas) as (c & Ec & _ & _).
  unfold cell. unfold column_cells. rewrite get_column_drop_rows, Ec. simpl. rewrite map_map.
  pose proof (get_column_length df col c (conj Hnd Hfull) Ec) as L.
  rewrite <- L. apply (select_filter_nth (fun i => negb (p i))).
Qed.

(* ------------------------------------------------------------------ *)
(** ** What a prepared cell holds, in terms of the raw rows *)

Lemma find_split {A} (p : A -> bool) l k :
  find p l = Some k ->
  exists l1 l2, l = l1 ++ k :: l2 /\ p k = true /\ forall x, In x l1 -> p x = false.
Proof.
  induction l as [|a l IH]; simpl; [discriminate|].
  destruct (p a) eqn:E.
  - intros H. injection H as <-. exists [], l. repeat split; [exact E|]. intros x [].
  - intros H. destruct (IH H) as (l1 & l2 & -> & Hk & Hl1).
    exists (a :: l1), l2. repeat split; [exact Hk|]. intros x [<-|Hx]; auto.
Qed.

Lemma field_key_split f rows name k :
  field_key f rows name = Some k ->
  exists l1 l2, all_keys rows = l1 ++ k :: l2 /\ f k = name /\
                forall x, In x l2 -> f x <> name.
Proof.
  unfold field_key. intros H. apply find_split in H as (a & b & E & Hk & Ha).
  exists (rev b), (rev a). repeat split.
  - rewrite <- (rev_involutive (all_keys rows)), E, rev_app_distr. simpl.
    now rewrite <- app_assoc.
  - now apply eqb_eq.
  - intros x Hx. apply in_rev in Hx. apply eqb_neq. now apply Ha.
Qed.

Lemma field_key_none f rows name :
  field_key f rows name = None -> forall k, In k (all_keys rows) -> f k <> name.
Proof.
  unfold field_key. intros H k Hk. apply eqb_neq.
  apply (find_none _ _ H). now apply in_rev in Hk.
Qed.

Lemma In_set_column_keep c cols x :
  In x cols -> cname x <> cname c -> In x (set_column c cols).
Proof. tidy.
  induction cols as [|c0 r IH]; simpl; [tauto|].
  intros [->|Hx] Hne.
  - destruct (eqb (cname x) (cname c)) eqn:E; [apply eqb_eq in E; contradiction | now left].
  - destruct (eqb (cname c0) (cname c)); [now right | right; now apply IH].
Qed.

Lemma In_ensure_column df col x :
  In x (columns df) -> In x (columns (ensure_column df col)).
Proof.
  intros Hx. unfold ensure_column. destruct (has_column col df) eqn:E; [exact Hx|].
  simpl. apply In_set_column_keep; [exact Hx|]. simpl. intros Hn.
  assert (has_column col df = true); [|congruence].
  apply has_column_In. rewrite <- Hn. now apply in_map.
Qed.

Lemma In_ensure_columns cols df x :
  In x (columns df) -> In x (columns (ensure_columns cols df)).
Proof.
  unfold ensure_columns. revert df. induction cols as [|c r IH]; simpl; intros df H.
  - exact H.
  - apply IH. now apply In_ensure_column.
Qed.

Lemma ensure_columns_origin cols df x :
  In x (columns (ensure_columns cols df)) ->
  In x (columns df) \/ cvals x = repeat VNone (nrows df).
Proof.
  unfold ensure_columns. revert df. induction cols as [|c r IH]; simpl; intros df H.
  - now left.
  - apply IH in H. rewrite nrows_ensure_column in H. destruct H as [H|H]; [|now right].
    unfold ensure_column in H. destruct (has_column c df); [now left|].
    simpl in H. apply In_set_column in H as [->|H]; [now right | now left].
Qed.

Lemma nth_repeat_none i n : nth i (repeat VNone n) VNone = VNone.
Proof. revert i. induction n; intros [|i]; simpl; auto. Qed.

Lemma header_label_nan xs v : header_label xs (none_to_nan v) = header_label xs v.
Proof. now destruct v. Qed.

Section Prepared.

Variable f : pystr -> pystr.
Variable required : list pystr.
Variable rows : list rawrow.

Let prepared : frame :=
  ensure_columns required (dedup_columns (rename_columns f (DataFrame rows))).

Lemma wf_prepared : wf prepared.
Proof. apply wf_ensure_columns, wf_dedup, full_rename, wf_DataFrame. Qed.

Lemma prepared_cell name i :
  i < List.length rows ->
  cell prepared name i = raw_field f rows name i \/
  cell prepared name i = none_to_nan (raw_field f rows name i).
Proof.
  intros Hi. unfold raw_field.
  destruct (field_key f rows name) as [k|] eqn:Ek.
  - apply field_key_split in Ek as (l1 & l2 & Ekeys & Hk & Hl2).
    set (g := fun k0 => infer k0 (map (fun row => match dict_get k0 row with
                                                  | Some v => v
                                                  | None => VFloat FNaN
                                                  end) rows)).
    set (h := fun c => {| cname := f (cname c); cdtype := cdtype c; cvals := cvals c |}).
    assert (Hin : In (h (g k)) (columns prepared)).
    { apply In_ensure_columns. unfold dedup_columns. simpl. apply dedup_In.
      exists (map h (map g l1)), (map h (map g l2)). split.
      - unfold DataFrame. simpl. fold g. fold h. rewrite Ekeys, !map_app. reflexivity.
      - rewrite !map_map. simpl. intros Hx. apply in_map_iff in Hx as (x & Ex & Hx).
        simpl in Ex. unfold g in Ex. rewrite !infer_name in Ex.
        apply (Hl2 x Hx). congruence. }
    assert (Hname : cname (h (g k)) = name) by (simpl; unfold g; now rewrite infer_name).
    pose proof (get_column_In prepared (h (g k)) (proj1 wf_prepared) Hin) as Eg.
    rewrite Hname in Eg. unfold cell, column_cells. rewrite Eg. simpl.
    assert (Eraw : forall d, nth i (map (fun row => match dict_get k row with
                                                     | Some v => v
                                                     | None => VFloat FNaN
                                                     end) rows) d = raw_cell rows k i).
    { intros d. unfold raw_cell.
      rewrite (nth_indep _ d (VFloat FNaN)) by now rewrite length_map.
      apply (map_nth (fun row => match dict_get k row with
                                 | Some v => v
                                 | None => VFloat FNaN
                                 end) rows [] i). }
    unfold g. destruct (infer_cells k (map (fun row => match dict_get k row with
                                                       | Some v => v
                                                       | None => VFloat FNaN
                                                       end) rows)) as [E|E]; rewrite E.
    + left. apply Eraw.
    + right. rewrite (nth_indep _ VNone (none_to_nan VNone))
        by now rewrite !length_map.
      rewrite map_nth. f_equal. apply Eraw.
  - left. pose proof (field_key_none f rows name Ek) as Hnone.
    unfold cell, column_cells.
    destruct (get_column name prepared) as [c|] eqn:Eg; [|now destruct i].
    apply get_column_Ok in Eg as [Hin Hname].
    apply ensure_columns_origin in Hin as [Hin| ->]; [|apply nth_repeat_none].
    exfalso. apply dedup_sub in Hin. simpl in Hin.
    apply in_map_iff in Hin as (c0 & <- & Hc0). simpl in Hname.
    unfold DataFrame in Hc0. simpl in Hc0. apply in_map_iff in Hc0 as (k & <- & Hk).
    rewrite infer_name in Hname. now apply (Hnone k).
Qed.

Lemma prepared_header xs name i :
  i < List.length rows ->
  header_label xs (cell prepared name i) = header_label xs (raw_field f rows name i).
Proof.
  intros Hi. destruct (prepared_cell name i Hi) as [-> | ->];
    [reflexivity | apply header_label_nan].
Qed.

End Prepared.

Lemma sentinel_row_raw rows i :
  i < List.length rows -> sentinel_row (prepare_deals rows) i = sentinel_raw rows i.
Proof.
  intros Hi. unfold sentinel_row, sentinel_raw, prepare_deals.
  now rewrite !(prepared_header rename_deal_column DEAL_REQUIRED rows _ _ i Hi).
Qed.

Lemma filter_seq_ext (p q : nat -> bool) n :
  (forall i, i < n -> p i = q i) -> filter p (seq 0 n) = filter q (seq 0 n).
Proof.
  intros H. apply filter_ext_in. intros i Hi. apply in_seq in Hi. apply H. lia.
Qed.

Lemma clean_deals_Ok rows out :
  clean_deals rows = Ok out ->
  enrich_deals (drop_rows (map (sentinel_row (prepare_deals rows))
                               (seq 0 (List.length rows))) (prepare_deals rows)) = Ok out.
Proof.
  unfold clean_deals, bind.
  destruct (deal_sentinel_mask (prepare_deals rows)) as [mask|] eqn:Em; [|discriminate].
  apply deal_mask_spec in Em; [|apply wf_prepare_deals].
  rewrite nrows_prepare_deals in Em. now subst.
Qed.

(** C2. Whenever [clean_deals] returns a collection, its rows are exactly
    the raw rows that are not sentinels, in their order: a row whose status
    field is a string equal, ignoring case, to "deal status" or
    "deal_status", or whose stage field equals "deal stage" or "deal_stage",
    or whose sector field equals "sector/service" or "sector", is not among
    them, whatever its other fields hold.  (The status, stage and sector
    field of a row is the last raw column that is renamed to [status],
    [stage_raw], [sector_raw].) *)
Theorem sentinel_rows_absent rows out :
  clean_deals rows = Ok out ->
  let kept := filter (fun i => negb (sentinel_raw rows i)) (seq 0 (List.length rows)) in
  nrows out = List.length kept /\
  (forall col, ~ In col DEAL_ASSIGNED -> has_column col (prepare_deals rows) = true ->
     column_cells col out = map (cell (prepare_deals rows) col) kept) /\
  (forall i s,
     (raw_field rename_deal_column rows (u "status") i = VStr s /\
      In (lower s) [u "deal status"; u "deal_status"]) \/
     (raw_field rename_deal_column rows (u "stage_raw") i = VStr s /\
      In (lower s) [u "deal stage"; u "deal_stage"]) \/
     (raw_field rename_deal_column rows (u "sector_raw") i = VStr s /\
      In (lower s) [u "sector/service"; u "sector"]) ->
     ~ In i kept).
Proof.
  intros H kept. apply clean_deals_Ok in H.
  set (P := prepare_deals rows) in *.
  assert (Hwf : wf P) by apply wf_prepare_deals.
  assert (Hn : nrows P = List.length rows) by apply nrows_prepare_deals.
  assert (Hkept : filter (fun i => negb (sentinel_row P i)) (seq 0 (nrows P)) = kept).
  { rewrite Hn. apply filter_seq_ext. intros i Hi. f_equal. now apply sentinel_row_raw. }
  rewrite <- Hn in H. rewrite enrich_deals_steps in H.
  destruct (run_steps_facts DEAL_STEPS DEAL_STEPS_assign _ _ H (wf_drop_rows _ _ Hwf))
    as (_ & N & G & _).
  split; [|split].
  - now rewrite N, nrows_drop_rows, Hkept.
  - intros col Hcol Hhas. unfold column_cells at 1. rewrite (G col Hcol).
    fold (column_cells col (drop_rows (map (sentinel_row P) (seq 0 (nrows P))) P)).
    now rewrite cells_drop_rows, Hkept.
  - intros i s Hs Hin. unfold kept in Hin. apply filter_In in Hin as [_ Hin].
    apply negb_true_iff in Hin. unfold sentinel_raw in Hin.
    apply orb_false_iff in Hin as [Hin H3]. apply orb_false_iff in Hin as [H1 H2].
    destruct Hs as [[E M]|[[E M]|[E M]]]; apply mem_In in M.
    + rewrite E in H1. cbn [header_label] in H1.
      unfold _SENTINEL_DEAL_STATUS in H1. congruence.
    + rewrite E in H2. cbn [header_label] in H2.
      unfold _SENTINEL_DEAL_STAGE in H2. congruence.
    + rewrite E in H3. cbn [header_label] in H3.
      unfold _SENTINEL_SECTOR in H3. congruence.
Qed.

(* ------------------------------------------------------------------ *)
(** ** The quality report *)

Lemma find_filter_hd {A} (p : A -> bool) l : find p l = hd_error (filter p l).
Proof.
  induction l as [|a l IH]; simpl; [reflexivity|]. now destruct (p a).
Qed.

Lemma issue_line_spec df col count text acc :
  NoDup (colnames df) ->
  issue_line df col count text acc =
  Ok (acc ++ opt_line (match find_column col df with
                       | Some c => count c
                       | None => 0
                       end) text).
Proof.
  intros Hnd. unfold issue_line, find_column. rewrite find_filter_hd.
  destruct (has_column col df) eqn:Eh.
  - destruct (get_column_has df col Hnd Eh) as (c & Ec & Hin & Hname).
    rewrite Ec. simpl. subst col. rewrite (filter_unique (columns df) c Hnd Hin). simpl.
    destruct (count c); simpl; [now rewrite app_nil_r | reflexivity].
  - rewrite filter_none_by_name; [simpl; now rewrite app_nil_r|].
    intros H. apply has_column_In in H. congruence.
Qed.

Lemma round_div_nearest a b :
  (0 < b)%Z -> (2 * Z.abs (a - b * round_div a b) <= b)%Z.
Proof.
  intros Hb. unfold round_div.
  pose proof (Z.div_mod a b ltac:(lia)) as E.
  pose proof (Z.mod_pos_bound a b Hb) as B.
  destruct (2 * (a mod b) <? b)%Z eqn:E1; [apply Z.ltb_lt in E1; nia|].
  apply Z.ltb_ge in E1.
  destruct (b <? 2 * (a mod b))%Z eqn:E2; [apply Z.ltb_lt in E2; nia|].
  apply Z.ltb_ge in E2. destruct (Z.even (a / b)); nia.
Qed.

Lemma filled_cells_count df : filled_cells df = non_null_cells df.
Proof.
  unfold filled_cells, non_null_cells.
  induction (columns df) as [|c cols IH]; simpl; [reflexivity|].
  now rewrite filter_app, length_app, IH.
Qed.

Lemma completeness_tenths df :
  _completeness df =
  if (nrows df * List.length (columns df) =? 0)%nat then 1000%Z
  else tenths_of_ratio (non_null_cells df) (nrows df * List.length (columns df)).
Proof.
  unfold _completeness, total_cells, tenths_of_ratio. now rewrite filled_cells_count.
Qed.

Lemma tenths_nearest_200 : tenths_nearest_upto 200 = true.
Proof. vm_compute. reflexivity. Qed.

Lemma tenths_nearest_upto_sound bound :
  tenths_nearest_upto bound = true ->
  forall total filled, 0 < total <= bound -> filled <= total ->
    tenths_nearest total filled = true.
Proof.
  intros H total filled Ht Hf.
  unfold tenths_nearest_upto in H. rewrite forallb_forall in H.
  specialize (H total). rewrite forallb_forall in H.
  apply H; apply in_seq; lia.
Qed.

Lemma tenths_nearest_small filled total :
  0 < total <= 200 -> filled <= total ->
  (2 * Z.abs (1000 * Z.of_nat filled - Z.of_nat total * tenths_of_ratio filled total)
   <= Z.of_nat total)%Z.
Proof.
  intros Ht Hf. apply Z.leb_le.
  exact (tenths_nearest_upto_sound 200 tenths_nearest_200 total filled Ht Hf).
Qed.

(** C5. On collections whose column labels are distinct (every cleaned
    collection, and the empty one), [quality_report] returns a report and
    raises nothing.  The report carries the two row counts; a completeness
    that is "100.0%" for a frame without cells and otherwise the number of
    non-null cells divided by rows times columns, times 100, rounded to one
    decimal as the code computes it, in binary64: for every frame of up to
    200 cells the decimal printed is a tenth nearest to the exact
    percentage (at an exact tie either neighbour: 23 of 80 cells print
    28.7%, 49 of 80 print 61.3%); and the issue lines in the fixed order
    deal value, sector, stage (null counts, deals), amount and collected
    (zero counts, work orders), each present exactly when its count is
    positive.  Two empty collections give 100% twice and no issue. *)
Theorem quality_report_spec deals wo :
  NoDup (colnames deals) -> NoDup (colnames wo) ->
  let text t := of_nat (Z.to_nat (t / 10)) ++ u "." ++ of_nat (Z.to_nat (t mod 10)) ++ u "%" in
  let percent df :=
    let total := nrows df * List.length (columns df) in
    text (if (total =? 0)%nat then 1000%Z else tenths_of_ratio (non_null_cells df) total) in
  let nulls c := List.length (filter isna (cvals c)) in
  let zeros c := List.length (filter cell_is_zero (cvals c)) in
  exists r,
    quality_report deals wo = Ok r /\
    deals_rows r = nrows deals /\
    wo_rows r = nrows wo /\
    deals_completeness r = percent deals /\
    wo_completeness r = percent wo /\
    issues r =
      opt_line (issue_count nulls (u "deal_value") deals) " deals have no deal value"
      ++ opt_line (issue_count nulls (u "sector") deals) " deals have no sector"
      ++ opt_line (issue_count nulls (u "stage") deals) " deals have no stage"
      ++ opt_line (issue_count zeros (u "amount_excl_gst") wo)
                  " work orders have ₹0 / missing amount"
      ++ opt_line (issue_count zeros (u "collected") wo)
                  " work orders show ₹0 collected" /\
    (forall filled total, 0 < total <= 200 -> filled <= total ->
       (2 * Z.abs (1000 * Z.of_nat filled - Z.of_nat total * tenths_of_ratio filled total)
        <= Z.of_nat total)%Z) /\
    text (tenths_of_ratio 23 80) = u "28.7%" /\
    text (tenths_of_ratio 49 80) = u "61.3%" /\
    text (tenths_of_ratio 2 3) = u "66.7%" /\
    text (tenths_of_ratio 0 80) = u "0.0%" /\
    (forall n line, opt_line n line <> [] <-> 0 < n) /\
    quality_report empty_frame empty_frame =
      Ok {| deals_rows := 0; wo_rows := 0;
            deals_completeness := u "100.0%"; wo_completeness := u "100.0%";
            issues := [] |}.
Proof.
  intros Hd Hw text percent nulls zeros.
  assert (D : deal_issues deals [] =
              Ok (opt_line (issue_count nulls (u "deal_value") deals)
                           " deals have no deal value"
                  ++ opt_line (issue_count nulls (u "sector") deals)
                              " deals have no sector"
                  ++ opt_line (issue_count nulls (u "stage") deals)
                              " deals have no stage")).
  { unfold deal_issues, issue_count. destruct (frame_empty deals); [reflexivity|].
    rewrite !issue_line_spec by exact Hd. simpl bind.
    rewrite !issue_line_spec by exact Hd. simpl bind.
    rewrite !issue_line_spec by exact Hd. simpl. now rewrite <- app_assoc. }
  assert (W : forall acc, wo_issues wo acc =
              Ok (acc ++ opt_line (issue_count zeros (u "amount_excl_gst") wo)
                                  " work orders have ₹0 / missing amount"
                  ++ opt_line (issue_count zeros (u "collected") wo)
                              " work orders show ₹0 collected")).
  { intros acc. unfold wo_issues, issue_count.
    destruct (frame_empty wo); [simpl; now rewrite app_nil_r|].
    rewrite !issue_line_spec by exact Hw. simpl bind.
    rewrite !issue_line_spec by exact Hw. now rewrite <- app_assoc. }
  eexists. split.
  { unfold quality_report. rewrite D. simpl bind. rewrite W. simpl bind. reflexivity. }
  cbn [deals_rows wo_rows deals_completeness wo_completeness issues].
  split; [reflexivity|]. split; [reflexivity|].
  split; [unfold percent_text; now rewrite completeness_tenths|].
  split; [unfold percent_text; now rewrite completeness_tenths|].
  split; [now rewrite <- !app_assoc|].
  split; [exact tenths_nearest_small|].
  split; [vm_compute; reflexivity|]. split; [vm_compute; reflexivity|].
  split; [vm_compute; reflexivity|]. split; [vm_compute; reflexivity|].
  split; [|vm_compute; reflexivity].
  intros n line. destruct n; simpl; split; try congruence; lia.
Qed.

(* ------------------------------------------------------------------ *)
(** ** Text columns and the steps that succeed on them *)

Lemma textual_accessor c : textual_col c -> str_accessor c = Ok (cvals c).
Proof.
  intros [Hd Hv]. unfold str_accessor. rewrite Hd.
  destruct (existsb is_str (cvals c)) eqn:E; [reflexivity|].
  assert (H : forallb isna (cvals c) = true); [|now rewrite H].
  apply forallb_forall. intros v Hin. rewrite Forall_forall in Hv.
  destruct (Hv v Hin) as [->|[s ->]]; [reflexivity|].
  exfalso. assert (existsb is_str (cvals c) = true); [|congruence].
  apply existsb_exists. now exists (VStr s).
Qed.

Lemma infer_textual k vals :
  Forall textual_value vals -> infer k vals = {| cname := k; cdtype := Object; cvals := vals |}.
Proof.
  intros H. unfold infer. destruct (existsb is_str vals); [reflexivity|].
  assert (Hb : existsb is_bool vals = false).
  { apply not_true_iff_false. intros E. apply existsb_exists in E as (v & Hin & Hv).
    rewrite Forall_forall in H. destruct (H v Hin) as [->|[s ->]]; discriminate. }
  assert (Hf : existsb is_float vals = false).
  { apply not_true_iff_false. intros E. apply existsb_exists in E as (v & Hin & Hv).
    rewrite Forall_forall in H. destruct (H v Hin) as [->|[s ->]]; discriminate. }
  now rewrite Hb, Hf.
Qed.

Lemma str_cell_textual f v : textual_value v -> textual_value (str_cell f v).
Proof. intros [->|[s ->]]; [now left | right; now exists (f s)]. Qed.

Lemma textual_stripped c : textual_col c -> textual_col (stripped c).
Proof.
  intros [_ H]. split; [reflexivity|]. simpl. apply Forall_map.
  eapply Forall_impl; [|exact H]. intros v. apply str_cell_textual.
Qed.

Lemma textual_titled c : textual_col c -> textual_col (titled c).
Proof.
  intros [_ H]. split; [reflexivity|]. simpl. rewrite map_map. apply Forall_map.
  eapply Forall_impl; [|exact H]. intros v Hv. now do 2 apply str_cell_textual.
Qed.

Lemma str_map_textual f c :
  textual_col c ->
  str_map f c = Ok {| cname := cname c; cdtype := Object; cvals := map (str_cell f) (cvals c) |}.
Proof. intros H. unfold str_map. now rewrite (textual_accessor c H). Qed.

Lemma strip_title_ok src df c :
  get_column src df = Ok c -> textual_col c ->
  strip_title src df = Ok (assign (titled c) df).
Proof.
  intros Hg Ht. unfold strip_title. rewrite Hg. simpl bind.
  rewrite (str_map_textual strip c Ht). simpl bind.
  fold (stripped c). rewrite (str_map_textual title (stripped c) (textual_stripped c Ht)).
  reflexivity.
Qed.

Lemma derive_ok name src f df c :
  get_column src df = Ok c -> derive name src f df = Ok (assign (apply_column f name c) df).
Proof. intros Hg. unfold derive. now rewrite Hg. Qed.

Lemma classify_ok name src xs df c :
  get_column src df = Ok c -> textual_col c ->
  classify name src xs df =
  Ok (assign (bool_column name (map (header_label xs) (cvals c))) df).
Proof.
  intros Hg Ht. unfold classify, lower_isin. rewrite Hg. simpl bind.
  rewrite (str_map_textual lower c Ht). simpl. rewrite map_map.
  do 3 f_equal. apply map_ext. intros v. apply isin_lower_header.
Qed.

Lemma lower_isin_ok xs c :
  textual_col c -> lower_isin xs c = Ok (map (header_label xs) (cvals c)).
Proof.
  intros Ht. unfold lower_isin. rewrite (str_map_textual lower c Ht). simpl.
  rewrite map_map. f_equal. apply map_ext. intros v. apply isin_lower_header.
Qed.

Lemma dict_get_In k row v : dict_get k row = Some v -> In (k, v) row.
Proof.
  induction row as [|[k' v'] r IH]; simpl; [discriminate|].
  destruct (eqb k' k) eqn:E.
  - intros H. injection H as <-. apply eqb_eq in E. subst. now left.
  - intros H. right. now apply IH.
Qed.

Lemma all_textual_DataFrame rows :
  textual_rows rows -> rectangular rows -> all_textual (DataFrame rows).
Proof.
  intros Ht Hr. unfold all_textual, DataFrame. simpl. apply Forall_forall.
  intros c Hc. apply in_map_iff in Hc as (k & <- & Hk).
  assert (H : Forall textual_value
                     (map (fun row => match dict_get k row with
                                      | Some v => v
                                      | None => VFloat FNaN
                                      end) rows)).
  { apply Forall_map. apply Forall_forall. intros row Hrow.
    destruct (dict_get k row) as [v|] eqn:E.
    - apply (Ht row k v Hrow). now apply dict_get_In.
    - exfalso. now apply (Hr row k Hrow Hk). }
  rewrite (infer_textual k _ H). now split.
Qed.

Lemma all_textual_rename f df : all_textual df -> all_textual (rename_columns f df).
Proof.
  unfold all_textual, rename_columns. simpl. intros H. apply Forall_map.
  eapply Forall_impl; [|exact H]. intros c [Hd Hv]. now split.
Qed.

Lemma all_textual_dedup df : all_textual df -> all_textual (dedup_columns df).
Proof.
  unfold all_textual, dedup_columns. simpl. rewrite !Forall_forall.
  intros H c Hc. apply H. now apply dedup_sub.
Qed.

Lemma Forall_repeat {A} (P : A -> Prop) x n : P x -> Forall P (repeat x n).
Proof. intros H. induction n; simpl; constructor; auto. Qed.

Lemma all_textual_assign c df :
  all_textual df -> textual_col c -> all_textual (assign c df).
Proof.
  unfold all_textual, assign. simpl. rewrite !Forall_forall. intros H Hc x Hx.
  apply In_set_column in Hx as [->|Hx]; [exact Hc | now apply H].
Qed.

Lemma all_textual_ensure_columns cols df :
  all_textual df -> all_textual (ensure_columns cols df).
Proof.
  unfold ensure_columns. revert df. induction cols as [|c r IH]; simpl; intros df H.
  - exact H.
  - apply IH. unfold ensure_column. destruct (has_column c df); [exact H|].
    apply all_textual_assign; [exact H|]. split; [reflexivity|].
    simpl. apply Forall_repeat. now left.
Qed.

Lemma Forall_select {A} (P : A -> Prop) keep l : Forall P l -> Forall P (select keep l).
Proof.
  revert l. induction keep as [|b keep IH]; intros [|x l] H; simpl; try constructor.
  inversion H; subst. destruct b; [constructor|]; auto.
Qed.

Lemma all_textual_drop_rows mask df : all_textual df -> all_textual (drop_rows mask df).
Proof.
  unfold all_textual, drop_rows. simpl. intros H. apply Forall_map.
  eapply Forall_impl; [|exact H]. intros c [Hd Hv]. split; [exact Hd|].
  simpl. now apply Forall_select.
Qed.

Lemma all_textual_get df col c :
  all_textual df -> get_column col df = Ok c -> textual_col c.
Proof.
  intros H Hg. apply get_column_Ok in Hg as [Hin _].
  unfold all_textual in H. rewrite Forall_forall in H. now apply H.
Qed.

(* ------------------------------------------------------------------ *)
(** ** Reading a column back after assignments *)

Lemma cname_apply_column f name c : cname (apply_column f name c) = name.
Proof. apply infer_name. Qed.

Lemma cname_fillna_zero c : cname (fillna_zero c) = cname c.
Proof. apply infer_name. Qed.

Lemma length_apply_column f name c :
  List.length (cvals (apply_column f name c)) = List.length (cvals c).
Proof. unfold apply_column. now rewrite infer_length, length_map. Qed.

Lemma length_fillna_zero c :
  List.length (cvals (fillna_zero c)) = List.length (cvals c).
Proof. unfold fillna_zero. now rewrite infer_length, length_map. Qed.

Lemma length_titled c : List.length (cvals (titled c)) = List.length (cvals c).
Proof. simpl. now rewrite !length_map. Qed.

Lemma length_stripped c : List.length (cvals (stripped c)) = List.length (cvals c).
Proof. simpl. now rewrite !length_map. Qed.

Lemma length_bool_column name (f : value -> bool) c :
  List.length (cvals (bool_column name (map f (cvals c)))) = List.length (cvals c).
Proof. simpl. now rewrite !length_map. Qed.

Lemma str_neq (a b : pystr) : eqb a b = false -> a <> b.
Proof. apply eqb_neq. Qed.

(** Two labels written out in full are different. *)
Ltac names_differ := apply str_neq; vm_compute; reflexivity.

Ltac simp_names :=
  repeat first
    [ rewrite cname_apply_column
    | rewrite cname_fillna_zero
    | progress cbn [cname titled stripped bool_column]
    | match goal with H : cname _ = _ |- _ => rewrite H end ].

Ltac simp_lengths :=
  repeat first
    [ rewrite nrows_assign
    | rewrite length_apply_column
    | rewrite length_fillna_zero
    | progress cbn [cvals bool_column stripped titled]
    | rewrite length_map ];
  try assumption.

Ltac solve_wf :=
  repeat (apply wf_assign; [|solve [simp_lengths]]); assumption.

(** Looks a column up through the assignments made so far. *)
Ltac read_column :=
  repeat first
    [ rewrite get_column_assign_other by (simp_names; names_differ)
    | rewrite get_column_assign_at
        by (first [solve_wf | solve [simp_lengths] | solve [simp_names; reflexivity]]) ];
  try eassumption; try reflexivity.

Lemma has_required_deals rows col :
  In col DEAL_REQUIRED -> has_column col (prepare_deals rows) = true.
Proof. intros H. unfold prepare_deals. apply has_column_ensure_columns. now right. Qed.

Lemma has_required_workorders rows col :
  In col WO_REQUIRED -> has_column col (prepare_workorders rows) = true.
Proof. intros H. unfold prepare_workorders. apply has_column_ensure_columns. now right. Qed.

Lemma all_textual_prepare_deals rows :
  textual_rows rows -> rectangular rows -> all_textual (prepare_deals rows).
Proof.
  intros Ht Hr. unfold prepare_deals.
  now apply all_textual_ensure_columns, all_textual_dedup, all_textual_rename,
    all_textual_DataFrame.
Qed.

Lemma all_textual_prepare_workorders rows :
  textual_rows rows -> rectangular rows -> all_textual (prepare_workorders rows).
Proof.
  intros Ht Hr. unfold prepare_workorders.
  now apply all_textual_ensure_columns, all_textual_dedup, all_textual_rename,
    all_textual_DataFrame.
Qed.

Lemma has_column_drop_rows mask df col :
  has_column col (drop_rows mask df) = has_column col df.
Proof. unfold has_column. now rewrite colnames_drop_rows. Qed.

(** A required column of a well-formed text frame: it is there, it is a
    text column, and it has a cell for every row. *)
Lemma text_column df col :
  wf df -> all_textual df -> has_column col df = true ->
  exists c, get_column col df = Ok c /\ cname c = col /\ textual_col c /\
            List.length (cvals c) = nrows df.
Proof.
  intros Hwf Ht Hh. destruct (get_column_has df col (proj1 Hwf) Hh) as (c & Eg & _ & En).
  exists c. split; [exact Eg|]. split; [exact En|].
  split; [now apply (all_textual_get df col) | now apply (get_column_length df col)].
Qed.

Lemma deal_mask_total df :
  wf df -> all_textual df ->
  (forall col, In col DEAL_REQUIRED -> has_column col df = true) ->
  exists mask, deal_sentinel_mask df = Ok mask.
Proof.
  intros Hwf Ht Hh. unfold deal_sentinel_mask.
  destruct (text_column df (u "status") Hwf Ht) as (c1 & -> & _ & T1 & _);
    [apply Hh, mem_In; vm_compute; reflexivity|].
  destruct (text_column df (u "stage_raw") Hwf Ht) as (c2 & -> & _ & T2 & _);
    [apply Hh, mem_In; vm_compute; reflexivity|].
  destruct (text_column df (u "sector_raw") Hwf Ht) as (c3 & -> & _ & T3 & _);
    [apply Hh, mem_In; vm_compute; reflexivity|].
  simpl bind. rewrite (lower_isin_ok _ c1 T1), (lower_isin_ok _ c2 T2),
    (lower_isin_ok _ c3 T3). simpl bind. eexists. reflexivity.
Qed.

Lemma enrich_deals_total df :
  wf df -> all_textual df ->
  (forall col, In col DEAL_REQUIRED -> has_column col df = true) ->
  exists out, enrich_deals df = Ok out.
Proof.
  intros Hwf Ht Hh.
  assert (R : forall col, mem col DEAL_REQUIRED = true -> has_column col df = true)
    by (intros col H; apply Hh; now apply mem_In).
  destruct (text_column df (u "status") Hwf Ht (R (u "status") eq_refl)) as (s0 & Gs & Ns & Ts & Ls).
  destruct (text_column df (u "deal_value_raw") Hwf Ht (R (u "deal_value_raw") eq_refl))
    as (v0 & Gv & Nv & _ & Lv).
  destruct (text_column df (u "stage_raw") Hwf Ht (R (u "stage_raw") eq_refl)) as (g0 & Gg & Ng & _ & Lg).
  destruct (text_column df (u "sector_raw") Hwf Ht (R (u "sector_raw") eq_refl)) as (r0 & Gr & Nr & _ & Lr).
  destruct (text_column df (u "closure_probability") Hwf Ht (R (u "closure_probability") eq_refl))
    as (p0 & Gp & Np & Tp & Lp).
  unfold enrich_deals.
  rewrite (strip_title_ok _ df s0 Gs Ts). simpl bind.
  erewrite derive_ok by read_column. simpl bind.
  erewrite derive_ok by read_column. simpl bind.
  erewrite derive_ok by read_column. simpl bind.
  erewrite derive_ok by read_column. simpl bind.
  erewrite strip_title_ok; [|read_column|exact Tp]. simpl bind.
  erewrite classify_ok; [|read_column|now apply textual_titled]. simpl bind.
  erewrite classify_ok; [|read_column|now apply textual_titled]. simpl bind.
  erewrite classify_ok; [|read_column|now apply textual_titled]. simpl bind.
  erewrite classify_ok; [|read_column|now apply textual_titled].
  eexists. reflexivity.
Qed.

(* ------------------------------------------------------------------ *)
(** ** The shape of a cleaned deals frame *)

Lemma filter_length_le {A} (p : A -> bool) l : List.length (filter p l) <= List.length l.
Proof. induction l as [|a l IH]; simpl; [lia|]. destruct (p a); simpl; lia. Qed.

Lemma clean_deals_shape rows out :
  clean_deals rows = Ok out ->
  wf out /\ nrows out <= List.length rows /\
  (forall col, In col (DEAL_REQUIRED ++ DEAL_ASSIGNED) -> has_column col out = true).
Proof.
  intros H. apply clean_deals_Ok in H. rewrite enrich_deals_steps in H.
  pose proof (wf_prepare_deals rows) as Hwf.
  destruct (run_steps_facts DEAL_STEPS DEAL_STEPS_assign _ _ H (wf_drop_rows _ _ Hwf))
    as (W & N & _ & Hh).
  split; [exact W|]. split.
  - rewrite N. rewrite <- (nrows_prepare_deals rows) at 1. rewrite nrows_drop_rows.
    rewrite nrows_prepare_deals.
    etransitivity; [apply filter_length_le|]. now rewrite length_seq.
  - intros col Hcol. apply Hh. apply in_app_or in Hcol as [Hc|Hc]; [left | now right].
    rewrite has_column_drop_rows. now apply has_required_deals.
Qed.

Lemma clean_deals_total rows :
  textual_rows rows -> rectangular rows -> exists out, clean_deals rows = Ok out.
Proof.
  intros Ht Hr. unfold clean_deals.
  pose proof (wf_prepare_deals rows) as Hwf.
  pose proof (all_textual_prepare_deals rows Ht Hr) as Hall.
  destruct (deal_mask_total _ Hwf Hall (has_required_deals rows)) as (mask & ->).
  simpl bind. apply enrich_deals_total.
  - now apply wf_drop_rows.
  - now apply all_textual_drop_rows.
  - intros col Hc. rewrite has_column_drop_rows. now apply has_required_deals.
Qed.

(* ------------------------------------------------------------------ *)
(** ** The work orders cleaner, step by step *)

Lemma assigns_strip_execution_status :
  assigns (u "execution_status") strip_execution_status.
Proof.
  intros df df'. unfold strip_execution_status, bind.
  destruct (get_column (u "execution_status") df) as [c|] eqn:Ec; [|discriminate].
  destruct (str_map strip c) as [s|] eqn:Es; [|discriminate].
  intros H. injection H as <-. exists s. split; [reflexivity|].
  apply str_map_Ok in Es as [_ ->]. simpl.
  split; [now apply get_column_Ok in Ec|].
  intros Hwf. rewrite length_map. now apply (get_column_length df (u "execution_status")).
Qed.

Lemma assigns_fill_step col : assigns col (fill_step col).
Proof.
  intros df df'. unfold fill_step, fill_financial, bind.
  destruct (get_column col df) as [c|] eqn:Ec; [|discriminate].
  intros H. injection H as <-. exists (fillna_zero c). split; [reflexivity|].
  rewrite cname_fillna_zero, length_fillna_zero.
  split; [now apply get_column_Ok in Ec|].
  intros Hwf. now apply (get_column_length df col).
Qed.

Lemma WO_STEPS_assign : Forall (fun s => assigns (fst s) (snd s)) WO_STEPS.
Proof.
  unfold WO_STEPS.
  repeat constructor; simpl;
    first [apply assigns_derive | apply assigns_classify
          | apply assigns_strip_execution_status | apply assigns_fill_step].
Qed.

Lemma clean_workorders_steps rows :
  clean_workorders rows = run_steps (map snd WO_STEPS) (prepare_workorders rows).
Proof.
  unfold clean_workorders, WO_STEPS. simpl map.
  generalize (prepare_workorders rows). intros df.
  do 6 (rewrite run_steps_cons;
        match goal with
        | |- bind ?x _ = bind ?x _ => destruct x; simpl; [|reflexivity]
        end).
  rewrite run_steps_cons. unfold strip_execution_status at 1.
  match goal with
  | |- context [get_column (u "execution_status") ?d] =>
      destruct (get_column (u "execution_status") d) as [c|]; simpl; [|reflexivity]
  end.
  destruct (str_map strip c) as [s|]; simpl; [|reflexivity].
  do 2 (rewrite run_steps_cons;
        match goal with
        | |- bind ?x _ = bind ?x _ => destruct x; simpl; [|reflexivity]
        end).
  reflexivity.
Qed.

Lemma clean_workorders_shape rows out :
  clean_workorders rows = Ok out ->
  wf out /\ nrows out = List.length rows /\
  (forall col, In col (WO_REQUIRED ++ WO_ASSIGNED) -> has_column col out = true).
Proof.
  intros H. rewrite clean_workorders_steps in H.
  destruct (run_steps_facts WO_STEPS WO_STEPS_assign _ _ H (wf_prepare_workorders rows))
    as (W & N & _ & Hh).
  split; [exact W|]. split; [now rewrite N, nrows_prepare_workorders|].
  intros col Hcol. apply Hh. apply in_app_or in Hcol as [Hc|Hc]; [left | now right].
  now apply has_required_workorders.
Qed.

Lemma fill_parse_cells name c :
  cvals (fillna_zero (apply_column parse_cell name c)) =
  map (fun v => VFloat (financial_value v)) (cvals c).
Proof.
  set (g := fun v => if isna v then VFloat (FFin 0) else v).
  assert (G1 : forall v, g (parse_cell v) = VFloat (financial_value v)).
  { intros v. unfold g, parse_cell, financial_value.
    destruct (parse_number v) as [[q|n|]|]; reflexivity. }
  assert (G2 : forall v, g (none_to_nan (parse_cell v)) = VFloat (financial_value v)).
  { intros v. unfold g, parse_cell, financial_value.
    destruct (parse_number v) as [[q|n|]|]; reflexivity. }
  unfold fillna_zero, apply_column. fold g. rewrite infer_name.
  assert (E : map g (cvals (infer name (map parse_cell (cvals c)))) =
              map (fun v => VFloat (financial_value v)) (cvals c)).
  { destruct (infer_cells name (map parse_cell (cvals c))) as [-> | ->];
      rewrite !map_map; apply map_ext; intros v; auto. }
  rewrite E.
  destruct (infer_cells name (map (fun v => VFloat (financial_value v)) (cvals c)))
    as [-> | ->]; [reflexivity|].
  rewrite map_map. reflexivity.
Qed.

Lemma strip_execution_status_ok df c :
  get_column (u "execution_status") df = Ok c -> textual_col c ->
  strip_execution_status df = Ok (assign (stripped c) df).
Proof.
  intros Hg Ht. unfold strip_execution_status. rewrite Hg. simpl bind.
  now rewrite (str_map_textual strip c Ht).
Qed.

Lemma fill_step_ok col df c :
  get_column col df = Ok c -> fill_step col df = Ok (assign (fillna_zero c) df).
Proof. intros Hg. unfold fill_step, fill_financial. simpl bind. now rewrite Hg. Qed.

Lemma clean_workorders_total rows :
  textual_rows rows -> rectangular rows ->
  exists out,
    clean_workorders rows = Ok out /\
    forall col, In col WO_FINANCIALS ->
      exists c, get_column (raw_of col) (prepare_workorders rows) = Ok c /\
                get_column col out = Ok (fillna_zero (apply_column parse_cell col c)).
Proof.
  intros Ht Hr. rewrite clean_workorders_steps.
  set (df := prepare_workorders rows).
  assert (Hwf : wf df) by apply wf_prepare_workorders.
  assert (Hall : all_textual df) by now apply all_textual_prepare_workorders.
  assert (R : forall col, mem col WO_REQUIRED = true -> has_column col df = true)
    by (intros col H; apply has_required_workorders; now apply mem_In).
  destruct (text_column df (u "amount_excl_gst_raw") Hwf Hall
              (R (u "amount_excl_gst_raw") eq_refl)) as (a1 & G1 & N1 & _ & L1).
  destruct (text_column df (u "amount_incl_gst_raw") Hwf Hall
              (R (u "amount_incl_gst_raw") eq_refl)) as (a2 & G2 & N2 & _ & L2).
  destruct (text_column df (u "billed_incl_gst_raw") Hwf Hall
              (R (u "billed_incl_gst_raw") eq_refl)) as (a3 & G3 & N3 & _ & L3).
  destruct (text_column df (u "collected_raw") Hwf Hall
              (R (u "collected_raw") eq_refl)) as (a4 & G4 & N4 & _ & L4).
  destruct (text_column df (u "receivable_raw") Hwf Hall
              (R (u "receivable_raw") eq_refl)) as (a5 & G5 & N5 & _ & L5).
  destruct (text_column df (u "sector_raw") Hwf Hall
              (R (u "sector_raw") eq_refl)) as (s0 & Gs & Ns & _ & Ls).
  destruct (text_column df (u "execution_status") Hwf Hall
              (R (u "execution_status") eq_refl)) as (e0 & Ge & Ne & Te & Le).
  unfold WO_STEPS. simpl map.
  do 6 (rewrite run_steps_cons; erewrite derive_ok by read_column; simpl bind).
  rewrite run_steps_cons.
  erewrite strip_execution_status_ok; [|read_column|exact Te]. simpl bind.
  do 2 (rewrite run_steps_cons;
        erewrite classify_ok; [|read_column|now apply textual_stripped]; simpl bind).
  do 5 (rewrite run_steps_cons; erewrite fill_step_ok by read_column; simpl bind).
  eexists. split; [reflexivity|].
  intros col Hcol. unfold WO_FINANCIALS in Hcol. simpl in Hcol.
  destruct Hcol as [<-|[<-|[<-|[<-|[<-|[]]]]]].
  - exists a1. split; [exact G1 | read_column].
  - exists a2. split; [exact G2 | read_column].
  - exists a3. split; [exact G3 | read_column].
  - exists a4. split; [exact G4 | read_column].
  - exists a5. split; [exact G5 | read_column].
Qed.

Lemma financial_value_spec v :
  is_nan (financial_value v) = false /\
  (parse_number v = None -> financial_value v = FFin 0) /\
  (forall x, parse_number v = Some x -> is_nan x = false -> financial_value v = x).
Proof.
  unfold financial_value. destruct (parse_number v) as [[q|n|]|]; simpl; repeat split;
    try reflexivity; try discriminate; intros x H; injection H as <-; try reflexivity;
    discriminate.
Qed.

(** C1, as amended. For every list of raw rows that all carry the same
    field names and whose values are strings or null, [clean_deals] and
    [clean_workorders] return a frame and raise nothing.  The frame has the
    required and the derived columns, each with a cell for every row
    (columns absent from the input are added as null).  Each of the five
    financial fields of a work order is a float that is not NaN: the number
    parsed from the raw cell, or 0.0 when the raw cell is missing or does
    not parse.  The [deal_value] of a deal may be null. *)
Theorem cleaners_total_on_text_rows rows :
  textual_rows rows -> rectangular rows ->
  (exists out,
      clean_deals rows = Ok out /\ wf out /\
      forall col, In col (DEAL_REQUIRED ++ DEAL_ASSIGNED) -> has_column col out = true) /\
  (exists out,
      clean_workorders rows = Ok out /\ wf out /\ nrows out = List.length rows /\
      (forall col, In col (WO_REQUIRED ++ WO_ASSIGNED) -> has_column col out = true) /\
      (forall col i, In col WO_FINANCIALS -> i < List.length rows ->
         cell out col i =
         VFloat (financial_value (cell (prepare_workorders rows) (raw_of col) i)))) /\
  (forall v,
      is_nan (financial_value v) = false /\
      (parse_number v = None -> financial_value v = FFin 0) /\
      (forall x, parse_number v = Some x -> is_nan x = false -> financial_value v = x)) /\
  (exists rows' out,
      clean_deals rows' = Ok out /\ isna (cell out (u "deal_value") 0) = true).
Proof.
  intros Ht Hr. split; [|split; [|split]].
  - destruct (clean_deals_total rows Ht Hr) as (out & E). exists out.
    destruct (clean_deals_shape rows out E) as (W & _ & Hh).
    split; [exact E|]. split; [exact W | exact Hh].
  - destruct (clean_workorders_total rows Ht Hr) as (out & E & Hfin). exists out.
    destruct (clean_workorders_shape rows out E) as (W & N & Hh).
    split; [exact E|]. split; [exact W|]. split; [exact N|]. split; [exact Hh|].
    intros col i Hcol Hi. destruct (Hfin col Hcol) as (c & Graw & Gcol).
    unfold cell, column_cells. rewrite Graw, Gcol, fill_parse_cells.
    pose proof (get_column_length _ _ c (wf_prepare_workorders rows) Graw) as L.
    rewrite nrows_prepare_workorders in L.
    rewrite (nth_indep _ VNone (VFloat (financial_value VNone)))
      by (rewrite length_map; lia).
    apply (map_nth (fun v => VFloat (financial_value v))).
  - exact financial_value_spec.
  - exists [[(u "Deal Name", VStr (u "Alpha"))]]. eexists. split; vm_compute; reflexivity.
Qed.

(* ------------------------------------------------------------------ *)
(** ** The tool executor *)

Lemma length_to_records df : List.length (to_records df) = nrows df.
Proof. unfold to_records. now rewrite length_map, length_seq. Qed.

Lemma value_of_py_of_value v : value_of_py (py_of_value v) = Some v.
Proof. now destruct v. Qed.

Lemma row_of_py_of_row row : row_of_py (py_of_row row) = Some row.
Proof.
  unfold row_of_py, py_of_row. rewrite map_map. simpl.
  induction row as [|[k v] r IH]; [reflexivity|].
  simpl. rewrite value_of_py_of_value. simpl. now rewrite IH.
Qed.

Lemma rows_of_py_of_rows rows : rows_of_py (PList (map py_of_row rows)) = Some rows.
Proof.
  unfold rows_of_py. rewrite map_map.
  rewrite (map_ext _ Some row_of_py_of_row).
  induction rows as [|r rows IH]; [reflexivity|]. simpl. now rewrite IH.
Qed.

Lemma board_map_keys a b id :
  py_getitem (board_map a) b = Ok id ->
  b = PStr (u "deals") \/ b = PStr (u "workorders").
Proof.
  destruct b as [| | | |s| |]; try discriminate. unfold py_getitem, board_map.
  cbn [pydict_get].
  destruct (eqb (u "deals") s) eqn:E1; [apply eqb_eq in E1; subst; now left|].
  destruct (eqb (u "workorders") s) eqn:E2; [apply eqb_eq in E2; subst; now right|].
  discriminate.
Qed.

Lemma getitem_default args k b default :
  py_getitem args (PStr (u k)) = Ok b -> dict_get_default args k default = b.
Proof.
  unfold py_getitem, dict_get_default.
  destruct (pydict_get (u k) args); [congruence | discriminate].
Qed.

Lemma Ok_inj {A} (x y : A) : Ok x = Ok y -> x = y.
Proof. congruence. Qed.

Lemma run_tool_items a args payload :
  _run_tool a (u "get_board_items") args = Ok payload ->
  exists client b id raw df,
    MondayClient (monday_key a) = Ok client /\
    py_getitem args (PStr (u "board")) = Ok b /\
    py_getitem (board_map a) b = Ok id /\
    get_all_items client (board_id_of id) = Ok raw /\
    (if py_eq_str b "deals" then clean_deals raw else clean_workorders raw) = Ok df /\
    payload = items_payload b df.
Proof.
  unfold _run_tool.
  change (eqb (u "get_board_items") (u "get_board_columns")) with false.
  change (eqb (u "get_board_items") (u "get_board_items")) with true.
  cbv iota. unfold bind.
  destruct (MondayClient (monday_key a)) as [client|] eqn:E1; [|discriminate].
  destruct (py_getitem args (PStr (u "board"))) as [b|] eqn:E2; [|discriminate].
  destruct (py_getitem (board_map a) b) as [id|] eqn:E3; [|discriminate].
  destruct (get_all_items client (board_id_of id)) as [raw|] eqn:E4; [|discriminate].
  destruct (if py_eq_str b "deals" then clean_deals raw else clean_workorders raw)
    as [df|] eqn:E; [|discriminate].
  intros H. apply Ok_inj in H. subst payload. exists client, b, id, raw, df.
  do 5 (split; [first [reflexivity | assumption]|]).
  unfold items_payload. rewrite length_firstn, length_to_records. reflexivity.
Qed.

Lemma capture_items st args b df st' :
  py_getitem args (PStr (u "board")) = Ok b ->
  capture st (u "get_board_items") args (items_payload b df) = Ok st' ->
  let rows := firstn ROW_CAP (to_records df) in
  exists deals wo,
    (if py_eq_str b "deals"
     then exists d, reclean clean_deals rows = Ok d /\ deals = Some d
     else deals = fetched_deals_df st) /\
    (if py_eq_str b "deals" then wo = fetched_wo_df st
     else if py_eq_str b "workorders"
          then exists w, reclean clean_workorders rows = Ok w /\ wo = Some w
          else wo = fetched_wo_df st) /\
    fetched_deals_df st' = deals /\ fetched_wo_df st' = wo /\
    messages st' = messages st /\ loop_count st' = loop_count st /\
    trace st' =
      record_event "tool_result"
        [ (u "tool", PStr (u "get_board_items"));
          (u "board", b);
          (u "rows_fetched", PInt (Z.of_nat (nrows df)));
          (u "columns", PList (map PStr (match rows with
                                         | r :: _ => map fst r
                                         | [] => []
                                         end)));
          (u "sample", PList (map py_of_row (firstn 2 rows))) ]
        "Monday.com→Agent" (trace st).
Proof.
  intros Hb. unfold capture.
  change (eqb (u "get_board_items") (u "get_board_items")) with true.
  change (pydict_has "rows" (items_payload b df)) with true.
  cbv iota. cbn [andb]. rewrite (getitem_default args "board" b PNone Hb). cbv zeta.
  change (pydict_get (u "rows") (items_payload b df))
    with (Some (PList (map py_of_row (firstn ROW_CAP (to_records df))))).
  cbn [or_none]. rewrite rows_of_py_of_rows. cbn [bind].
  change (py_getitem (items_payload b df) (PStr (u "total_rows")))
    with (@Ok py (PInt (Z.of_nat (nrows df)))).
  intros H.
  destruct (py_eq_str b "deals") eqn:Ed.
  - unfold bind in H.
    destruct (reclean clean_deals (firstn ROW_CAP (to_records df))) as [d|] eqn:Er; [|discriminate].
    cbn [bind] in H. apply Ok_inj in H. subst st'.
    exists (Some d), (fetched_wo_df st). cbn [fetched_deals_df fetched_wo_df messages loop_count trace].
    split; [now exists d|]. repeat split.
  - destruct (py_eq_str b "workorders") eqn:Ew.
    + unfold bind in H.
      destruct (reclean clean_workorders (firstn ROW_CAP (to_records df))) as [w|] eqn:Er; [|discriminate].
      cbn [bind] in H. apply Ok_inj in H. subst st'.
      exists (fetched_deals_df st), (Some w).
      cbn [fetched_deals_df fetched_wo_df messages loop_count trace].
      split; [reflexivity|]. split; [now exists w|]. repeat split.
    + cbn [bind] in H. apply Ok_inj in H. subst st'.
      exists (fetched_deals_df st), (fetched_wo_df st).
      cbn [fetched_deals_df fetched_wo_df messages loop_count trace]. repeat split.
Qed.

(** C6, as amended. Every successful [get_board_items] call returns a dict
    with the board, [total_rows] (the row count of the cleaned collection),
    [returned_rows] (the smaller of that count and 30), the first
    [returned_rows] cleaned rows, and a note that is always present, whether
    or not the total exceeds 30.  The trace entry of the call records the
    total as [rows_fetched], next to the tool, the board, the column names
    and a two-row sample; it has no field for the returned count. *)
Theorem board_items_payload_spec a st args payload st' :
  _run_tool a (u "get_board_items") args = Ok payload ->
  capture st (u "get_board_items") args payload = Ok st' ->
  exists b df,
    py_getitem args (PStr (u "board")) = Ok b /\
    (b = PStr (u "deals") \/ b = PStr (u "workorders")) /\
    (exists client id raw,
        get_all_items client (board_id_of id) = Ok raw /\
        (if py_eq_str b "deals" then clean_deals raw else clean_workorders raw) = Ok df) /\
    payload =
      [ (u "board", b);
        (u "total_rows", PInt (Z.of_nat (nrows df)));
        (u "returned_rows", PInt (Z.of_nat (Nat.min 30 (nrows df))));
        (u "note", PStr (u "Output truncated to 30 rows due to API token limits"));
        (u "rows", PList (map py_of_row (firstn 30 (to_records df)))) ] /\
    List.length (firstn 30 (to_records df)) = Nat.min 30 (nrows df) /\
    exists ev,
      trace st' = trace st ++ [ev] /\
      ev_type ev = u "tool_result" /\
      map fst (ev_content ev) =
        [u "tool"; u "board"; u "rows_fetched"; u "columns"; u "sample"] /\
      pydict_get (u "rows_fetched") (ev_content ev) = Some (PInt (Z.of_nat (nrows df))) /\
      pydict_get (u "returned_rows") (ev_content ev) = None.
Proof.
  intros Hrun Hcap.
  destruct (run_tool_items a args payload Hrun)
    as (client & b & id & raw & df & _ & Hb & Hid & Hraw & Hdf & ->).
  exists b, df. split; [exact Hb|].
  split; [exact (board_map_keys a b id Hid)|].
  split; [now exists client, id, raw|].
  split; [reflexivity|].
  split; [now rewrite length_firstn, length_to_records|].
  destruct (capture_items st args b df st' Hb Hcap) as (deals & wo & _ & _ & _ & _ & _ & _ & Ht).
  unfold record_event in Ht. eexists. split; [exact Ht|].
  repeat split.
Qed.

Lemma quality_report_rows d w q :
  quality_report d w = Ok q -> deals_rows q = nrows d /\ wo_rows q = nrows w.
Proof.
  unfold quality_report, bind.
  destruct (deal_issues d []) as [acc|]; [|discriminate].
  destruct (wo_issues w acc) as [acc'|]; [|discriminate].
  intros H. apply Ok_inj in H. subst q. now split.
Qed.

Lemma reclean_deals_rows rows d :
  reclean clean_deals rows = Ok d -> nrows d <= List.length rows.
Proof.
  destruct rows as [|r rows]; simpl.
  - intros H. apply Ok_inj in H. subst d. simpl. lia.
  - intros H. now apply clean_deals_shape in H as (_ & H & _).
Qed.

Lemma reclean_workorders_rows rows w :
  reclean clean_workorders rows = Ok w -> nrows w <= List.length rows.
Proof.
  destruct rows as [|r rows]; simpl.
  - intros H. apply Ok_inj in H. subst w. simpl. lia.
  - intros H. apply clean_workorders_shape in H as (_ & H & _). simpl in H. lia.
Qed.

Lemma finalize_quality st msg out q :
  finalize st msg = Ok out -> quality out = Some q ->
  quality_report (or_frame (fetched_deals_df st)) (or_frame (fetched_wo_df st)) = Ok q.
Proof.
  unfold finalize.
  destruct (fetched_deals_df st) as [d|], (fetched_wo_df st) as [w|]; cbn [or_frame bind];
    try (destruct (quality_report _ _) as [q'|]; [|discriminate]);
    intros H Hq; apply Ok_inj in H; subst out; simpl in Hq; congruence.
Qed.

Lemma reclean_Ok clean rows d :
  reclean clean rows = Ok d ->
  match rows with
  | [] => d = empty_frame
  | _ => clean rows = Ok d
  end.
Proof. tidy. destruct rows; simpl; [congruence | tauto]. Qed.

(** C10. After a successful [get_board_items] call the loop keeps, for the
    board that was asked for, the frame that [clean_deals] (for the deals
    board) or [clean_workorders] (for the work orders) returns when it is
    run a second time, on the rows of the payload: the first 30 records of
    the cleaned collection.  When the payload has no row the empty frame is
    kept.  The cleaned collection itself, whose row count the payload
    reports as [total_rows], is not kept; the kept frame has at most 30
    rows, and the other board's frame is left as it was.  The quality
    report of the final answer is the report of the kept frames, so the row
    count it gives for that board is at most 30. *)
Theorem retained_frame_is_recleaned_prefix a st args payload st' :
  _run_tool a (u "get_board_items") args = Ok payload ->
  capture st (u "get_board_items") args payload = Ok st' ->
  exists b raw df,
    py_getitem args (PStr (u "board")) = Ok b /\
    (exists client id, get_all_items client (board_id_of id) = Ok raw) /\
    (if py_eq_str b "deals" then clean_deals raw else clean_workorders raw) = Ok df /\
    pydict_get (u "total_rows") payload = Some (PInt (Z.of_nat (nrows df))) /\
    pydict_get (u "rows") payload = Some (PList (map py_of_row (firstn 30 (to_records df)))) /\
    ((b = PStr (u "deals") /\
      exists d, match firstn 30 (to_records df) with
                | [] => d = empty_frame
                | _ => clean_deals (firstn 30 (to_records df)) = Ok d
                end /\
                fetched_deals_df st' = Some d /\ nrows d <= 30 /\
                fetched_wo_df st' = fetched_wo_df st /\
                forall msg out q, finalize st' msg = Ok out -> quality out = Some q ->
                  quality_report d (or_frame (fetched_wo_df st)) = Ok q /\
                  deals_rows q = nrows d /\ deals_rows q <= 30)
     \/
     (b = PStr (u "workorders") /\
      exists w, match firstn 30 (to_records df) with
                | [] => w = empty_frame
                | _ => clean_workorders (firstn 30 (to_records df)) = Ok w
                end /\
                fetched_wo_df st' = Some w /\ nrows w <= 30 /\
                fetched_deals_df st' = fetched_deals_df st /\
                forall msg out q, finalize st' msg = Ok out -> quality out = Some q ->
                  quality_report (or_frame (fetched_deals_df st)) w = Ok q /\
                  wo_rows q = nrows w /\ wo_rows q <= 30)).
Proof.
  intros Hrun Hcap.
  destruct (run_tool_items a args payload Hrun)
    as (client & b & id & raw & df & _ & Hb & Hid & Hraw & Hdf & ->).
  exists b, raw, df. split; [exact Hb|]. split; [now exists client, id|].
  split; [exact Hdf|]. split; [reflexivity|]. split; [reflexivity|].
  destruct (capture_items st args b df st' Hb Hcap)
    as (deals & wo & Hd & Hw & Ed & Ew & _ & _ & _).
  assert (Hlen : List.length (firstn ROW_CAP (to_records df)) <= 30)
    by (rewrite length_firstn; unfold ROW_CAP; lia).
  destruct (board_map_keys a b id Hid) as [-> | ->].
  - left. split; [reflexivity|].
    change (py_eq_str (PStr (u "deals")) "deals") with true in Hd, Hw.
    destruct Hd as (d & Hr & Hd'). rewrite Hd' in Ed. rewrite Hw in Ew. exists d.
    pose proof (reclean_deals_rows _ d Hr) as Hn.
    split; [exact (reclean_Ok _ _ _ Hr)|]. split; [exact Ed|]. split; [lia|].
    split; [exact Ew|].
    intros msg out q Hf Hq. pose proof (finalize_quality st' msg out q Hf Hq) as Q.
    rewrite Ed, Ew in Q. cbn [or_frame] in Q. split; [exact Q|].
    apply quality_report_rows in Q as [Q1 _]. split; [exact Q1 | lia].
  - right. split; [reflexivity|].
    change (py_eq_str (PStr (u "workorders")) "deals") with false in Hd, Hw.
    change (py_eq_str (PStr (u "workorders")) "workorders") with true in Hw.
    destruct Hw as (w & Hr & Hw'). rewrite Hw' in Ew. rewrite Hd in Ed. exists w.
    pose proof (reclean_workorders_rows _ w Hr) as Hn.
    split; [exact (reclean_Ok _ _ _ Hr)|]. split; [exact Ew|]. split; [lia|].
    split; [exact Ed|].
    intros msg out q Hf Hq. pose proof (finalize_quality st' msg out q Hf Hq) as Q.
    rewrite Ed, Ew in Q. cbn [or_frame] in Q. split; [exact Q|].
    apply quality_report_rows in Q as [_ Q2]. split; [exact Q2 | lia].
Qed.

(* ------------------------------------------------------------------ *)
(** ** Containing tool errors *)

Ltac bind_cases H :=
  unfold bind in H;
  repeat match type of H with
         | match ?x with _ => _ end = Ok _ => destruct x eqn:?; try discriminate
         end.

Lemma capture_frame st fn args res st' :
  capture st fn args res = Ok st' ->
  messages st' = messages st /\ loop_count st' = loop_count st /\
  exists ev, trace st' = trace st ++ [ev] /\ ev_type ev = u "tool_result".
Proof.
  unfold capture. intros H.
  destruct (eqb fn (u "get_board_items") && pydict_has "rows" res).
  - bind_cases H. apply Ok_inj in H. subst st'. cbn [messages loop_count trace].
    repeat split. unfold record_event. eexists. split; reflexivity.
  - destruct (eqb fn (u "get_board_columns") && pydict_has "columns" res).
    + bind_cases H. apply Ok_inj in H. subst st'. cbn [messages loop_count trace].
      repeat split. unfold record_event. eexists. split; reflexivity.
    + apply Ok_inj in H. subst st'. cbn [messages loop_count trace].
      repeat split. unfold record_event. eexists. split; reflexivity.
Qed.

Lemma run_tool_unknown a name args client :
  name <> u "get_board_items" -> name <> u "get_board_columns" ->
  MondayClient (monday_key a) = Ok client ->
  _run_tool a name args = Ok [(u "error", PStr (u "Unknown tool: " ++ name))].
Proof.
  intros H1 H2 Hc. unfold _run_tool. rewrite Hc. cbn [bind].
  apply eqb_neq in H1. apply eqb_neq in H2. now rewrite H1, H2.
Qed.

Lemma capture_unknown st name args res :
  name <> u "get_board_items" -> name <> u "get_board_columns" ->
  capture st name args res =
  Ok (set_trace (record_event "tool_result"
                   [ (u "tool", PStr name); (u "result", PDict res) ]
                   "Monday.com→Agent" (trace st)) st).
Proof.
  intros H1 H2. unfold capture. apply eqb_neq in H1. apply eqb_neq in H2.
  now rewrite H1, H2.
Qed.

Lemma dispatch_loop_count a st fn args st1 body :
  dispatch a st fn args = Ok (st1, body) -> loop_count st1 = loop_count st.
Proof.
  intros H. unfold dispatch in H. bind_cases H. apply Ok_inj in H.
  injection H as <- _.
  match goal with Hc : capture _ _ _ _ = Ok _ |- _ =>
    now apply capture_frame in Hc as (_ & L & _) end.
Qed.

Lemma guarded_dispatch_loop_count a st tc args :
  loop_count (guarded_dispatch a st tc args) = loop_count st.
Proof.
  unfold guarded_dispatch.
  destruct (dispatch a st (tc_name tc) args) as [[st1 body]|e] eqn:E; [|reflexivity].
  cbn [add_message loop_count]. now apply dispatch_loop_count in E.
Qed.

Lemma handle_tool_call_loop_count a st tc st' :
  handle_tool_call a st tc = Ok st' -> loop_count st' = loop_count st.
Proof.
  unfold handle_tool_call. intros H. bind_cases H. apply Ok_inj in H. subst st'.
  now rewrite guarded_dispatch_loop_count.
Qed.

Lemma handle_tool_calls_loop_count a tcs :
  forall st st', handle_tool_calls a st tcs = Ok st' -> loop_count st' = loop_count st.
Proof.
  induction tcs as [|tc tcs IH]; intros st st' H; cbn [handle_tool_calls] in H.
  - apply Ok_inj in H. now subst.
  - unfold bind in H. destruct (handle_tool_call a st tc) as [st1|] eqn:E; [|discriminate].
    rewrite (IH _ _ H). now apply handle_tool_call_loop_count in E.
Qed.

Lemma handle_tool_call_total a st tc :
  object_arguments tc -> exists st', handle_tool_call a st tc = Ok st'.
Proof.
  intros [d Hd]. unfold handle_tool_call. rewrite Hd. cbn [bind].
  eexists. reflexivity.
Qed.

Lemma handle_tool_calls_total a tcs :
  Forall object_arguments tcs ->
  forall st, exists st', handle_tool_calls a st tcs = Ok st'.
Proof.
  induction 1 as [|tc tcs Htc _ IH]; intros st; cbn [handle_tool_calls].
  - now exists st.
  - destruct (handle_tool_call_total a st tc Htc) as (st1 & ->). cbn [bind]. apply IH.
Qed.

(** C8, as amended.  The [try] around a tool never lets an exception out
    of the round: whatever the tool does, the call's tool message is
    appended, keyed to the call's id.  When the tool (or the capture of its
    result) raises, the message is the JSON object with the single key
    "error" holding the exception's text, a [tool_error] entry with that
    text is added to the trace, and nothing else of the state changes; when
    it returns, the message is the serialised result and a [tool_result]
    entry is added.  The loop then goes on with the next call.  A tool name
    other than the two known ones gives the payload
    [{error: "Unknown tool: <name>"}] when the Monday client can be built,
    that is, when a Monday API key is configured; without a key the
    constructor raises for every tool name, and that exception is handled
    like any other. *)
Theorem tool_errors_contained a st tc args :
  let st' := guarded_dispatch a st tc args in
  (exists body, messages st' = messages st ++ [ToolMsg (tc_id tc) body]) /\
  loop_count st' = loop_count st /\
  (forall e, _run_tool a (tc_name tc) args = Raise e ->
             dispatch a st (tc_name tc) args = Raise e) /\
  (forall e, dispatch a st (tc_name tc) args = Raise e ->
     messages st' =
       messages st ++ [ToolMsg (tc_id tc) (Json (PDict [(u "error", PStr (exn_str e))]))] /\
     trace st' =
       trace st ++ [{| ev_type := u "tool_error"; ev_source := u "Error";
                       ev_content := [(u "tool", PStr (tc_name tc));
                                      (u "error", PStr (exn_str e))];
                       ev_timestamp := clock (List.length (trace st)) |}] /\
     fetched_deals_df st' = fetched_deals_df st /\
     fetched_wo_df st' = fetched_wo_df st) /\
  (forall st1 body, dispatch a st (tc_name tc) args = Ok (st1, body) ->
     exists payload ev,
       _run_tool a (tc_name tc) args = Ok payload /\
       body = Json (PDict payload) /\
       messages st' = messages st ++ [ToolMsg (tc_id tc) body] /\
       trace st' = trace st ++ [ev] /\ ev_type ev = u "tool_result") /\
  (forall client,
     tc_name tc <> u "get_board_items" -> tc_name tc <> u "get_board_columns" ->
     MondayClient (monday_key a) = Ok client ->
     let payload := [(u "error", PStr (u "Unknown tool: " ++ tc_name tc))] in
     _run_tool a (tc_name tc) args = Ok payload /\
     messages st' = messages st ++ [ToolMsg (tc_id tc) (Json (PDict payload))] /\
     trace st' =
       trace st ++ [{| ev_type := u "tool_result"; ev_source := u "Monday.com→Agent";
                       ev_content := [(u "tool", PStr (tc_name tc));
                                      (u "result", PDict payload)];
                       ev_timestamp := clock (List.length (trace st)) |}]) /\
  (forall e, MondayClient (monday_key a) = Raise e ->
     _run_tool a (tc_name tc) args = Raise e) /\
  (forall d rest, decode_arguments tc = Ok (PDict d) ->
     exists mid,
       handle_tool_call a st tc = Ok (guarded_dispatch a mid tc d) /\
       messages mid = messages st /\
       handle_tool_calls a st (tc :: rest) =
       handle_tool_calls a (guarded_dispatch a mid tc d) rest).
Proof.
  intros st'. unfold st', guarded_dispatch.
  assert (Hok : forall st1 body, dispatch a st (tc_name tc) args = Ok (st1, body) ->
            exists payload ev,
              _run_tool a (tc_name tc) args = Ok payload /\
              body = Json (PDict payload) /\
              messages st1 = messages st /\ loop_count st1 = loop_count st /\
              trace st1 = trace st ++ [ev] /\ ev_type ev = u "tool_result").
  { intros st1 body H. unfold dispatch in H. bind_cases H.
    apply Ok_inj in H. injection H as <- <-.
    match goal with Hc : capture _ _ _ _ = Ok _ |- _ =>
      apply capture_frame in Hc as (M & L & ev & T & Ty) end.
    eexists. exists ev. repeat split; eassumption || reflexivity. }
  split; [|split; [|split; [|split; [|split; [|split; [|split]]]]]].
  - destruct (dispatch a st (tc_name tc) args) as [[st1 body]|e] eqn:E.
    + destruct (Hok st1 body eq_refl) as (p & ev & _ & _ & M & _).
      exists body. cbn [add_message messages]. now rewrite M.
    + eexists. reflexivity.
  - destruct (dispatch a st (tc_name tc) args) as [[st1 body]|e] eqn:E.
    + destruct (Hok st1 body eq_refl) as (p & ev & _ & _ & _ & L & _). exact L.
    + reflexivity.
  - intros e H. unfold dispatch. now rewrite H.
  - intros e H. rewrite H. repeat split.
  - intros st1 body H. rewrite H.
    destruct (Hok st1 body H) as (p & ev & R & B & M & _ & T & Ty).
    exists p, ev. cbn [add_message messages trace]. rewrite M.
    repeat split; assumption.
  - intros client H1 H2 Hc.
    pose proof (run_tool_unknown a (tc_name tc) args client H1 H2 Hc) as R.
    unfold dispatch. rewrite R. cbn [bind].
    rewrite (capture_unknown st (tc_name tc) args _ H1 H2). cbn [bind].
    repeat split.
  - intros e H. unfold _run_tool. now rewrite H.
  - intros d rest Hd. eexists. split; [|split].
    + unfold handle_tool_call. rewrite Hd. cbn [bind]. reflexivity.
    + reflexivity.
    + cbn [handle_tool_calls]. unfold handle_tool_call at 1. rewrite Hd.
      cbn [bind]. reflexivity.
Qed.

(* ------------------------------------------------------------------ *)
(** ** Checking the two conditions on concrete rows *)

Lemma textual_rowsb_sound rows : textual_rowsb rows = true -> textual_rows rows.
Proof.
  intros H row k v Hrow Hkv. unfold textual_rowsb in H. rewrite forallb_forall in H.
  specialize (H row Hrow). rewrite forallb_forall in H. specialize (H (k, v) Hkv).
  simpl in H. destruct v as [|s|x|b]; try discriminate; [now left | right; now exists s].
Qed.

Lemma rectangularb_sound rows : rectangularb rows = true -> rectangular rows.
Proof.
  intros H row k Hrow Hk. unfold rectangularb in H. rewrite forallb_forall in H.
  specialize (H row Hrow). rewrite forallb_forall in H. specialize (H k Hk).
  now destruct (dict_get k row).
Qed.

End Skylark.

(* ------------------------------------------------------------------ *)
(** * Concrete runs *)

Module Run.

(** A float printer, a data source with one board of [n] equal deals, a
    clock, and a JSON decoder for the three argument texts used below. *)
Definition fr : Q -> pystr := fun _ => u "0.0".

(** A part of the Unicode database: the Arabic-Indic and the full-width
    digits, and the Latin-1 control characters, which are not printable. *)
Definition db : unicode_db :=
  {| decimal_digit := fun c =>
       if ((1632 <=? c) && (c <=? 1641))%N then Some (c - 1632)%N
       else if ((65296 <=? c) && (c <=? 65305))%N then Some (c - 65296)%N
       else None;
     printable := fun c => negb ((c <=? 160) || (c =? 173))%N |}.

Definition no_boards : pystr -> pystr -> result (list (pystr * list py)) :=
  fun _ _ => Ok [].

Definition sample_deal : rawrow :=
  [ (u "Deal Name", VStr (u "Alpha"));
    (u "Deal Status", VStr (u "Open"));
    (u "Deal Stage", VStr (u "a. Lead Generated"));
    (u "Sector/service", VStr (u "mining"));
    (u "Masked Deal value", VStr (u "₹50,00,000")) ].

Definition board_with (n : nat) : pystr -> pystr -> result (list rawrow) :=
  fun _ _ => Ok (repeat sample_deal n).

Definition tick : nat -> pystr := of_nat.

Definition quote : pystr := [34%N].

(** The text [{"board": "deals"}]. *)
Definition deals_arguments : pystr :=
  u "{" ++ quote ++ u "board" ++ quote ++ u ": " ++ quote ++ u "deals" ++ quote ++ u "}".

(** A text of 100000 opening brackets, on which the decoder of Python
    gives up with a [RecursionError]. *)
Definition deep_text : pystr := repeat 91%N (N.to_nat 100000).

Definition loads (s : pystr) : result (option py) :=
  if eqb s deals_arguments then Ok (Some (PDict [(u "board", PStr (u "deals"))]))
  else if eqb s (u "{}") then Ok (Some (PDict []))
  else if eqb s (u "[]") then Ok (Some (PList []))
  else if eqb s deep_text
  then Raise (RecursionError
                (u "maximum recursion depth exceeded while decoding a JSON array from a unicode string"))
  else Ok None.

Definition bi_agent : agent :=
  {| monday_key := u "key"; deals_id := u "1001"; wo_id := u "1002" |}.

Definition keyless_agent : agent :=
  {| monday_key := []; deals_id := u "1001"; wo_id := u "1002" |}.

Definition start : state := initial_state (u "system") (u "How is our pipeline looking?") [].

Definition deals_args : list (pystr * py) := [(u "board", PStr (u "deals"))].

(** The three raw deals of the end-to-end example: a header repeat, a deal
    in stage "a. Lead Generated" worth ₹50,00,000, and a deal without a
    sector. *)
Definition three_deals : list rawrow :=
  [ [ (u "Deal Name", VStr (u "Deal Name")); (u "Deal Status", VStr (u "DEAL STATUS"));
      (u "Deal Stage", VStr (u "Deal Stage")); (u "Sector/service", VStr (u "Sector/service"));
      (u "Masked Deal value", VStr (u "Masked Deal value")) ];
    sample_deal;
    [ (u "Deal Name", VStr (u "Beta")); (u "Deal Status", VStr (u "Won"));
      (u "Deal Stage", VStr (u "g. Project Won")); (u "Sector/service", VNone);
      (u "Masked Deal value", VStr (u "1,00,000")) ] ].

Definition frame_of (r : result frame) : frame :=
  match r with Ok df => df | Raise _ => empty_frame end.

Definition three_clean : frame := frame_of (clean_deals fr db three_deals).

(** Two deals with every text field filled in; the value of the second
    one does not parse. *)
Definition two_deals : list rawrow :=
  [ sample_deal;
    [ (u "Deal Name", VStr (u "Beta")); (u "Deal Status", VStr (u "Won"));
      (u "Deal Stage", VStr (u "g. Project Won")); (u "Sector/service", VStr (u "railways"));
      (u "Masked Deal value", VStr (u "n/a")) ] ].

Definition deals_clean : frame := frame_of (clean_deals fr db two_deals).

Definition two_orders : list rawrow :=
  [ [ (u "Deal name masked", VStr (u "Alpha")); (u "Execution Status", VStr (u "Completed"));
      (u "Amount in Rupees (Excl of GST) (Masked)", VStr (u "₹1,23,456.78"));
      (u "Collected Amount in Rupees (Incl of GST.) (Masked)", VNone) ];
    [ (u "Deal name masked", VStr (u "Beta")); (u "Execution Status", VStr (u "Ongoing"));
      (u "Amount in Rupees (Excl of GST) (Masked)", VStr (u "n/a"));
      (u "Collected Amount in Rupees (Incl of GST.) (Masked)", VStr (u "500")) ] ].

Definition orders_clean : frame := frame_of (clean_workorders fr db two_orders).

End Run.

Import Run.

Definition payload_of (r : result (list (pystr * py))) : list (pystr * py) :=
  match r with Ok p => p | Raise _ => [] end.

Definition state_of (r : result state) : state :=
  match r with Ok s => s | Raise _ => start end.

(** The payload and the state after [get_board_items] on a board of [n]
    deals. *)
Definition items_of (n : nat) : list (pystr * py) :=
  payload_of (_run_tool fr db [] no_boards (board_with n) bi_agent (u "get_board_items") deals_args).

Definition captured (n : nat) : state :=
  state_of (capture fr db tick start (u "get_board_items") deals_args (items_of n)).

(** The cleaned collection of a board of 45 deals, and the frame the cleaner
    returns on the first 30 of its records. *)
Definition full_45 : frame := frame_of (clean_deals fr db (repeat sample_deal 45)).

Definition kept_30 : frame :=
  frame_of (clean_deals fr db (firstn 30 (to_records full_45))).

Definition unknown_call : tool_call :=
  {| tc_id := u "call_1"; tc_name := u "get_weather"; tc_arguments := u "{}" |}.

(** A model that asks for the columns of a board in every turn.  Its first
    seven calls carry the arguments [{}]; from the eighth call on the
    arguments are the JSON text [[]], which is not an object. *)
Definition insisting_model (n : nat) (_ : list message) : result reply :=
  Ok {| content := None;
        finish_reason := u "tool_calls";
        tool_calls := [ {| tc_id := u "call_" ++ of_nat n;
                           tc_name := u "get_board_columns";
                           tc_arguments := if n <? 8 then u "{}" else u "[]" |} ] |}.

(** The same model with the arguments [{}] in every turn. *)
Definition steady_model (n : nat) (_ : list message) : result reply :=
  Ok {| content := None;
        finish_reason := u "tool_calls";
        tool_calls := [ {| tc_id := u "call_" ++ of_nat n;
                           tc_name := u "get_board_columns";
                           tc_arguments := u "{}" |} ] |}.

(** The reply asks for tools: it did not finish with "stop" and it lists
    at least one call. *)
Definition requests_tools (r : reply) : Prop :=
  eqb (finish_reason r) (u "stop") = false /\ tool_calls r <> [].

(* ------------------------------------------------------------------ *)
(** * The loop bound *)

Section Loop.

Variable float_repr : Q -> pystr.
Variable ucd : unicode_db.
Variable env_monday_key : pystr.
Variable query_boards : pystr -> pystr -> result (list (pystr * list py)).
Variable get_all_items : pystr -> pystr -> result (list rawrow).
Variable json_loads : pystr -> result (option py).
Variable clock : nat -> pystr.
Variable SYSTEM : pystr.

Local Abbreviation loop model :=
  (agent_loop float_repr ucd env_monday_key query_boards get_all_items model json_loads clock).
Local Abbreviation run model :=
  (query float_repr ucd env_monday_key query_boards get_all_items model json_loads clock SYSTEM).
Local Abbreviation handle_all :=
  (handle_tool_calls float_repr ucd env_monday_key query_boards get_all_items json_loads clock).

Lemma loop_returns model a :
  forall fuel st, MAX_LOOPS - loop_count st < fuel -> exists r, loop model fuel a st = Some r.
Proof.
  induction fuel as [|fuel IH]; intros st Hf; [lia|].
  cbn [agent_loop]. destruct (loop_count st <? MAX_LOOPS) eqn:E; [|eexists; reflexivity].
  apply Nat.ltb_lt in E. cbn [messages loop_count].
  destruct (model (loop_count st + 1) (messages st)) as [msg|e]; [|eexists; reflexivity].
  destruct (eqb (finish_reason msg) (u "stop")
            || match tool_calls msg with [] => true | _ => false end);
    [eexists; reflexivity|].
  match goal with
  | |- context [handle_all a ?s ?t] => destruct (handle_all a s t) as [st'|e] eqn:H
  end; [|eexists; reflexivity].
  apply IH. apply handle_tool_calls_loop_count in H. rewrite H.
  cbn [add_message loop_count]. lia.
Qed.

Lemma loop_ignores_later_calls model model' a :
  (forall n msgs, n <= MAX_LOOPS -> model n msgs = model' n msgs) ->
  forall fuel st, loop model fuel a st = loop model' fuel a st.
Proof.
  intros Hm. induction fuel as [|fuel IH]; intros st; [reflexivity|].
  cbn [agent_loop]. destruct (loop_count st <? MAX_LOOPS) eqn:E; [|reflexivity].
  apply Nat.ltb_lt in E. cbn [messages loop_count].
  rewrite <- (Hm (loop_count st + 1) (messages st)) by lia.
  destruct (model (loop_count st + 1) (messages st)) as [msg|e]; [|reflexivity].
  destruct (eqb (finish_reason msg) (u "stop")
            || match tool_calls msg with [] => true | _ => false end); [reflexivity|].
  match goal with
  | |- context [handle_all a ?s ?t] => destruct (handle_all a s t) as [st'|e]
  end; [apply IH | reflexivity].
Qed.

Lemma loop_hits_limit model a :
  (forall n msgs, exists r,
      model n msgs = Ok r /\ requests_tools r /\
      Forall (object_arguments json_loads) (tool_calls r)) ->
  forall fuel st, MAX_LOOPS - loop_count st < fuel ->
    exists tr, loop model fuel a st =
               Some (Ok {| answer := LOOP_LIMIT_ANSWER; out_trace := tr; quality := None |}).
Proof.
  intros Hm. induction fuel as [|fuel IH]; intros st Hf; [lia|].
  cbn [agent_loop]. destruct (loop_count st <? MAX_LOOPS) eqn:E; [|eexists; reflexivity].
  apply Nat.ltb_lt in E. cbn [messages loop_count].
  destruct (Hm (loop_count st + 1) (messages st)) as (r & -> & [Hstop Hcalls] & Hargs).
  rewrite Hstop. destruct (tool_calls r) as [|tc tcs] eqn:Etc; [congruence|].
  cbn [orb].
  match goal with
  | |- context [handle_all a ?s ?t] =>
      destruct (handle_tool_calls_total float_repr ucd env_monday_key query_boards
                  get_all_items json_loads clock a t Hargs s) as (st' & H)
  end.
  rewrite H. apply IH. apply handle_tool_calls_loop_count in H. rewrite H.
  cbn [add_message loop_count]. lia.
Qed.

(** The agent loop is bounded.  Every query returns, whatever the model
    answers (an exception of the model or of the round ends it too); the
    model is called at most 8 times, so replies beyond the eighth call have
    no influence on the result; and when every reply asks for tools, with
    arguments that decode to an object or do not decode, the result is the
    fixed loop-limit answer with no quality report. *)
Theorem agent_loop_bounded a user_message history :
  (forall model, exists r, run model a user_message history = Some r) /\
  (forall model model',
      (forall n msgs, n <= 8 -> model n msgs = model' n msgs) ->
      run model a user_message history = run model' a user_message history) /\
  (forall model,
      (forall n msgs, exists r,
          model n msgs = Ok r /\ requests_tools r /\
          Forall (object_arguments json_loads) (tool_calls r)) ->
      exists tr,
        run model a user_message history =
        Some (Ok {| answer := LOOP_LIMIT_ANSWER; out_trace := tr; quality := None |})).
Proof.
  split; [|split].
  - intros model. apply loop_returns. simpl. unfold MAX_LOOPS. lia.
  - intros model model' Hm. apply loop_ignores_later_calls. exact Hm.
  - intros model Hm. apply loop_hits_limit; [exact Hm|]. simpl. unfold MAX_LOOPS. lia.
Qed.

End Loop.


(* ------------------------------------------------------------------ *)
(** * The cleaners on concrete rows *)

(** The cleaned frames used below are what the cleaners return. *)
Lemma three_deals_clean : clean_deals fr db three_deals = Ok three_clean.
Proof. vm_compute. reflexivity. Qed.

Lemma two_orders_clean : clean_workorders fr db two_orders = Ok orders_clean.
Proof. vm_compute. reflexivity. Qed.

(** The end-to-end example: of the three raw deals two are kept, the first
    one with stage group "Early Stage" and deal value 5000000.0, and the
    report flags the deal without a sector. *)
Example three_deals_end_to_end :
  nrows three_clean = 2 /\
  cell db three_clean (u "stage_group") 0 = VStr (u "Early Stage") /\
  cell db three_clean (u "deal_value") 0 = VFloat (FFin 5000000) /\
  exists r, quality_report db three_clean empty_frame = Ok r /\
            issues r = [u "1 deals have no sector"] /\
            deals_completeness r = u "80.0%" /\ wo_completeness r = u "100.0%".
Proof.
  split; [reflexivity|]. split; [vm_compute; reflexivity|].
  split; [vm_compute; reflexivity|].
  eexists. split; [vm_compute; reflexivity|]. repeat split.
Qed.

(** C1, the claim as stated fails: a status column that holds only numbers
    has no [.str] accessor, and [clean_deals] raises. *)
Lemma numeric_status_raises :
  exists rows,
    rows = [[(u "Deal Status", VFloat (dec 5 0))]] /\
    forall float_repr ucd,
      clean_deals float_repr ucd rows =
      Raise (AttributeError (u "Can only use .str accessor with string values!")).
Proof. eexists. split; [reflexivity|]. intros float_repr ucd. vm_compute. reflexivity. Qed.

(** C1, as amended, on the three deals and the two work orders. *)
Lemma cleaners_total_witness :
  (exists out, clean_deals fr db three_deals = Ok out /\ wf out /\
     forall col, In col (DEAL_REQUIRED ++ DEAL_ASSIGNED fr db) -> has_column col out = true) /\
  (exists out, clean_workorders fr db two_orders = Ok out /\ wf out /\
     nrows out = 2 /\
     (forall col, In col (WO_REQUIRED ++ WO_ASSIGNED fr db) -> has_column col out = true) /\
     (forall col i, In col WO_FINANCIALS -> i < 2 ->
        cell db out col i =
        VFloat (financial_value db (cell db (prepare_workorders two_orders) (raw_of col) i)))).
Proof.
  destruct (cleaners_total_on_text_rows fr db two_orders
              (textual_rowsb_sound two_orders eq_refl)
              (rectangularb_sound two_orders eq_refl)) as (_ & W & _).
  destruct (cleaners_total_on_text_rows fr db three_deals
              (textual_rowsb_sound three_deals eq_refl)
              (rectangularb_sound three_deals eq_refl)) as (D & _).
  split; [exact D | exact W].
Defined.

(** C2: the header repeat among the three deals is dropped. *)
Lemma sentinel_rows_witness :
  nrows three_clean = 2 /\
  column_cells db (u "deal_name") three_clean = [VStr (u "Alpha"); VStr (u "Beta")].
Proof.
  destruct (sentinel_rows_absent fr db three_deals three_clean three_deals_clean)
    as (N & C & _).
  split.
  - rewrite N. vm_compute. reflexivity.
  - rewrite (C (u "deal_name")); vm_compute; try reflexivity.
    intros H. repeat (destruct H as [H|H]; [discriminate H|]). exact H.
Defined.

(** C3, the claim as stated fails on the empty string: it has no
    letter-and-dot prefix, and it is normalised to null. *)
Lemma empty_stage_becomes_null :
  exists s,
    s = @nil N /\ stage_prefix (strip s) = None /\
    forall float_repr,
      normalise_stage float_repr (VStr s) = VNone /\
      normalise_stage float_repr (VStr s) <> VStr s.
Proof.
  exists []. split; [reflexivity|]. split; [reflexivity|].
  intros float_repr. split; [reflexivity | discriminate].
Qed.

Lemma two_deals_clean : clean_deals fr db two_deals = Ok deals_clean.
Proof. vm_compute. reflexivity. Qed.

(** C5 on two cleaned collections: 25 of the 30 cells of the deals are
    filled and 21 of the 36 cells of the work orders. *)
Lemma quality_report_witness :
  NoDup (colnames deals_clean) /\ NoDup (colnames orders_clean) /\
  non_null_cells deals_clean = 25 /\ non_null_cells orders_clean = 21 /\
  exists r, quality_report db deals_clean orders_clean = Ok r /\
            r = {| deals_rows := 2; wo_rows := 2;
                   deals_completeness := u "83.3%";
                   wo_completeness := u "58.3%";
                   issues := [u "1 deals have no deal value";
                              u "1 work orders have ₹0 / missing amount";
                              u "1 work orders show ₹0 collected"] |}.
Proof.
  pose proof (proj1 (proj1 (clean_deals_shape fr db two_deals deals_clean two_deals_clean)))
    as Hd.
  pose proof (proj1 (proj1 (clean_workorders_shape fr db two_orders orders_clean
                              two_orders_clean))) as Hw.
  split; [exact Hd|]. split; [exact Hw|].
  split; [vm_compute; reflexivity|]. split; [vm_compute; reflexivity|].
  destruct (quality_report_spec db deals_clean orders_clean Hd Hw) as (r & E & _).
  exists r. split; [exact E|].
  apply (Ok_inj r). rewrite <- E. vm_compute. reflexivity.
Defined.

(** [parse_number] reads the decimal digits of any script: the
    Arabic-Indic "١٢٣" is 123.0. *)
Example parse_number_arabic_digits :
  parse_number db (VStr (u "١٢٣")) = Some (FFin 123) /\
  parse_number db (VStr (u "₹ １２,５００")) = Some (FFin 12500).
Proof. split; vm_compute; reflexivity. Qed.

(** The records of a cleaned collection, as the payload carries them: the
    value that did not parse is NaN in the float column [deal_value], and
    the closure probability nobody supplied is [None]. *)
Example records_keep_nan :
  map (fun r => (dict_get (u "deal_value") r, dict_get (u "closure_probability") r))
      (to_records deals_clean)
  = [ (Some (VFloat (FFin 5000000)), Some VNone); (Some (VFloat FNaN), Some VNone) ].
Proof. vm_compute. reflexivity. Qed.

(* ------------------------------------------------------------------ *)
(** * The tools and the loop on concrete runs *)

(** [get_board_items] on a board of 45 deals, and the capture of its result. *)
Lemma items_45_run :
  _run_tool fr db [] no_boards (board_with 45) bi_agent (u "get_board_items") deals_args
  = Ok (items_of 45).
Proof. vm_compute. reflexivity. Qed.

Lemma items_45_captured :
  capture fr db tick start (u "get_board_items") deals_args (items_of 45) = Ok (captured 45).
Proof. vm_compute. reflexivity. Qed.

(** C6, the claim as stated fails twice: a board of one row is returned
    whole and still carries the truncation note; and the trace entry for a
    board of 45 rows records the total only, under [rows_fetched], with no
    field for the 30 returned rows. *)
Lemma note_without_truncation :
  (pydict_get (u "total_rows") (items_of 1) = Some (PInt 1) /\
   pydict_get (u "returned_rows") (items_of 1) = Some (PInt 1) /\
   pydict_get (u "note") (items_of 1) =
     Some (PStr (u "Output truncated to 30 rows due to API token limits"))) /\
  (pydict_get (u "total_rows") (items_of 45) = Some (PInt 45) /\
   pydict_get (u "returned_rows") (items_of 45) = Some (PInt 30) /\
   map (fun ev => map fst (ev_content ev)) (trace (captured 45)) =
     [[u "tool"; u "board"; u "rows_fetched"; u "columns"; u "sample"]] /\
   map (fun ev => pydict_get (u "rows_fetched") (ev_content ev)) (trace (captured 45)) =
     [Some (PInt 45)] /\
   map (fun ev => pydict_get (u "returned_rows") (ev_content ev)) (trace (captured 45)) =
     [None]).
Proof. vm_compute. repeat split. Qed.

(** C6, as amended, on a board of 45 deals. *)
Lemma board_items_witness :
  pydict_get (u "total_rows") (items_of 45) = Some (PInt 45) /\
  pydict_get (u "returned_rows") (items_of 45) = Some (PInt 30) /\
  exists ev, trace (captured 45) = [ev] /\
             pydict_get (u "rows_fetched") (ev_content ev) = Some (PInt 45).
Proof.
  destruct (board_items_payload_spec fr db [] no_boards (board_with 45) tick bi_agent start
              deals_args (items_of 45) (captured 45) items_45_run items_45_captured)
    as (b & df & _ & _ & _ & _ & _ & ev & T & _).
  split; [vm_compute; reflexivity|]. split; [vm_compute; reflexivity|].
  eexists. split; vm_compute; reflexivity.
Defined.

(** C10 on a board of 45 deals: the first cleaning gives 45 rows, which
    the payload reports as its total; the frame the loop keeps is what
    [clean_deals] returns on the 30 rows of the payload, and the report of
    the final answer counts 30 deals. *)
Lemma retained_frame_witness :
  clean_deals fr db (repeat sample_deal 45) = Ok full_45 /\
  nrows full_45 = 45 /\
  pydict_get (u "total_rows") (items_of 45) = Some (PInt 45) /\
  pydict_get (u "rows") (items_of 45) =
    Some (PList (map py_of_row (firstn 30 (to_records full_45)))) /\
  clean_deals fr db (firstn 30 (to_records full_45)) = Ok kept_30 /\
  fetched_deals_df (captured 45) = Some kept_30 /\
  nrows kept_30 = 30 /\
  kept_30 <> full_45 /\
  exists q, quality_report db kept_30 empty_frame = Ok q /\ deals_rows q = 30.
Proof.
  destruct (retained_frame_is_recleaned_prefix fr db [] no_boards (board_with 45) tick
              bi_agent start deals_args (items_of 45) (captured 45)
              items_45_run items_45_captured)
    as (b & raw & df & _).
  do 7 (split; [vm_compute; reflexivity|]).
  split; [intros H; apply (f_equal nrows) in H; vm_compute in H; discriminate|].
  eexists. split; vm_compute; reflexivity.
Defined.

(** C8, the claim as stated fails when no Monday API key is configured:
    the client is built before the tool name is looked at, so the call of
    an unknown tool raises the constructor's error, which is reported as a
    tool error; the payload is not "Unknown tool: get_weather". *)
Lemma unknown_tool_without_key :
  _run_tool fr db [] no_boards (board_with 1) keyless_agent (u "get_weather") []
  = Raise (ValueError (u "Monday API key is required")) /\
  messages (guarded_dispatch fr db [] no_boards (board_with 1) tick keyless_agent start
              unknown_call [])
  = messages start
    ++ [ToolMsg (u "call_1")
                (Json (PDict [(u "error", PStr (u "Monday API key is required"))]))] /\
  map ev_type (trace (guarded_dispatch fr db [] no_boards (board_with 1) tick keyless_agent
                        start unknown_call []))
  = [u "tool_error"].
Proof. vm_compute. repeat split. Qed.

(** With a key, the same call gives the "Unknown tool" payload. *)
Example unknown_tool_with_key :
  messages (guarded_dispatch fr db [] no_boards (board_with 1) tick bi_agent start
              unknown_call [])
  = messages start
    ++ [ToolMsg (u "call_1")
                (Json (PDict [(u "error", PStr (u "Unknown tool: get_weather"))]))].
Proof. vm_compute. reflexivity. Qed.

(** C7 on the steady model: eight rounds, each ending in a tool error that
    is fed back, then the loop-limit answer. *)
Example steady_model_hits_limit :
  exists tr,
    query fr db [] no_boards (board_with 1) steady_model loads tick (u "system") bi_agent
          (u "How is our pipeline looking?") []
    = Some (Ok {| answer := LOOP_LIMIT_ANSWER; out_trace := tr; quality := None |}) /\
    List.length tr = 16.
Proof. eexists. split; vm_compute; reflexivity. Qed.

(** C7, the code at the failing input: all eight turns of the model ask
    for a tool, and the arguments of the eighth are the JSON array [[]].
    [args.get] is called on the decoded list outside the [try], so the
    query ends with an [AttributeError] and returns no answer. *)
Theorem loop_aborts_on_array_arguments :
  query fr db [] no_boards (board_with 1) insisting_model loads tick (u "system") bi_agent
        (u "How is our pipeline looking?") []
  = Some (Raise (AttributeError (u "'list' object has no attribute 'get'"))).
Proof. vm_compute. reflexivity. Qed.


(** A failure of the decoder other than [JSONDecodeError] is not caught
    either: arguments nested too deeply end the query with the decoder's
    [RecursionError]. *)
Example decoder_failure_leaves_loop :
  query fr db [] no_boards (board_with 1)
        (fun n _ => Ok {| content := None; finish_reason := u "tool_calls";
                          tool_calls := [ {| tc_id := u "call_1";
                                             tc_name := u "get_board_items";
                                             tc_arguments := deep_text |} ] |})
        loads tick (u "system") bi_agent (u "How is our pipeline looking?") []
  = Some (Raise (RecursionError
                   (u "maximum recursion depth exceeded while decoding a JSON array from a unicode string"))).
Proof. vm_compute. reflexivity. Qed.
